(** * Screen Recorder Pro: capture session, upload client and recordings API

    A shallow embedding of the capture component ([ScreenRecorder]), the
    upload queue ([FileUpload]) and the route handlers of
    [/api/recordings] and [/api/recordings/[id]], with the properties the
    specification states about them.

    Conventions.
    - A JavaScript number is a double. Counters, sizes and times, which
      stay far below 2^53, are [Z]; a number read by [Number.parseInt] is a
      [num]: [NaN], an infinity, or the integer the double stands for, and
      arithmetic on these rounds as doubles do ([round53]).
    - Binary payloads are [list byte].
    - React state is a record; a function that a render creates and that
      reads [state] takes the value it closed over as an explicit argument
      (the argument is called [seen]).
    - Refs ([useRef]) are fields of the component record: they are shared
      by all renders, so every closure reads their current value. *)

From Stdlib Require Import ZArith List String Ascii Bool Lia QArith.
From Stdlib Require Import Numbers.DecimalString Numbers.DecimalPos.
From stdpp Require Import base option list strings gmap.

Import ListNotations.
Local Open Scope string_scope.
Local Open Scope Z_scope.

(** ** Binary objects *)

Record Blob := mkBlob {
  blob_bytes : list Byte.byte;
  blob_type : string
}.

Definition blob_size (b : Blob) : Z := Z.of_nat (length (blob_bytes b)).

(** [new Blob(parts, { type })]: the parts' bytes, one after the other. *)
Definition new_Blob (parts : list Blob) (type : string) : Blob :=
  {| blob_bytes := concat (map blob_bytes parts); blob_type := type |}.

(** ** Exceptions and promises *)

(** What a [catch] clause receives: an [Error] (a [DOMException] is one)
    with its [name] and [message], or some other thrown value. *)
Inductive Thrown :=
| ErrorObject (name message : string)
| NotAnError.

Inductive Outcome (A : Type) :=
| Resolved (a : A)
| Rejected (t : Thrown).
Arguments Resolved {A} a.
Arguments Rejected {A} t.

(** A [fetch] that rejects: what it rejects with, and whether the request
    had been served by then. The promise rejects when the request cannot be
    sent and also when the connection is lost before the answer arrives; in
    the second case the route has already run. *)
Record FetchFailure := mkFetchFailure {
  fetch_thrown : Thrown;
  fetch_served : bool
}.

(** ** Doubles *)

(** [n / d] to the nearest integer, a tie to the even one. *)
Definition nearest_even (n d : Z) : Z :=
  let q := n / d in
  let r := n mod d in
  if 2 * r <? d then q
  else if d <? 2 * r then q + 1
  else if Z.even q then q else q + 1.

(** [n / d] rounded to 53 significant bits, as a double keeps it: for
    [2^53 <= n / d] the result is the multiple of [2^e] nearest to
    [n / d], where [e] is the number of bits of the integer part beyond
    53. A quotient below [2^53] is first scaled by a power of two (see
    [percent]). Exponents stay far inside the range of a double in every
    use, except where [toNumber] tests for overflow. *)
Definition round53 (n d : Z) : Z :=
  let e := Z.log2 (n / d) - 52 in
  nearest_even n (d * 2 ^ e) * 2 ^ e.

(** ** The capture component (screen-recorder) *)

Module Recorder.

Inductive TrackKind := VideoTrack | AudioTrack.

(** Where a track comes from; [MixedAudio] is the track of the audio
    graph's [MediaStreamDestination]. *)
Inductive TrackOrigin := FromDisplay | FromMicrophone | MixedAudio.

Record Track := mkTrack { track_kind : TrackKind; track_origin : TrackOrigin }.

Definition MediaStream := list Track.

Definition is_video (t : Track) : bool :=
  match track_kind t with VideoTrack => true | AudioTrack => false end.
Definition is_audio (t : Track) : bool :=
  match track_kind t with AudioTrack => true | VideoTrack => false end.

Definition getVideoTracks (s : MediaStream) : list Track := List.filter is_video s.
Definition getAudioTracks (s : MediaStream) : list Track := List.filter is_audio s.

Record RecordingState := mkState {
  isRecording : bool;
  isPaused : bool;
  recordedBlob : option Blob;
  recordingTime : Z;
  stream : option MediaStream
}.

Inductive RecorderState := Inactive | RecordingNow.

Record MediaRecorder := mkRecorder {
  mr_stream : MediaStream;
  mr_mimeType : string;
  mr_videoBitsPerSecond : Z;
  mr_audioBitsPerSecond : Z;
  mr_timeslice : Z;
  mr_state : RecorderState
}.

(** The audio graph: nodes are created in order and named by their index;
    [ctx_edges] lists the [connect] calls. *)
Inductive AudioNode :=
| StreamSource (s : MediaStream)
| Gain (value : Q)
| StreamDestination.

Record AudioContext := mkCtx {
  ctx_nodes : list AudioNode;
  ctx_edges : list (nat * nat);
  ctx_closed : bool
}.

Record Component := mkComponent {
  state : RecordingState;
  micEnabled : bool;
  error : option string;
  mediaRecorderRef : option MediaRecorder;
  chunksRef : list Blob;
  timerRef : option nat;
  audioContextRef : option AudioContext;
  (** the blob whose preview [onstop] scheduled with [setTimeout] *)
  previewPending : option Blob;
  (** tracks on which [stop()] was called *)
  stoppedTracks : list Track;
  (** lines written with [console.warn] *)
  warnings : list string
}.

Definition set_state (f : RecordingState -> RecordingState) (c : Component) : Component :=
  {| state := f (state c); micEnabled := micEnabled c; error := error c;
     mediaRecorderRef := mediaRecorderRef c; chunksRef := chunksRef c;
     timerRef := timerRef c; audioContextRef := audioContextRef c;
     previewPending := previewPending c; stoppedTracks := stoppedTracks c;
     warnings := warnings c |}.

Definition set_error (e : option string) (c : Component) : Component :=
  {| state := state c; micEnabled := micEnabled c; error := e;
     mediaRecorderRef := mediaRecorderRef c; chunksRef := chunksRef c;
     timerRef := timerRef c; audioContextRef := audioContextRef c;
     previewPending := previewPending c; stoppedTracks := stoppedTracks c;
     warnings := warnings c |}.

Definition set_recorder (r : option MediaRecorder) (c : Component) : Component :=
  {| state := state c; micEnabled := micEnabled c; error := error c;
     mediaRecorderRef := r; chunksRef := chunksRef c;
     timerRef := timerRef c; audioContextRef := audioContextRef c;
     previewPending := previewPending c; stoppedTracks := stoppedTracks c;
     warnings := warnings c |}.

Definition set_chunks (l : list Blob) (c : Component) : Component :=
  {| state := state c; micEnabled := micEnabled c; error := error c;
     mediaRecorderRef := mediaRecorderRef c; chunksRef := l;
     timerRef := timerRef c; audioContextRef := audioContextRef c;
     previewPending := previewPending c; stoppedTracks := stoppedTracks c;
     warnings := warnings c |}.

Definition set_timer (t : option nat) (c : Component) : Component :=
  {| state := state c; micEnabled := micEnabled c; error := error c;
     mediaRecorderRef := mediaRecorderRef c; chunksRef := chunksRef c;
     timerRef := t; audioContextRef := audioContextRef c;
     previewPending := previewPending c; stoppedTracks := stoppedTracks c;
     warnings := warnings c |}.

Definition set_audioContext (a : option AudioContext) (c : Component) : Component :=
  {| state := state c; micEnabled := micEnabled c; error := error c;
     mediaRecorderRef := mediaRecorderRef c; chunksRef := chunksRef c;
     timerRef := timerRef c; audioContextRef := a;
     previewPending := previewPending c; stoppedTracks := stoppedTracks c;
     warnings := warnings c |}.

Definition set_preview (p : option Blob) (c : Component) : Component :=
  {| state := state c; micEnabled := micEnabled c; error := error c;
     mediaRecorderRef := mediaRecorderRef c; chunksRef := chunksRef c;
     timerRef := timerRef c; audioContextRef := audioContextRef c;
     previewPending := p; stoppedTracks := stoppedTracks c;
     warnings := warnings c |}.

Definition stop_tracks (ts : list Track) (c : Component) : Component :=
  {| state := state c; micEnabled := micEnabled c; error := error c;
     mediaRecorderRef := mediaRecorderRef c; chunksRef := chunksRef c;
     timerRef := timerRef c; audioContextRef := audioContextRef c;
     previewPending := previewPending c; stoppedTracks := stoppedTracks c ++ ts;
     warnings := warnings c |}.

Definition console_warn (w : string) (c : Component) : Component :=
  {| state := state c; micEnabled := micEnabled c; error := error c;
     mediaRecorderRef := mediaRecorderRef c; chunksRef := chunksRef c;
     timerRef := timerRef c; audioContextRef := audioContextRef c;
     previewPending := previewPending c; stoppedTracks := stoppedTracks c;
     warnings := warnings c ++ [w] |}.

(** The value [useState] is given: what the first render sees. *)
Definition mountState : RecordingState :=
  {| isRecording := false; isPaused := false; recordedBlob := None;
     recordingTime := 0; stream := None |}.

Definition mount : Component :=
  {| state := mountState; micEnabled := true; error := None;
     mediaRecorderRef := None; chunksRef := []; timerRef := None;
     audioContextRef := None; previewPending := None; stoppedTracks := [];
     warnings := [] |}.

(** *** Timer *)

Definition stopTimer (c : Component) : Component :=
  match timerRef c with
  | Some _ => set_timer None c
  | None => c
  end.

Definition close_audioContext (c : Component) : Component :=
  match audioContextRef c with
  | Some _ => set_audioContext None c
  | None => c
  end.

Definition recorder_stop (r : MediaRecorder) : MediaRecorder :=
  {| mr_stream := mr_stream r; mr_mimeType := mr_mimeType r;
     mr_videoBitsPerSecond := mr_videoBitsPerSecond r;
     mr_audioBitsPerSecond := mr_audioBitsPerSecond r;
     mr_timeslice := mr_timeslice r; mr_state := Inactive |}.

(** [stopRecording] is created anew by every render and reads that
    render's [state]: [seen] is the state of the render that created the
    function being called. The refs are read at call time. *)
Definition stopRecording (seen : RecordingState) (c : Component) : Component :=
  match mediaRecorderRef c with
  | Some r =>
      if isRecording seen then
        let c1 := set_recorder (Some (recorder_stop r)) c in
        let c2 := match stream seen with
                  | Some s => stop_tracks s c1
                  | None => c1
                  end in
        let c3 := set_state (fun prev =>
                    {| isRecording := isRecording prev; isPaused := isPaused prev;
                       recordedBlob := recordedBlob prev;
                       recordingTime := recordingTime prev; stream := None |}) c2 in
        close_audioContext (stopTimer c3)
      else c
  | None => c
  end.

(** The function [setInterval] runs every second. [stop] is the
    [stopRecording] the callback closed over. The updater returns [prev]
    unchanged at the limit and [prev] with one more second below it. *)
Definition timerCallback (stop : Component -> Component) (c : Component) : Component :=
  if 180 <=? recordingTime (state c) then stop c
  else set_state (fun prev =>
         {| isRecording := isRecording prev; isPaused := isPaused prev;
            recordedBlob := recordedBlob prev;
            recordingTime := recordingTime prev + 1; stream := stream prev |}) c.

(** [startTimer] is [useCallback(..., [])]: React keeps the function object
    of the first render for the whole life of the component, so the
    [stopRecording] named inside it is the first render's, and the [state]
    that one reads is [mountState]. *)
Definition intervalCallback : Component -> Component :=
  timerCallback (stopRecording mountState).

Definition startTimer (c : Component) : Component := set_timer (Some 1%nat) c.

(** *** Encoder callbacks *)

(** [mediaRecorder.ondataavailable] *)
Definition ondataavailable (data : Blob) (c : Component) : Component :=
  if 0 <? blob_size data then set_chunks (chunksRef c ++ [data]) c
  else console_warn "Empty data chunk received" c.

Definition emptyCaptureMessage : string :=
  "Recording completed but no data was captured. Please try again.".

(** [mediaRecorder.onstop], up to the point where it returns; the preview
    itself runs later from [setTimeout] and is recorded as pending. The
    object URL of an earlier preview, which the handler revokes, is not
    part of the model. *)
Definition onstop (mimeType : string) (c : Component) : Component :=
  let blob := new_Blob (chunksRef c) mimeType in
  let c1 := set_state (fun prev =>
              {| isRecording := false; isPaused := isPaused prev;
                 recordedBlob := Some blob;
                 recordingTime := recordingTime prev; stream := stream prev |}) c in
  let c2 := if 0 <? blob_size blob then set_preview (Some blob) c1
            else set_error (Some emptyCaptureMessage)
                   (console_warn "Blob is empty - no video data recorded" c1) in
  close_audioContext (stopTimer c2).

(** *** Starting a session *)

(** The browser as [startRecording] meets it: how the two permission
    prompts end, which encoder configurations [MediaRecorder] supports, and
    the text the engine puts in a [TypeError]. *)
Record Browser := mkBrowser {
  getDisplayMedia : Outcome MediaStream;
  getUserMedia : Outcome MediaStream;
  isTypeSupported : string -> bool;
  typeErrorMessage : string
}.

Definition new_AudioContext : AudioContext :=
  {| ctx_nodes := []; ctx_edges := []; ctx_closed := false |}.

(** [createMediaStreamSource], [createGain], [createMediaStreamDestination]:
    the new node's name and the graph with the node added. *)
Definition create (n : AudioNode) (a : AudioContext) : nat * AudioContext :=
  (length (ctx_nodes a),
   {| ctx_nodes := ctx_nodes a ++ [n]; ctx_edges := ctx_edges a;
      ctx_closed := ctx_closed a |}).

(** [node.gain.value = v] *)
Definition set_gain (i : nat) (v : Q) (a : AudioContext) : AudioContext :=
  {| ctx_nodes := <[i := Gain v]> (ctx_nodes a); ctx_edges := ctx_edges a;
     ctx_closed := ctx_closed a |}.

(** [a.connect(b)] *)
Definition connect (i j : nat) (a : AudioContext) : AudioContext :=
  {| ctx_nodes := ctx_nodes a; ctx_edges := ctx_edges a ++ [(i, j)];
     ctx_closed := ctx_closed a |}.

Definition mixedTrack : Track := mkTrack AudioTrack MixedAudio.

(** The body of the inner [try] after [getUserMedia] has resolved: the
    audio graph, and the stream made of the display's video track and the
    destination's audio track. [new MediaStream([undefined, track])]
    throws a [TypeError]; the graph built so far stays in
    [audioContextRef]. *)
Definition mixAudio (msg : string) (displayStream audioStream : MediaStream)
  : AudioContext * Outcome MediaStream :=
  let '(destination, a1) := create StreamDestination new_AudioContext in
  let a2 :=
    if (0 <? length (getAudioTracks displayStream))%nat then
      let '(displayAudio, b1) := create (StreamSource displayStream) a1 in
      let '(displayGain, b2) := create (Gain 1) b1 in
      let b3 := set_gain displayGain (7 # 10) b2 in
      connect displayGain destination (connect displayAudio displayGain b3)
    else a1 in
  let '(micAudio, a3) := create (StreamSource audioStream) a2 in
  let '(micGain, a4) := create (Gain 1) a3 in
  let a5 := set_gain micGain 1 a4 in
  let a6 := connect micGain destination (connect micAudio micGain a5) in
  match getVideoTracks displayStream with
  | videoTrack :: _ => (a6, Resolved [videoTrack; mixedTrack])
  | [] => (a6, Rejected (ErrorObject "TypeError" msg))
  end.

Definition micDeniedMessage : string :=
  "Microphone access denied. Recording system audio only.".

(** "Determine best codec" *)
Definition selectMimeType (b : Browser) : string :=
  if isTypeSupported b "video/webm;codecs=vp9,opus" then "video/webm;codecs=vp9,opus"
  else if isTypeSupported b "video/webm;codecs=vp8,opus" then "video/webm;codecs=vp8,opus"
  else "video/webm".

(** The [catch] of [startRecording] *)
Definition startErrorMessage (t : Thrown) : string :=
  "Failed to start recording. " ++
  match t with
  | ErrorObject name message =>
      if String.eqb name "NotAllowedError" then "Please grant screen sharing permissions."
      else if String.eqb name "NotFoundError" then "No screen sharing source available."
      else if String.eqb name "NotSupportedError" then
        "Screen recording is not supported in this browser."
      else message
  | NotAnError => ""
  end.

(** The part of [startRecording] from "Add microphone audio if enabled" to
    the end of that [if]: the stream given to the encoder. *)
Definition addMicrophone (b : Browser) (displayStream : MediaStream) (c : Component)
  : MediaStream * Component :=
  if micEnabled c then
    match getUserMedia b with
    | Resolved audioStream =>
        let '(ctx, made) := mixAudio (typeErrorMessage b) displayStream audioStream in
        let c1 := set_audioContext (Some ctx) c in
        match made with
        | Resolved finalStream => (finalStream, c1)
        | Rejected _ =>
            (displayStream,
             set_error (Some micDeniedMessage)
               (console_warn "Microphone access denied, recording without mic:" c1))
        end
    | Rejected _ =>
        (displayStream,
         set_error (Some micDeniedMessage)
           (console_warn "Microphone access denied, recording without mic:" c))
    end
  else (displayStream, c).

(** [new MediaRecorder(stream, { mimeType, ... })] throws
    [NotSupportedError] for a type the browser cannot record. *)
Definition new_MediaRecorder (b : Browser) (s : MediaStream) (mimeType : string)
  : Outcome MediaRecorder :=
  if isTypeSupported b mimeType then
    Resolved {| mr_stream := s; mr_mimeType := mimeType;
                mr_videoBitsPerSecond := 2500000; mr_audioBitsPerSecond := 128000;
                mr_timeslice := 0; mr_state := Inactive |}
  else Rejected (ErrorObject "NotSupportedError" "").

(** [mediaRecorder.start(1000)] *)
Definition recorder_start (timeslice : Z) (r : MediaRecorder) : MediaRecorder :=
  {| mr_stream := mr_stream r; mr_mimeType := mr_mimeType r;
     mr_videoBitsPerSecond := mr_videoBitsPerSecond r;
     mr_audioBitsPerSecond := mr_audioBitsPerSecond r;
     mr_timeslice := timeslice; mr_state := RecordingNow |}.

Definition startRecording (b : Browser) (c : Component) : Component :=
  let c0 := set_error None c in
  match getDisplayMedia b with
  | Rejected t => set_error (Some (startErrorMessage t)) c0
  | Resolved displayStream =>
      let '(finalStream, c1) := addMicrophone b displayStream c0 in
      let mimeType := selectMimeType b in
      match new_MediaRecorder b finalStream mimeType with
      | Rejected t => set_error (Some (startErrorMessage t)) c1
      | Resolved mediaRecorder =>
          let c2 := set_chunks [] c1 in
          let c3 := set_recorder (Some (recorder_start 1000 mediaRecorder)) c2 in
          let c4 := set_state (fun prev =>
                      {| isRecording := true; isPaused := isPaused prev;
                         recordedBlob := None; recordingTime := 0;
                         stream := Some finalStream |}) c3 in
          let c5 := startTimer c4 in
          match getVideoTracks finalStream with
          | _ :: _ => c5
          | [] => set_error (Some (startErrorMessage
                                     (ErrorObject "TypeError" (typeErrorMessage b)))) c5
          end
      end
  end.

(** *** Events of a running session *)

Inductive Event :=
| Tick                       (* the interval fires, if it has not been cleared *)
| DataAvailable (b : Blob)   (* the encoder delivers a fragment *)
| RecorderStop               (* the encoder's [stop] event *)
| ClickStop.                 (* the Stop button of the current render *)

Definition recorder_mimeType (c : Component) : string :=
  match mediaRecorderRef c with
  | Some r => mr_mimeType r
  | None => ""
  end.

Definition handle (c : Component) (e : Event) : Component :=
  match e with
  | Tick => match timerRef c with
            | Some _ => intervalCallback c
            | None => c
            end
  | DataAvailable b => ondataavailable b c
  | RecorderStop => onstop (recorder_mimeType c) c
  | ClickStop => stopRecording (state c) c
  end.

Definition run (c : Component) (evs : list Event) : Component :=
  fold_left handle evs c.

(** The fragments a run of events delivers, in order. *)
Fixpoint fragments_of (evs : list Event) : list Blob :=
  match evs with
  | DataAvailable b :: r => b :: fragments_of r
  | _ :: r => fragments_of r
  | [] => []
  end.

Definition positive_length (b : Blob) : bool := 0 <? blob_size b.

(** The branches of an audio graph: every source that feeds a gain node
    which feeds a destination, with that gain. *)
Definition feeds_destination (a : AudioContext) (g : nat) : bool :=
  existsb (fun e => Nat.eqb (fst e) g
                    && match ctx_nodes a !! snd e with
                       | Some StreamDestination => true
                       | _ => false
                       end)
          (ctx_edges a).

Definition branches (a : AudioContext) : list (MediaStream * Q) :=
  flat_map (fun e =>
              match ctx_nodes a !! fst e, ctx_nodes a !! snd e with
              | Some (StreamSource s), Some (Gain v) =>
                  if feeds_destination a (snd e) then [(s, v)] else []
              | _, _ => []
              end)
           (ctx_edges a).

(** A session that is recording: the state says so, the timer runs and
    the encoder is active. *)
Definition recording_session (c : Component) : Prop :=
  isRecording (state c) = true
  /\ timerRef c <> None
  /\ exists r, mediaRecorderRef c = Some r /\ mr_state r = RecordingNow.

(** A session that has been stopped: the encoder is inactive and the
    timer is cleared. *)
Definition stopped_session (c : Component) : Prop :=
  timerRef c = None
  /\ exists r, mediaRecorderRef c = Some r /\ mr_state r = Inactive.

End Recorder.

(** ** The upload queue (file-upload) *)

Module Upload.

Inductive Status := pending | uploading | success | error.

Record File := mkFile { file_name : string; file_type : string; file_size : Z }.

Record UploadFile := mkUploadFile {
  id : string;
  file : File;
  progress : Z;
  status : Status;
  error_text : option string;
  retryCount : Z
}.

(** The component's state [uploadFiles], with what the page observes
    beside it: the requests handed to [xhr.send], the exceptions that
    left an event listener and were caught by nobody, and the calls of
    [onUploadComplete]. *)
Record Queue := mkQueue {
  uploadFiles : list UploadFile;
  sent : list string;
  uncaught : list string;
  completed : nat
}.

Definition setUploadFiles (f : list UploadFile -> list UploadFile) (q : Queue) : Queue :=
  {| uploadFiles := f (uploadFiles q); sent := sent q; uncaught := uncaught q;
     completed := completed q |}.

Definition xhr_send (i : string) (q : Queue) : Queue :=
  {| uploadFiles := uploadFiles q; sent := sent q ++ [i]; uncaught := uncaught q;
     completed := completed q |}.

Definition throw_in_listener (msg : string) (q : Queue) : Queue :=
  {| uploadFiles := uploadFiles q; sent := sent q; uncaught := uncaught q ++ [msg];
     completed := completed q |}.

Definition onUploadComplete (q : Queue) : Queue :=
  {| uploadFiles := uploadFiles q; sent := sent q; uncaught := uncaught q;
     completed := S (completed q) |}.

Definition update (i : string) (g : UploadFile -> UploadFile) (l : list UploadFile)
  : list UploadFile :=
  map (fun f => if String.eqb (id f) i then g f else f) l.

Definition mark_uploading (f : UploadFile) : UploadFile :=
  {| id := id f; file := file f; progress := 0; status := uploading;
     error_text := None; retryCount := retryCount f |}.

Definition mark_error (msg : string) (f : UploadFile) : UploadFile :=
  {| id := id f; file := file f; progress := progress f; status := error;
     error_text := Some msg; retryCount := retryCount f + 1 |}.

Definition mark_success (f : UploadFile) : UploadFile :=
  {| id := id f; file := file f; progress := 100; status := success;
     error_text := error_text f; retryCount := retryCount f |}.

Definition mark_progress (p : Z) (f : UploadFile) : UploadFile :=
  {| id := id f; file := file f; progress := p; status := status f;
     error_text := error_text f; retryCount := retryCount f |}.

Definition catchMessage (t : Thrown) : string :=
  match t with
  | ErrorObject _ message => message
  | NotAnError => "Upload failed"
  end.

(** [uploadFile]: the item is marked, then the [try] block builds the form
    and the request, registers the listeners and sends. [thrown] is what
    the [try] block itself throws, if anything; only that reaches the
    [catch]. The function returns as soon as the request is sent. *)
Definition uploadFile (thrown : option Thrown) (u : UploadFile) (q : Queue) : Queue :=
  let q1 := setUploadFiles (update (id u) mark_uploading) q in
  match thrown with
  | Some t => setUploadFiles (update (id u) (mark_error (catchMessage t))) q1
  | None => xhr_send (id u) q1
  end.

(** What the request does after [uploadFile] has returned. *)
Inductive XhrEvent :=
| ProgressEvent (lengthComputable : bool) (loaded total : Z)
| LoadEvent (http_status : Z) (errorField : option string)
| ErrorEvent
| TimeoutEvent.

(** [Math.round((loaded / total) * 100)] for the fields of a progress
    event with [lengthComputable] ([total > 0]): the quotient is rounded to
    a double, so is the product, and [Math.round] takes the nearest
    integer, a half upwards. The two doubles are kept as integers over the
    common denominator [scale], a power of two large enough for both to
    have more than 53 bits. *)
Definition percent (loaded total : Z) : Z :=
  if loaded <=? 0 then 0
  else
    let scale := 2 ^ (Z.log2 total + 54) in
    let quotient := round53 (loaded * scale) total in
    let product := round53 (100 * quotient) 1 in
    (2 * product + scale) / (2 * scale).

(** The listeners [uploadFile] registered for the item [i]. A [throw]
    inside a listener runs after [uploadFile]'s [try] has been left: it
    changes nothing in [uploadFiles]. *)
Definition listener (i : string) (e : XhrEvent) (q : Queue) : Queue :=
  match e with
  | ProgressEvent lengthComputable loaded total =>
      if lengthComputable
      then setUploadFiles (update i (mark_progress (percent loaded total))) q
      else q
  | LoadEvent http_status errorField =>
      if http_status =? 200
      then onUploadComplete (setUploadFiles (update i mark_success) q)
      else throw_in_listener
             (match errorField with
              | Some m => if String.eqb m "" then "Upload failed" else m
              | None => "Upload failed"
              end) q
  | ErrorEvent => throw_in_listener "Network error during upload" q
  | TimeoutEvent => throw_in_listener "Upload timeout" q
  end.

Definition retryUpload (thrown : option Thrown) (f : UploadFile) (q : Queue) : Queue :=
  if retryCount f <? 3 then uploadFile thrown f q else q.

(** The controls the list renders for an item. *)
Definition retryButtonShown (f : UploadFile) : bool :=
  match status f with error => retryCount f <? 3 | _ => false end.

Definition uploadButtonShown (f : UploadFile) : bool :=
  match status f with pending => true | _ => false end.

Definition is_pending_or_error (f : UploadFile) : bool :=
  match status f with pending | error => true | _ => false end.

Definition is_uploading (f : UploadFile) : bool :=
  match status f with uploading => true | _ => false end.

Definition pendingCount (q : Queue) : nat :=
  length (List.filter is_pending_or_error (uploadFiles q)).

Definition uploadingCount (q : Queue) : nat :=
  length (List.filter is_uploading (uploadFiles q)).

(** "Upload All" is rendered when something is pending and is disabled
    while something is uploading. *)
Definition uploadAllUsable (q : Queue) : bool :=
  (0 <? pendingCount q)%nat && (uploadingCount q =? 0)%nat.

(** [uploadAll]: every pending or failed item of the render's list in
    turn, skipping those that failed three times. *)
Definition uploadAll (thrown : UploadFile -> option Thrown) (q : Queue) : Queue :=
  fold_left
    (fun acc f =>
       if (match error_text f with Some m => negb (String.eqb m "") | None => false end)
          && (3 <=? retryCount f)
       then acc else uploadFile (thrown f) f acc)
    (List.filter is_pending_or_error (uploadFiles q)) q.

Definition lookup_item (i : string) (q : Queue) : option UploadFile :=
  find (fun f => String.eqb (id f) i) (uploadFiles q).

(** The ways a request fails after it was sent. *)
Definition failure_event (e : XhrEvent) : bool :=
  match e with
  | ErrorEvent | TimeoutEvent => true
  | LoadEvent http_status _ => negb (http_status =? 200)
  | ProgressEvent _ _ _ => false
  end.

End Upload.

(** ** JavaScript numbers and strings as the routes use them *)

(** The numbers the routes compute with: [NaN], an integer, or an
    infinity. Every double of magnitude 2^53 or more is an integer, and the
    routes make no fractions. *)
Inductive num := NaN | Num (z : Z) | Inf (negative : bool).

(** The double that stands for the integer [z]: [z] itself up to 2^53,
    the nearest double beyond, an infinity from 2^1024 on. *)
Definition toNumber (z : Z) : num :=
  let a := Z.abs z in
  let r := if a <? 2 ^ 53 then a else round53 a 1 in
  if 2 ^ 1024 <=? r then Inf (z <? 0) else Num (Z.sgn z * r).

(** [a + b] and [a - b] *)
Definition num_add (a b : num) : num :=
  match a, b with
  | Num x, Num y => toNumber (x + y)
  | Inf s, Num _ | Num _, Inf s => Inf s
  | Inf s, Inf t => if Bool.eqb s t then Inf s else NaN
  | _, _ => NaN
  end.

Definition num_neg (a : num) : num :=
  match a with
  | NaN => NaN
  | Num x => Num (- x)
  | Inf s => Inf (negb s)
  end.

Definition num_sub (a b : num) : num := num_add a (num_neg b).

(** [a < b]; a comparison with [NaN] is false. *)
Definition num_ltb (a b : num) : bool :=
  match a, b with
  | Num x, Num y => x <? y
  | Num _, Inf s => negb s
  | Inf s, Num _ => s
  | Inf s, Inf t => s && negb t
  | _, _ => false
  end.

(** The decimal digits of an integer. *)
Definition Z_toString (z : Z) : string := NilZero.string_of_int (Z.to_int z).

Definition ndigits (s : Z) : Z := Z.of_nat (String.length (Z_toString s)).

(** [Number::toString] looks for the decimal [s * 10^p] with the fewest
    digits [s] that reads back as the same double; among these for the one
    nearest to it. The candidates for a given [p] are the two multiples of
    [10^p] around [x]; each is kept with its number of digits and its
    distance from [x]. An [s] that ends in 0 is left to the next [p]. *)
Definition candidate (x p s : Z) : option (Z * Z * Z * Z) :=
  if (0 <? s) && negb (s mod 10 =? 0)
     && (match toNumber (s * 10 ^ p) with Num y => y =? x | _ => false end)
  then Some (ndigits s, Z.abs (s * 10 ^ p - x), s, p) else None.

Definition better (a b : Z * Z * Z * Z) : bool :=
  let '(ka, da, sa, _) := a in
  let '(kb, db, sb, _) := b in
  (ka <? kb) || ((ka =? kb) && ((da <? db) || ((da =? db) && Z.even sa && negb (Z.even sb)))).

Definition pick (best c : option (Z * Z * Z * Z)) : option (Z * Z * Z * Z) :=
  match best, c with
  | Some b, Some a => if better a b then Some a else Some b
  | None, _ => c
  | _, None => best
  end.

(** The digits [s] and the exponent [p] for a double [x > 2^53]. *)
Definition shortest (x : Z) : Z * Z :=
  let best :=
    fold_left (fun best p =>
                 let s := x / 10 ^ Z.of_nat p in
                 pick (pick best (candidate x (Z.of_nat p) s))
                      (candidate x (Z.of_nat p) (s + 1)))
              (seq 0 (S (Z.to_nat (ndigits x)))) None in
  match best with
  | Some (_, _, s, p) => (s, p)
  | None => (x, 0)
  end.

Fixpoint zeros (n : nat) : string :=
  match n with
  | O => EmptyString
  | S n' => String "0" (zeros n')
  end.

(** Up to 2^53 all digits are printed: no other decimal of as few digits
    is as near. Beyond, the shortest digits are followed by zeros, and from
    21 digits on the exponent is written out. *)
Definition positive_toString (x : Z) : string :=
  if x <=? 2 ^ 53 then Z_toString x
  else
    let '(s, p) := shortest x in
    let n := ndigits s + p in
    if n <=? 21 then Z_toString s ++ zeros (Z.to_nat p)
    else
      match Z_toString s with
      | String d rest =>
          String d (if String.eqb rest "" then "" else String "." rest)
            ++ "e+" ++ Z_toString (n - 1)
      | EmptyString => EmptyString
      end.

(** [String(n)], [n.toString()] and [n] inside a template literal. *)
Definition num_toString (n : num) : string :=
  match n with
  | NaN => "NaN"
  | Num z => if z <? 0 then String "-" (positive_toString (- z)) else positive_toString z
  | Inf false => "Infinity"
  | Inf true => "-Infinity"
  end.

(** [a || b] for a number kept as an integer: [NaN] and [0] are falsy. An
    infinity is kept as the magnitude 2^1024, which no double has; every
    bound of the schema treats it as it treats the infinity. *)
Definition num_or (a : num) (b : Z) : Z :=
  match a with
  | NaN => b
  | Num z => if z =? 0 then b else z
  | Inf s => if s then - 2 ^ 1024 else 2 ^ 1024
  end.

(** White space that [parseInt] and [trim] skip, among the characters a
    one-byte string can hold. *)
Definition is_space (a : ascii) : bool :=
  let n := N_of_ascii a in
  ((9 <=? n) && (n <=? 13) || (n =? 32) || (n =? 160))%N.

Fixpoint skip_space (s : string) : string :=
  match s with
  | String a r => if is_space a then skip_space r else s
  | EmptyString => EmptyString
  end.

(** The value of a digit in radix [R], if it is one. *)
Definition digit_value (R : Z) (a : ascii) : option Z :=
  let n := Z.of_N (N_of_ascii a) in
  let v := if (48 <=? n) && (n <=? 57) then n - 48
           else if (97 <=? n) && (n <=? 122) then n - 87
           else if (65 <=? n) && (n <=? 90) then n - 55
           else 36 in
  if v <? R then Some v else None.

(** The longest prefix of digits, read left to right; [None] when the
    first character is no digit. *)
Fixpoint read_digits (R : Z) (acc : option Z) (s : string) : option Z :=
  match s with
  | String a r =>
      match digit_value R a with
      | Some v => read_digits R (Some (R * default 0 acc + v)) r
      | None => acc
      end
  | EmptyString => acc
  end.

Definition strip_hex_prefix (s : string) : option string :=
  match s with
  | String "0" (String "x" r) => Some r
  | String "0" (String "X" r) => Some r
  | _ => None
  end.

(** The integer a numeral stands for, as the algorithm of [parseInt]
    reads it before it makes a Number of it; [radix = None] is the
    one-argument call, which reads a [0x] prefix as hexadecimal. *)
Definition parseInt (s : string) (radix : option Z) : num :=
  let s1 := skip_space s in
  let '(sign, s2) := match s1 with
                     | String "-" r => (-1, r)
                     | String "+" r => (1, r)
                     | _ => (1, s1)
                     end in
  let '(R, s3) := match radix with
                  | Some R => (R, s2)
                  | None => match strip_hex_prefix s2 with
                            | Some r => (16, r)
                            | None => (10, s2)
                            end
                  end in
  match read_digits R None s3 with
  | Some n => Num (sign * n)
  | None => NaN
  end.

(** [Number.parseInt(s, radix)]: the integer read, as a double. *)
Definition Number_parseInt (s : string) (radix : option Z) : num :=
  match parseInt s radix with
  | Num z => toNumber z
  | n => n
  end.

(** [s.startsWith(p)] *)
Fixpoint startsWith (p s : string) : bool :=
  match p, s with
  | EmptyString, _ => true
  | String a p', String b s' => if Ascii.eqb a b then startsWith p' s' else false
  | String _ _, EmptyString => false
  end.

Fixpoint drop_chars (n : nat) (s : string) : string :=
  match n, s with
  | S n', String _ r => drop_chars n' r
  | _, _ => s
  end.

(** [s.replace(/p/, "")] for a pattern of plain characters: the first
    occurrence of [p] is removed. *)
Fixpoint remove_first (p s : string) : string :=
  if startsWith p s then drop_chars (String.length p) s
  else match s with
       | String a r => String a (remove_first p r)
       | EmptyString => EmptyString
       end.

(** [s.split(sep)] for a one-character separator. *)
Fixpoint split (sep : ascii) (s : string) : list string :=
  match s with
  | EmptyString => [EmptyString]
  | String a r =>
      if Ascii.eqb a sep then EmptyString :: split sep r
      else match split sep r with
           | h :: t => String a h :: t
           | [] => [String a EmptyString]
           end
  end.

Fixpoint rev_string (acc s : string) : string :=
  match s with
  | String a r => rev_string (String a acc) r
  | EmptyString => acc
  end.

(** [s.trim()] *)
Definition trim (s : string) : string :=
  rev_string "" (skip_space (rev_string "" (skip_space s))).

(** A string of nothing but white space. *)
Fixpoint all_space (s : string) : bool :=
  match s with
  | String a r => is_space a && all_space r
  | EmptyString => true
  end.

(** The number a decimal numeral stands for, read left to right onto
    [acc] as [read_digits] does. *)
Fixpoint uint_value (d : Decimal.uint) (acc : Z) : Z :=
  match d with
  | Decimal.Nil => acc
  | Decimal.D0 l => uint_value l (10 * acc + 0)
  | Decimal.D1 l => uint_value l (10 * acc + 1)
  | Decimal.D2 l => uint_value l (10 * acc + 2)
  | Decimal.D3 l => uint_value l (10 * acc + 3)
  | Decimal.D4 l => uint_value l (10 * acc + 4)
  | Decimal.D5 l => uint_value l (10 * acc + 5)
  | Decimal.D6 l => uint_value l (10 * acc + 6)
  | Decimal.D7 l => uint_value l (10 * acc + 7)
  | Decimal.D8 l => uint_value l (10 * acc + 8)
  | Decimal.D9 l => uint_value l (10 * acc + 9)
  end.

(** The text that follows a number does not go on with a digit. *)
Definition no_digit_ahead (rest : string) : Prop :=
  match rest with
  | String a _ => digit_value 10 a = None
  | EmptyString => True
  end.

Fixpoint dashless (s : string) : bool :=
  match s with
  | String a r => negb (Ascii.eqb a "-") && dashless r
  | EmptyString => true
  end.

(** ** The recordings API *)

Module Server.

(** A file of the GridFS bucket ["recordings"]: its chunk-set put back
    together, with the upload's metadata. *)
Record GridFile := mkGridFile {
  gf_filename : string;
  gf_content : list Byte.byte;
  gf_originalName : string;
  gf_contentType : string
}.

(** [file.length]; a file holds what a [Buffer] held, so its length is
    below 2^53 and a double keeps it as it is. *)
Definition gf_length (f : GridFile) : Z := Z.of_nat (length (gf_content f)).

(** A document of the [Recording] model. *)
Record RecordingDoc := mkRecordingDoc {
  rec_title : string;
  rec_filename : string;
  rec_fileId : string;
  rec_size : Z;
  rec_duration : Z;
  rec_contentType : string;
  rec_createdAt : string
}.

(** What was done to the store, oldest first. [ChunksDeleted] is a
    chunk-set removed whole, its files document and its chunks;
    [FilesDocDeleted] is a files document removed with its chunks left
    behind. *)
Inductive Op :=
| ChunksWritten (fileId : string)
| ChunksDeleted (fileId : string)
| FilesDocDeleted (fileId : string)
| RecordSaved (recordId : string)
| RecordDeleted (recordId : string).

Record Db := mkDb {
  recordings : gmap string RecordingDoc;
  fs_files : gmap string GridFile;
  oplog : list Op
}.

(** [bucket.delete] makes two calls: [deleteOne] on the files collection,
    then [deleteMany] on the chunks. Either can fail. *)
Inductive DeleteFault :=
| FilesDeleteFails
| ChunksDeleteFails.

(** The calls a route makes before it writes anything, each of which can
    reject: [connectToDatabase()], [Recording.findById(id)] and
    [bucket.find(...)]. They sit in the same [try] and end in the same
    [catch]. *)
Inductive DatabaseFault :=
| ConnectFails
| FindByIdFails
| BucketFindFails.

(** What a request meets outside the route: the driver's [ObjectId.isValid],
    operations of the database that fail for reasons of their own, the
    clock, and the identifiers the driver generates. *)
Record Env := mkEnv {
  ObjectId_isValid : string -> bool;
  database_fault : option DatabaseFault;
  bucket_delete_fault : option DeleteFault;
  findByIdAndDelete_fails : bool;
  upload_fails : bool;
  insert_fails : bool;
  now_iso : string;
  now_locale : string;
  new_fileId : string;
  new_recordId : string
}.

(** The database does not answer: [connectToDatabase()] rejects, or one
    of the two queries after it does. *)
Definition connectToDatabase_fails (env : Env) : bool :=
  match database_fault env with
  | Some _ => true
  | None => false
  end.

(** [connectToDatabase()] itself rejects. *)
Definition connect_fails (env : Env) : bool :=
  match database_fault env with
  | Some ConnectFails => true
  | _ => false
  end.

(** [connectToDatabase()] or [findById] rejects. *)
Definition lookup_fails (env : Env) : bool :=
  match database_fault env with
  | Some ConnectFails | Some FindByIdFails => true
  | _ => false
  end.

(** One of the two calls of [bucket.delete] fails. *)
Definition bucket_delete_fails (env : Env) : bool :=
  match bucket_delete_fault env with
  | Some _ => true
  | None => false
  end.

(** [bucket.openDownloadStream(id, { start, end })], not yet read. *)
Record DownloadStream := mkStream {
  ds_fileId : string;
  ds_range : option (num * num)
}.

Inductive Body :=
| ErrorJson (error : string)
| MessageJson (message : string)
| UploadedJson (message recordId url : string)
| StreamBody (s : DownloadStream).

Record Response := mkResponse {
  status : Z;
  headers : list (string * string);
  body : Body
}.

Definition dquote : ascii := ascii_of_N 34.

(** [NextResponse.json(body, { status })] *)
Definition json (st : Z) (b : Body) : Response :=
  {| status := st; headers := [("content-type", "application/json")]; body := b |}.

Definition slice (start stop : Z) (l : list Byte.byte) : list Byte.byte :=
  take (Z.to_nat (stop - start)) (drop (Z.to_nat start) l).

(** The errors a download stream ends in when it is first read: the file
    is not in the bucket, or the options do not fit the file. *)
Inductive StreamError :=
| FileNotFound
| StartBeyondLength
| StartNegative
| EndBeforeStart
| EndBeyondLength.

(** The checks the driver makes, in its order, when the stream is first
    read: the files document must exist; an empty file ends the stream at
    once; then [start > length], [start < 0], [end < start] and
    [end > length] are errors. *)
Definition stream_error (db : Db) (s : DownloadStream) : option StreamError :=
  match fs_files db !! ds_fileId s with
  | None => Some FileNotFound
  | Some f =>
      if gf_length f <=? 0 then None
      else
        match ds_range s with
        | None => None
        | Some (a, b) =>
            if num_ltb (Num (gf_length f)) a then Some StartBeyondLength
            else if num_ltb a (Num 0) then Some StartNegative
            else if num_ltb b a then Some EndBeforeStart
            else if num_ltb (Num (gf_length f)) b then Some EndBeyondLength
            else None
        end
  end.

(** Reading a download stream to its end: the whole file without options,
    the bytes from [start] up to and excluding [end] with them (none when
    the two are equal). [None] is a stream that ends in an error, or one
    whose options are not both integers, for which the driver promises
    nothing. The route never asks for an [end] of 0 on a file that is not
    empty. *)
Definition stream_bytes (db : Db) (s : DownloadStream) : option (list Byte.byte) :=
  match fs_files db !! ds_fileId s with
  | None => None
  | Some f =>
      match ds_range s with
      | None => Some (gf_content f)
      | Some (Num a, Num b) =>
          if gf_length f <=? 0 then Some []
          else if (0 <=? a) && (a <=? b) && (b <=? gf_length f)
          then Some (slice a b (gf_content f)) else None
      | Some _ => if gf_length f <=? 0 then Some [] else None
      end
  end.

(** *** GET and DELETE /api/recordings/[id] *)

Module RecordingById.

(** The two numbers the route reads from a [Range] header. *)
Definition rangeStart (range : string) : num :=
  let parts := split "-" (remove_first "bytes=" range) in
  Number_parseInt (nth 0 parts "") (Some 10).

Definition rangeEnd (range : string) (length : Z) : num :=
  let parts := split "-" (remove_first "bytes=" range) in
  match parts !! 1%nat with
  | Some p => if String.eqb p "" then num_sub (Num length) (Num 1)
              else Number_parseInt p (Some 10)
  | None => num_sub (Num length) (Num 1)
  end.

(** [recording.contentType || "video/webm"] *)
Definition contentTypeOf (r : RecordingDoc) : string :=
  if String.eqb (rec_contentType r) "" then "video/webm" else rec_contentType r.

Definition is_lower_hex (a : ascii) : bool :=
  let n := N_of_ascii a in
  ((48 <=? n) && (n <=? 57) || (97 <=? n) && (n <=? 102))%N.

Fixpoint all_lower_hex (s : string) : bool :=
  match s with
  | String a r => is_lower_hex a && all_lower_hex r
  | EmptyString => true
  end.

(** The text of an [ObjectId] as the store keeps it and the routes print
    it: 24 hexadecimal digits in lower case. *)
Definition stored_form (id : string) : bool :=
  Nat.eqb (String.length id) 24 && all_lower_hex id.

(** The route calls [connectToDatabase], [findById] and [bucket.find]; a
    rejection of any of them is answered by the [catch].

    [id] is looked up as the store keeps it: [findById] casts the text
    to an [ObjectId], and the keys of [recordings] are ids in their
    [stored_form]. For an id written otherwise (in upper case) the lookup
    here is not the one [findById] makes. *)
Definition GET (env : Env) (db : Db) (id : string) (range : option string) : Response :=
  if negb (ObjectId_isValid env id) then json 400 (ErrorJson "Invalid recording ID")
  else if connectToDatabase_fails env then json 500 (ErrorJson "Failed to stream recording")
  else
    match recordings db !! id with
    | None => json 404 (ErrorJson "Recording not found")
    | Some recording =>
        match fs_files db !! rec_fileId recording with
        | None => json 404 (ErrorJson "Recording file not found")
        | Some file =>
            let ranged r :=
              let start := rangeStart r in
              let end_ := rangeEnd r (gf_length file) in
              let chunksize := num_add (num_sub end_ start) (Num 1) in
              {| status := 206;
                 headers :=
                   [("Content-Range",
                     "bytes " ++ num_toString start ++ "-" ++ num_toString end_
                       ++ "/" ++ Z_toString (gf_length file));
                    ("Accept-Ranges", "bytes");
                    ("Content-Length", num_toString chunksize);
                    ("Content-Type", contentTypeOf recording)];
                 body := StreamBody
                           {| ds_fileId := rec_fileId recording;
                              ds_range := Some (start, num_add end_ (Num 1)) |} |} in
            let full :=
              {| status := 200;
                 headers :=
                   [("Content-Length", Z_toString (gf_length file));
                    ("Content-Type", contentTypeOf recording);
                    ("Content-Disposition",
                     "inline; filename=" ++ String dquote (rec_filename recording)
                       ++ String dquote EmptyString)];
                 body := StreamBody
                           {| ds_fileId := rec_fileId recording; ds_range := None |} |} in
            match range with
            | Some r => if String.eqb r "" then full else ranged r
            | None => full
            end
        end
    end.

(** [bucket.delete(fileId)]: the files document is deleted first, then
    the chunks, and a file that was not there is an error after both. When
    the first call fails nothing has changed; when the second fails the
    files document is gone already, and with it the file for every reader
    of the bucket. *)
Definition bucket_delete (env : Env) (fileId : string) (db : Db) : Outcome unit * Db :=
  match bucket_delete_fault env with
  | Some FilesDeleteFails => (Rejected (ErrorObject "MongoError" "storage failure"), db)
  | Some ChunksDeleteFails =>
      (Rejected (ErrorObject "MongoError" "storage failure"),
       match fs_files db !! fileId with
       | None => db
       | Some _ => {| recordings := recordings db;
                      fs_files := delete fileId (fs_files db);
                      oplog := oplog db ++ [FilesDocDeleted fileId] |}
       end)
  | None =>
      match fs_files db !! fileId with
      | None => (Rejected (ErrorObject "MongoRuntimeError" "File not found"), db)
      | Some _ =>
          (Resolved tt,
           {| recordings := recordings db;
              fs_files := delete fileId (fs_files db);
              oplog := oplog db ++ [ChunksDeleted fileId] |})
      end
  end.

(** The schema's [pre("findOneAndDelete")] hook: it deletes the file of
    the document once more and only logs a failure. *)
Definition pre_findOneAndDelete (env : Env) (id : string) (db : Db) : Db :=
  match recordings db !! id with
  | Some doc =>
      if connect_fails env then db
      else snd (bucket_delete env (rec_fileId doc) db)
  | None => db
  end.

(** [Recording.findByIdAndDelete(id)]: the hook, then the document. *)
Definition findByIdAndDelete (env : Env) (id : string) (db : Db) : Outcome unit * Db :=
  let db1 := pre_findOneAndDelete env id db in
  if findByIdAndDelete_fails env then
    (Rejected (ErrorObject "MongoError" "storage failure"), db1)
  else
    match recordings db1 !! id with
    | Some _ =>
        (Resolved tt,
         {| recordings := delete id (recordings db1); fs_files := fs_files db1;
            oplog := oplog db1 ++ [RecordDeleted id] |})
    | None => (Resolved tt, db1)
    end.

(** [DELETE] calls [connectToDatabase] and [findById], and looks the id
    up as [GET] does. *)
Definition DELETE (env : Env) (db : Db) (id : string) : Response * Db :=
  if negb (ObjectId_isValid env id) then (json 400 (ErrorJson "Invalid recording ID"), db)
  else if lookup_fails env then
    (json 500 (ErrorJson "Failed to delete recording"), db)
  else
    match recordings db !! id with
    | None => (json 404 (ErrorJson "Recording not found"), db)
    | Some recording =>
        match bucket_delete env (rec_fileId recording) db with
        | (Rejected _, db1) => (json 500 (ErrorJson "Failed to delete recording"), db1)
        | (Resolved _, db1) =>
            match findByIdAndDelete env id db1 with
            | (Rejected _, db2) => (json 500 (ErrorJson "Failed to delete recording"), db2)
            | (Resolved _, db2) =>
                (json 200 (MessageJson "Recording deleted successfully"), db2)
            end
        end
    end.

End RecordingById.

(** *** POST /api/recordings *)

Module Recordings.

(** The [recording] part of the multipart form. *)
Record FormFile := mkFormFile {
  ff_name : string;
  ff_type : string;
  ff_content : list Byte.byte
}.

Definition ff_size (f : FormFile) : Z := Z.of_nat (length (ff_content f)).

(** A part of the multipart form: a file, or text. *)
Inductive FormEntry :=
| FileEntry (f : FormFile)
| TextEntry (s : string).

(** [formData.get(name)] for the four fields; [None] is [null]. The route
    casts the first to [File] and the others to [string]; the part named
    [recording] can be either. *)
Record FormData := mkFormData {
  form_entry : option FormEntry;
  form_title : option string;
  form_duration : option string;
  form_size : option string
}.

(** The file sent as [recording], when that part is a file. *)
Definition form_recording (form : FormData) : option FormFile :=
  match form_entry form with
  | Some (FileEntry f) => Some f
  | _ => None
  end.

(** [null] cast to a string and handed to [parseInt] reads as "null". *)
Definition field_text (f : option string) : string := default "null" f.

Definition maxSize : Z := 100 * 1024 * 1024.

(** [s.replace(/[:.]/g, "-")] *)
Fixpoint dash_colons_dots (s : string) : string :=
  match s with
  | String a r =>
      String (if Ascii.eqb a ":" || Ascii.eqb a "." then "-"%char else a)
             (dash_colons_dots r)
  | EmptyString => EmptyString
  end.

(** "Generate unique filename" *)
Definition upload_name (env : Env) : string :=
  "recording-" ++ dash_colons_dots (now_iso env) ++ ".webm".

(** The schema of [Recording]: [required], [maxlength], [min], [max] and
    the content-type validator. *)
Definition validate (d : RecordingDoc) : bool :=
  negb (String.eqb (rec_title d) "")
  && (String.length (rec_title d) <=? 200)%nat
  && negb (String.eqb (rec_filename d) "")
  && (0 <=? rec_size d)
  && (0 <=? rec_duration d) && (rec_duration d <=? 180)
  && startsWith "video/" (rec_contentType d).

Definition filename_taken (name : string) (db : Db) : bool :=
  existsb (fun kv => String.eqb (rec_filename (snd kv)) name)
          (map_to_list (recordings db)).

(** [recording.save()]: validation, the unique index on [filename], then
    the insert. *)
Definition save (env : Env) (id : string) (d : RecordingDoc) (db : Db) : Outcome Db :=
  if negb (validate d) then Rejected (ErrorObject "ValidationError" "Recording validation failed")
  else if filename_taken (rec_filename d) db then
    Rejected (ErrorObject "MongoServerError" "E11000 duplicate key error")
  else if insert_fails env then Rejected (ErrorObject "MongoError" "storage failure")
  else Resolved {| recordings := <[id := d]> (recordings db);
                   fs_files := fs_files db;
                   oplog := oplog db ++ [RecordSaved id] |}.

(** Piping the buffer into [bucket.openUploadStream(filename, ...)]. *)
Definition gridfs_upload (env : Env) (filename : string) (file : FormFile) (db : Db)
  : Outcome Db :=
  if upload_fails env then Rejected (ErrorObject "MongoError" "storage failure")
  else Resolved {| recordings := recordings db;
                   fs_files := <[new_fileId env :=
                                   {| gf_filename := filename;
                                      gf_content := ff_content file;
                                      gf_originalName := ff_name file;
                                      gf_contentType := ff_type file |}]> (fs_files db);
                   oplog := oplog db ++ [ChunksWritten (new_fileId env)] |}.

(** The document [new Recording({...})] builds; [trim: true] is applied to
    the title as it is set. *)
Definition new_Recording (env : Env) (form : FormData) (file : FormFile) (filename : string)
  : RecordingDoc :=
  let title := default "" (form_title form) in
  let duration := Number_parseInt (field_text (form_duration form)) None in
  {| rec_title := trim (if String.eqb title "" then "Recording " ++ now_locale env else title);
     rec_filename := filename;
     rec_fileId := new_fileId env;
     rec_size := ff_size file;
     rec_duration := num_or duration 0;
     rec_contentType := ff_type file;
     rec_createdAt := now_iso env |}.

(** A part [recording] that is text passes [!file] unless it is empty,
    and [file.type.startsWith] then throws a [TypeError] inside the [try]. *)
Definition POST (env : Env) (db : Db) (form : FormData) : Response * Db :=
  match form_entry form with
  | None => (json 400 (ErrorJson "No file provided"), db)
  | Some (TextEntry text) =>
      if String.eqb text "" then (json 400 (ErrorJson "No file provided"), db)
      else (json 500 (ErrorJson "Failed to upload recording"), db)
  | Some (FileEntry file) =>
      if negb (startsWith "video/" (ff_type file)) then
        (json 400 (ErrorJson "Invalid file type. Only video files are allowed."), db)
      else if maxSize <? ff_size file then
        (json 400 (ErrorJson "File too large. Maximum size is 100MB."), db)
      else if connect_fails env then
        (json 500 (ErrorJson "Failed to upload recording"), db)
      else
        let filename := upload_name env in
        match gridfs_upload env filename file db with
        | Rejected _ => (json 500 (ErrorJson "Failed to upload recording"), db)
        | Resolved db1 =>
            let recording := new_Recording env form file filename in
            match save env (new_recordId env) recording db1 with
            | Rejected _ => (json 500 (ErrorJson "Failed to upload recording"), db1)
            | Resolved db2 =>
                (json 200 (UploadedJson "Recording uploaded successfully"
                             (new_recordId env)
                             ("/api/recordings/" ++ new_recordId env)), db2)
            end
        end
  end.

(** No document of the collection points at the file [fileId]. *)
Definition unreferenced (fileId : string) (db : Db) : Prop :=
  forall id r, recordings db !! id = Some r -> rec_fileId r <> fileId.

End Recordings.

(** *** Requests one after the other *)

(** The requests that change the store, each with the surroundings it
    meets. *)
Inductive Request :=
| PostRequest (env : Env) (form : Recordings.FormData)
| DeleteRequest (env : Env) (id : string).

Definition handle_request (db : Db) (r : Request) : Db :=
  match r with
  | PostRequest env form => snd (Recordings.POST env db form)
  | DeleteRequest env id => snd (RecordingById.DELETE env db id)
  end.

Definition serve (db : Db) (rs : list Request) : Db := fold_left handle_request rs db.

(** Every document of the collection passes the schema. *)
Definition all_valid (db : Db) : Prop :=
  forall id r, recordings db !! id = Some r -> Recordings.validate r = true.

(** No two documents share a file name. *)
Definition unique_filenames (db : Db) : Prop :=
  forall i j r1 r2,
    recordings db !! i = Some r1 -> recordings db !! j = Some r2 ->
    rec_filename r1 = rec_filename r2 -> i = j.

End Server.

(** ** The rest of the upload queue (file-upload) *)

Module UploadQueue.
Import Upload.

(** [s.includes(t)] *)
Fixpoint includes (t s : string) : bool :=
  startsWith t s
  || match s with
     | String _ r => includes t r
     | EmptyString => false
     end.

(** [Math.round(n / (1024 * 1024))] for a size that is not negative:
    the quotient is exact in a double, and [Math.round] takes halves up. *)
Definition round_MB (n : Z) : Z := (2 * n + 1048576) / 2097152.

Definition supportedFormats : list string :=
  ["video/webm"; "video/mp4"; "video/avi"; "video/mov"; "video/quicktime"].

(** [validateFile]: [None] is [null], the file is fine. *)
Definition validateFile (maxFileSize : Z) (f : File) : option string :=
  if negb (startsWith "video/" (file_type f)) then Some "Only video files are allowed"
  else if maxFileSize <? file_size f then
    Some ("File size must be less than " ++ Z_toString (round_MB maxFileSize) ++ "MB")
  else if negb (existsb (fun format => includes (nth 1 (split "/" format) "") (file_type f))
                        supportedFormats) then
    Some "Unsupported video format. Please use WebM, MP4, AVI, or MOV files"
  else None.

(** The item [addFiles] makes of a file; [i] is what [generateId]
    returned for it. *)
Definition new_item (maxFileSize : Z) (i : string) (f : File) : UploadFile :=
  let err := validateFile maxFileSize f in
  {| id := i; file := f; progress := 0;
     status := match err with Some _ => error | None => pending end;
     error_text := err; retryCount := 0 |}.

(** [addFiles]: [ids] are the identifiers [generateId] returns, one for
    each file. The call that would go over [maxFiles] only shows an alert. *)
Definition addFiles (maxFileSize : Z) (maxFiles : nat) (ids : list string)
    (files : list File) (q : Queue) : Queue :=
  if (maxFiles <? length (uploadFiles q) + length files)%nat then q
  else setUploadFiles
         (fun prev => (prev ++ map (fun p => new_item maxFileSize (fst p) (snd p))
                                   (combine ids files))%list) q.

Definition removeFile (i : string) (q : Queue) : Queue :=
  setUploadFiles (List.filter (fun f => negb (String.eqb (id f) i))) q.

Definition clearCompleted (q : Queue) : Queue :=
  setUploadFiles
    (List.filter (fun f => match status f with success => false | _ => true end)) q.

Definition clearAll (q : Queue) : Queue := setUploadFiles (fun _ => []) q.

(** What [uploadAll] sends for: pending or failed, and not failed three
    times with a message. *)
Definition eligible (f : UploadFile) : bool :=
  is_pending_or_error f
  && negb ((match error_text f with Some m => negb (String.eqb m "") | None => false end)
           && (3 <=? retryCount f)).

Definition is_none {A} (o : option A) : bool :=
  match o with None => true | Some _ => false end.

(** What the user and the requests can do to the queue. The buttons hand
    the handlers the items of the list on screen. *)
Inductive Action :=
| AddFiles (ids : list string) (files : list File)
| RemoveFile (i : string)
| ClickUpload (thrown : option Thrown) (n : nat)
| ClickRetry (thrown : option Thrown) (n : nat)
| ClickUploadAll (thrown : UploadFile -> option Thrown)
| ClearCompleted
| ClearAll
| Xhr (i : string) (e : XhrEvent).

Definition act (maxFileSize : Z) (maxFiles : nat) (q : Queue) (a : Action) : Queue :=
  match a with
  | AddFiles ids files => addFiles maxFileSize maxFiles ids files q
  | RemoveFile i => removeFile i q
  | ClickUpload thrown n =>
      match uploadFiles q !! n with
      | Some f => if uploadButtonShown f then uploadFile thrown f q else q
      | None => q
      end
  | ClickRetry thrown n =>
      match uploadFiles q !! n with
      | Some f => if retryButtonShown f then retryUpload thrown f q else q
      | None => q
      end
  | ClickUploadAll thrown => if uploadAllUsable q then uploadAll thrown q else q
  | ClearCompleted => clearCompleted q
  | ClearAll => clearAll q
  | Xhr i e => listener i e q
  end.

Definition acts (maxFileSize : Z) (maxFiles : nat) (q : Queue) (l : list Action) : Queue :=
  fold_left (act maxFileSize maxFiles) l q.

Definition emptyQueue : Queue := mkQueue [] [] [] 0.

(** [file.name.replace(/\.[^/.]+$/, "")]: the first dot that is followed,
    up to the end, by one or more characters other than a dot and a slash
    is removed with what follows it. *)
Fixpoint plain_extension (s : string) : bool :=
  match s with
  | String a r => negb (Ascii.eqb a "." || Ascii.eqb a "/") && plain_extension r
  | EmptyString => true
  end.

Fixpoint strip_extension (s : string) : string :=
  match s with
  | String a r =>
      if Ascii.eqb a "." && negb (String.eqb r "") && plain_extension r then EmptyString
      else String a (strip_extension r)
  | EmptyString => EmptyString
  end.

(** [Math.min(Math.round((size / (1024 * 1024)) * 10), 180)]; quotient
    and product are exact in a double for a size below 2^49. *)
Definition estimatedDuration (size : Z) : Z :=
  Z.min ((20 * size + 1048576) / 2097152) 180.

(** The file of a form part as the queue sees it. *)
Definition as_File (f : Server.Recordings.FormFile) : File :=
  {| file_name := Server.Recordings.ff_name f;
     file_type := Server.Recordings.ff_type f;
     file_size := Server.Recordings.ff_size f |}.

(** The form [uploadFile] sends. *)
Definition uploadForm (f : Server.Recordings.FormFile) : Server.Recordings.FormData :=
  {| Server.Recordings.form_entry := Some (Server.Recordings.FileEntry f);
     Server.Recordings.form_title := Some (strip_extension (Server.Recordings.ff_name f));
     Server.Recordings.form_duration :=
       Some (Z_toString (estimatedDuration (Server.Recordings.ff_size f)));
     Server.Recordings.form_size := Some (Z_toString (Server.Recordings.ff_size f)) |}.

End UploadQueue.

(** ** The rest of the capture component (screen-recorder) *)

Module Capture.
Import Recorder.

(** The ticks in a run of events. *)
Fixpoint count_ticks (evs : list Event) : Z :=
  match evs with
  | Tick :: r => 1 + count_ticks r
  | _ :: r => count_ticks r
  | [] => 0
  end.

(** Events of a session that goes on: ticks and fragments. *)
Definition capturing (e : Event) : bool :=
  match e with
  | Tick | DataAvailable _ => true
  | RecorderStop | ClickStop => false
  end.

(** Ticks and clicks on Stop. *)
Definition tick_or_click (e : Event) : bool :=
  match e with
  | Tick | ClickStop => true
  | DataAvailable _ | RecorderStop => false
  end.

(** [s.padStart(2, "0")] *)
Definition padStart2 (s : string) : string :=
  match String.length s with
  | O => "00"
  | S O => String "0" s
  | _ => s
  end.

(** [formatTime]: [Math.floor(seconds / 60)] and [seconds % 60], each
    padded to two characters. *)
Definition formatTime (seconds : Z) : string :=
  padStart2 (Z_toString (seconds / 60)) ++ ":" ++ padStart2 (Z_toString (Z.rem seconds 60)).

(** What a run of ticks and fragments leaves alone. *)
Definition same_session (c c' : Component) : Prop :=
  isRecording (state c') = isRecording (state c)
  /\ stream (state c') = stream (state c)
  /\ recordedBlob (state c') = recordedBlob (state c)
  /\ mediaRecorderRef c' = mediaRecorderRef c
  /\ timerRef c' = timerRef c
  /\ audioContextRef c' = audioContextRef c
  /\ stoppedTracks c' = stoppedTracks c
  /\ error c' = error c.

Inductive UploadStatus := UploadIdle | UploadUploading | UploadSuccess | UploadError.

(** The component with the state [uploadRecording] adds to it: the upload
    status and the "recordingUploaded" events dispatched on the window. *)
Record Page := mkPage {
  component : Component;
  uploadStatus : UploadStatus;
  uploadedEvents : nat
}.

(** [Date.now()] and [new Date().toLocaleString()] at the time of the
    upload. *)
Record UploadClock := mkClock { dateNow : Z; localeString : string }.

(** The form [uploadRecording] builds. *)
Definition recordingForm (clk : UploadClock) (blob : Blob) (recordingTime : Z)
  : Server.Recordings.FormData :=
  {| Server.Recordings.form_entry :=
       Some (Server.Recordings.FileEntry
               {| Server.Recordings.ff_name :=
                    "recording-" ++ Z_toString (dateNow clk) ++ ".webm";
                  Server.Recordings.ff_type := blob_type blob;
                  Server.Recordings.ff_content := blob_bytes blob |});
     Server.Recordings.form_title := Some ("Screen Recording " ++ localeString clk);
     Server.Recordings.form_duration := Some (Z_toString recordingTime);
     Server.Recordings.form_size := Some (Z_toString (blob_size blob)) |}.

(** [response.ok] *)
Definition response_ok (r : Server.Response) : bool :=
  (200 <=? Server.status r) && (Server.status r <=? 299).

(** [errorData.error || "Upload failed"] for the bodies [POST] sends. *)
Definition error_field (r : Server.Response) : string :=
  match Server.body r with
  | Server.ErrorJson e => if String.eqb e "" then "Upload failed" else e
  | _ => "Upload failed"
  end.

(** The message the [catch] of [uploadRecording] shows. *)
Definition uploadCatchMessage (t : Thrown) : string :=
  match t with
  | ErrorObject _ message => message
  | NotAnError => "Upload failed. Please try again."
  end.

(** [uploadRecording], with [fetch] bringing back the answer of [POST] of
    the recordings API, or rejecting ([net]) before or after the route has
    run. The function is the one of the render on screen and reads its
    [state]. *)
Definition uploadRecording (net : option FetchFailure) (env : Server.Env)
    (clk : UploadClock) (p : Page) (db : Server.Db) : Page * Server.Db :=
  let c := component p in
  match recordedBlob (state c) with
  | None => (p, db)
  | Some blob =>
      let c1 := set_error None c in
      match net with
      | Some f =>
          ({| component := set_error (Some (uploadCatchMessage (fetch_thrown f))) c1;
              uploadStatus := UploadError;
              uploadedEvents := uploadedEvents p |},
           if fetch_served f
           then snd (Server.Recordings.POST env db
                       (recordingForm clk blob (recordingTime (state c))))
           else db)
      | None =>
          let '(response, db') :=
            Server.Recordings.POST env db
              (recordingForm clk blob (recordingTime (state c))) in
          if response_ok response then
            ({| component :=
                  set_state (fun prev =>
                    {| isRecording := isRecording prev; isPaused := isPaused prev;
                       recordedBlob := None; recordingTime := 0;
                       stream := stream prev |}) c1;
                uploadStatus := UploadSuccess;
                uploadedEvents := S (uploadedEvents p) |}, db')
          else
            ({| component := set_error (Some (error_field response)) c1;
                uploadStatus := UploadError;
                uploadedEvents := uploadedEvents p |}, db')
      end
  end.

End Capture.

(** ** The list of recordings (components/recordings-list.tsx) *)

Module RecordingsList.

(** A row, as [GET /api/recordings] sends it. *)
Record Recording := mkRecording {
  _id : string;
  title : string;
  filename : string;
  size : Z;
  duration : Z;
  createdAt : string;
  url : string
}.

(** The [useState] cells the delete handler touches, and the [alert]s
    shown so far. *)
Record ListState := mkListState {
  recordings : list Recording;
  playingId : option string;
  deletingIds : gset string;
  selectedIds : gset string;
  alerts : list string
}.

(** [errorData.error] inside the template string of the alert. *)
Definition error_text (r : Server.Response) : string :=
  match Server.body r with
  | Server.ErrorJson e => e
  | _ => "undefined"
  end.

(** [deleteRecording(id)]: [confirmed] is the answer to [confirm]; [net]
    is a [fetch] that rejects, before or after the route has run;
    otherwise [fetch] brings back the answer of [DELETE] of the recordings
    API. Nothing else happens between the click and the answer. *)
Definition deleteRecording (confirmed : bool) (net : option FetchFailure)
    (env : Server.Env) (id : string) (l : ListState) (db : Server.Db)
  : ListState * Server.Db :=
  if negb confirmed then (l, db)
  else
    let deleting := deletingIds l ∪ {[ id ]} in
    match net with
    | Some f =>
        ({| recordings := recordings l;
            playingId := playingId l;
            deletingIds := deleting ∖ {[ id ]};
            selectedIds := selectedIds l;
            alerts := alerts l ++ ["Failed to delete recording. Please try again."] |},
         if fetch_served f then snd (Server.RecordingById.DELETE env db id) else db)
    | None =>
        let '(response, db') := Server.RecordingById.DELETE env db id in
        if Capture.response_ok response then
          ({| recordings :=
                List.filter (fun r => negb (String.eqb (_id r) id)) (recordings l);
              playingId :=
                match playingId l with
                | Some playing => if String.eqb playing id then None else Some playing
                | None => None
                end;
              deletingIds := deleting ∖ {[ id ]};
              selectedIds := selectedIds l ∖ {[ id ]};
              alerts := alerts l |}, db')
        else
          ({| recordings := recordings l;
              playingId := playingId l;
              deletingIds := deleting ∖ {[ id ]};
              selectedIds := selectedIds l;
              alerts := alerts l ++ ["Failed to delete recording: " ++ error_text response] |},
           db')
    end.

End RecordingsList.

(** ** Sample inputs *)

Module Samples.
Import Recorder.

Definition displayWithAudio : MediaStream :=
  [mkTrack VideoTrack FromDisplay; mkTrack AudioTrack FromDisplay].

Definition micStream : MediaStream := [mkTrack AudioTrack FromMicrophone].

(** A browser that grants both prompts and records every type. *)
Definition grantsAll : Browser :=
  {| getDisplayMedia := Resolved displayWithAudio;
     getUserMedia := Resolved micStream;
     isTypeSupported := fun _ => true;
     typeErrorMessage := "Cannot read properties of undefined" |}.

(** The same browser with the microphone prompt dismissed. *)
Definition deniesMicrophone : Browser :=
  {| getDisplayMedia := Resolved displayWithAudio;
     getUserMedia := Rejected (ErrorObject "NotAllowedError" "Permission denied");
     isTypeSupported := fun _ => true;
     typeErrorMessage := "Cannot read properties of undefined" |}.

Definition fragment (l : list Byte.byte) : Blob := mkBlob l "video/webm".

(** A session started in [grantsAll]. *)
Definition started : Component := startRecording grantsAll mount.

(** Three fragments, the second one empty, with a tick in between. *)
Definition delivery : list Event :=
  [DataAvailable (fragment [Byte.x01; Byte.x02]);
   Tick;
   DataAvailable (fragment []);
   DataAvailable (fragment [Byte.x03])].

(** A delivery of nothing but one empty fragment. *)
Definition emptyDelivery : list Event := [DataAvailable (fragment [])].

(** A browser whose user dismisses the screen-sharing prompt. *)
Definition deniesDisplay : Browser :=
  {| getDisplayMedia := Rejected (ErrorObject "NotAllowedError" "Permission denied");
     getUserMedia := Resolved micStream;
     isTypeSupported := fun _ => true;
     typeErrorMessage := "Cannot read properties of undefined" |}.

(** A 50MB video waiting in the upload queue. *)
Definition clip : Upload.UploadFile :=
  {| Upload.id := "k3x9q0a1z";
     Upload.file := Upload.mkFile "clip.webm" "video/webm" (50 * 1024 * 1024);
     Upload.progress := 0;
     Upload.status := Upload.pending;
     Upload.error_text := None;
     Upload.retryCount := 0 |}.

Definition oneClip : Upload.Queue := Upload.mkQueue [clip] [] [] 0.

(** A server with one stored recording of 10,000 bytes. *)
Definition env0 : Server.Env :=
  {| Server.ObjectId_isValid := fun s => Nat.eqb (String.length s) 24;
     Server.database_fault := None;
     Server.bucket_delete_fault := None;
     Server.findByIdAndDelete_fails := false;
     Server.upload_fails := false;
     Server.insert_fails := false;
     Server.now_iso := "2024-05-01T10:20:30.123Z";
     Server.now_locale := "5/1/2024, 10:20:30 AM";
     Server.new_fileId := "65f0000000000000000000f2";
     Server.new_recordId := "65f0000000000000000000a2" |}.

(** The same server on a day when the bucket refuses to delete. *)
Definition envDeleteFails : Server.Env :=
  {| Server.ObjectId_isValid := fun s => Nat.eqb (String.length s) 24;
     Server.database_fault := None;
     Server.bucket_delete_fault := Some Server.FilesDeleteFails;
     Server.findByIdAndDelete_fails := false;
     Server.upload_fails := false;
     Server.insert_fails := false;
     Server.now_iso := "2024-05-01T10:20:30.123Z";
     Server.now_locale := "5/1/2024, 10:20:30 AM";
     Server.new_fileId := "65f0000000000000000000f2";
     Server.new_recordId := "65f0000000000000000000a2" |}.

(** The same server when the bucket deletes the files document and then
    fails on the chunks. *)
Definition envChunksDeleteFails : Server.Env :=
  {| Server.ObjectId_isValid := fun s => Nat.eqb (String.length s) 24;
     Server.database_fault := None;
     Server.bucket_delete_fault := Some Server.ChunksDeleteFails;
     Server.findByIdAndDelete_fails := false;
     Server.upload_fails := false;
     Server.insert_fails := false;
     Server.now_iso := "2024-05-01T10:20:30.123Z";
     Server.now_locale := "5/1/2024, 10:20:30 AM";
     Server.new_fileId := "65f0000000000000000000f2";
     Server.new_recordId := "65f0000000000000000000a2" |}.

Definition storedFile : Server.GridFile :=
  Server.mkGridFile "recording-2024-04-30T08-00-00-000Z.webm"
    (repeat Byte.x2a (Z.to_nat 10000)) "recording-1.webm" "video/webm".

Definition storedDoc : Server.RecordingDoc :=
  Server.mkRecordingDoc "Demo" "recording-2024-04-30T08-00-00-000Z.webm"
    "65f0000000000000000000f1" 10000 12 "video/webm" "2024-04-30T08:00:00.000Z".

Definition storedId : string := "65f0000000000000000000a1".

Definition emptyDb : Server.Db :=
  {| Server.recordings := ∅; Server.fs_files := ∅; Server.oplog := [] |}.

Definition db0 : Server.Db :=
  {| Server.recordings := {[ storedId := storedDoc ]};
     Server.fs_files := {[ "65f0000000000000000000f1" := storedFile ]};
     Server.oplog := [] |}.

(** An upload of three bytes that declares a duration of 200 seconds. *)
Definition lateFile : Server.Recordings.FormFile :=
  Server.Recordings.mkFormFile "late.webm" "video/webm" [Byte.x1a; Byte.x45; Byte.xdf].

Definition longForm : Server.Recordings.FormData :=
  {| Server.Recordings.form_entry := Some (Server.Recordings.FileEntry lateFile);
     Server.Recordings.form_title := Some "Late";
     Server.Recordings.form_duration := Some "200";
     Server.Recordings.form_size := Some "3" |}.

(** An upload of the same three bytes that declares 12 seconds. *)
Definition goodForm : Server.Recordings.FormData :=
  {| Server.Recordings.form_entry := Some (Server.Recordings.FileEntry lateFile);
     Server.Recordings.form_title := Some "Standup";
     Server.Recordings.form_duration := Some "12";
     Server.Recordings.form_size := Some "3" |}.

(** An upload whose title is three blanks. *)
Definition blankTitleForm : Server.Recordings.FormData :=
  {| Server.Recordings.form_entry := Some (Server.Recordings.FileEntry lateFile);
     Server.Recordings.form_title := Some "   ";
     Server.Recordings.form_duration := Some "12";
     Server.Recordings.form_size := Some "3" |}.

(** The server when the database is reached and a query is not
    answered. *)
Definition envQueryFails (fault : Server.DatabaseFault) : Server.Env :=
  {| Server.ObjectId_isValid := fun s => Nat.eqb (String.length s) 24;
     Server.database_fault := Some fault;
     Server.bucket_delete_fault := None;
     Server.findByIdAndDelete_fails := false;
     Server.upload_fails := false;
     Server.insert_fails := false;
     Server.now_iso := "2024-05-01T10:20:30.123Z";
     Server.now_locale := "5/1/2024, 10:20:30 AM";
     Server.new_fileId := "65f0000000000000000000f2";
     Server.new_recordId := "65f0000000000000000000a2" |}.

(** The server on a day when documents cannot be deleted. *)
Definition envRecordDeleteFails : Server.Env :=
  {| Server.ObjectId_isValid := fun s => Nat.eqb (String.length s) 24;
     Server.database_fault := None;
     Server.bucket_delete_fault := None;
     Server.findByIdAndDelete_fails := true;
     Server.upload_fails := false;
     Server.insert_fails := false;
     Server.now_iso := "2024-05-01T10:20:30.123Z";
     Server.now_locale := "5/1/2024, 10:20:30 AM";
     Server.new_fileId := "65f0000000000000000000f2";
     Server.new_recordId := "65f0000000000000000000a2" |}.

(** A store whose only document points at a file that is not there. *)
Definition danglingDb : Server.Db :=
  {| Server.recordings := {[ storedId := storedDoc ]};
     Server.fs_files := ∅;
     Server.oplog := [] |}.

(** A file the queue's own validation turns down for its format. *)
Definition oggFile : Upload.File := Upload.mkFile "talk.ogv" "video/ogg" 2048.

Definition defaultMaxFileSize : Z := 100 * 1024 * 1024.

(** The queue after [oggFile] was dropped on the empty queue. *)
Definition oggQueued : Upload.Queue :=
  UploadQueue.addFiles defaultMaxFileSize 5 ["q1w2e3r4t"] [oggFile] UploadQueue.emptyQueue.

(** The recorder [started] holds. *)
Definition startedRecorder : Recorder.MediaRecorder :=
  Recorder.recorder_start 1000
    {| Recorder.mr_stream := [Recorder.mkTrack Recorder.VideoTrack Recorder.FromDisplay;
                              Recorder.mixedTrack];
       Recorder.mr_mimeType := "video/webm;codecs=vp9,opus";
       Recorder.mr_videoBitsPerSecond := 2500000;
       Recorder.mr_audioBitsPerSecond := 128000;
       Recorder.mr_timeslice := 0;
       Recorder.mr_state := Recorder.Inactive |}.

(** The session [started] after its delivery, a click on Stop, the last
    fragment and the encoder's stop event. *)
Definition finished : Component :=
  run started
    (delivery ++ [ClickStop; DataAvailable (fragment [Byte.x04]); RecorderStop]).

(** A browser that records nothing. *)
Definition recordsNothing : Recorder.Browser :=
  {| Recorder.getDisplayMedia := Resolved displayWithAudio;
     Recorder.getUserMedia := Resolved micStream;
     Recorder.isTypeSupported := fun _ => false;
     Recorder.typeErrorMessage := "Cannot read properties of undefined" |}.

(** A page on which a session of 42 seconds has ended with three bytes
    recorded, and the clock at the time of its upload. *)
Definition recordedPage : Capture.Page :=
  {| Capture.component :=
       Recorder.set_state
         (fun prev =>
            {| Recorder.isRecording := false; Recorder.isPaused := false;
               Recorder.recordedBlob :=
                 Some (mkBlob [Byte.x1a; Byte.x45; Byte.xdf] "video/webm;codecs=vp9,opus");
               Recorder.recordingTime := 42; Recorder.stream := None |})
         Recorder.mount;
     Capture.uploadStatus := Capture.UploadIdle;
     Capture.uploadedEvents := 0 |}.

Definition recordedBlobSample : Blob :=
  mkBlob [Byte.x1a; Byte.x45; Byte.xdf] "video/webm;codecs=vp9,opus".

Definition uploadClock : Capture.UploadClock :=
  {| Capture.dateNow := 1714558830123; Capture.localeString := "5/1/2024, 10:20:30 AM" |}.

(** The list as it shows the stored recording, selected and playing. *)
Definition listedRow : RecordingsList.Recording :=
  {| RecordingsList._id := storedId;
     RecordingsList.title := Server.rec_title storedDoc;
     RecordingsList.filename := Server.rec_filename storedDoc;
     RecordingsList.size := Server.rec_size storedDoc;
     RecordingsList.duration := Server.rec_duration storedDoc;
     RecordingsList.createdAt := Server.rec_createdAt storedDoc;
     RecordingsList.url := "/api/recordings/" ++ storedId |}.

Definition listed : RecordingsList.ListState :=
  {| RecordingsList.recordings := [listedRow];
     RecordingsList.playingId := Some storedId;
     RecordingsList.deletingIds := ∅;
     RecordingsList.selectedIds := {[ storedId ]};
     RecordingsList.alerts := [] |}.

End Samples.

(** ** Properties of the numbers *)

Module NumberSpec.

Lemma nearest_even_exact c d : 0 < d -> nearest_even (c * d) d = c.
Proof.
  intros Hd. unfold nearest_even.
  rewrite Z.div_mul, Z.mod_mul by lia.
  replace (2 * 0 <? d) with true by lia. reflexivity.
Qed.

Lemma nearest_even_mono n1 n2 d :
  0 < d -> n1 <= n2 -> nearest_even n1 d <= nearest_even n2 d.
Proof.
  intros Hd Hn. unfold nearest_even.
  pose proof (Z.div_le_mono n1 n2 d Hd Hn) as Hq.
  pose proof (Z.div_mod n1 d ltac:(lia)) as E1.
  pose proof (Z.div_mod n2 d ltac:(lia)) as E2.
  pose proof (Z.mod_pos_bound n1 d Hd) as B1.
  pose proof (Z.mod_pos_bound n2 d Hd) as B2.
  destruct (Z.eq_dec (n1 / d) (n2 / d)) as [Heq|Hne].
  - rewrite <- Heq in *.
    assert (Hr : n1 mod d <= n2 mod d) by lia.
    destruct (2 * (n1 mod d) <? d) eqn:A1; destruct (2 * (n2 mod d) <? d) eqn:A2;
      destruct (d <? 2 * (n1 mod d)) eqn:C1; destruct (d <? 2 * (n2 mod d)) eqn:C2;
      destruct (Z.even (n1 / d)); lia.
  - assert (n1 / d + 1 <= n2 / d) by lia.
    destruct (2 * (n1 mod d) <? d); destruct (2 * (n2 mod d) <? d);
      destruct (d <? 2 * (n1 mod d)); destruct (d <? 2 * (n2 mod d));
      destruct (Z.even (n1 / d)); destruct (Z.even (n2 / d)); lia.
Qed.

(** The mantissa [round53] computes has 53 bits, or is 2^53. *)
Lemma round53_mantissa n d :
  0 < d -> 2 ^ 53 * d <= n ->
  let e := Z.log2 (n / d) - 52 in
  1 <= e /\ 2 ^ 52 <= nearest_even n (d * 2 ^ e) <= 2 ^ 53.
Proof.
  intros Hd Hn e.
  assert (Hq : 2 ^ 53 <= n / d) by (apply Z.div_le_lower_bound; lia).
  assert (Hq0 : 0 < n / d) by lia.
  destruct (Z.log2_spec (n / d) Hq0) as [Hlo Hhi].
  assert (HL : 53 <= Z.log2 (n / d)).
  { apply Z.log2_le_pow2; [exact Hq0 | exact Hq]. }
  assert (He : 1 <= e) by (unfold e; lia).
  split; [exact He|].
  assert (Hpe : 0 < 2 ^ e) by (apply Z.pow_pos_nonneg; lia).
  assert (HD : 0 < d * 2 ^ e) by lia.
  assert (E1 : 2 ^ Z.log2 (n / d) = 2 ^ 52 * 2 ^ e).
  { unfold e. rewrite <- Z.pow_add_r by lia. f_equal. lia. }
  assert (E2 : 2 ^ Z.succ (Z.log2 (n / d)) = 2 ^ 53 * 2 ^ e).
  { unfold e. rewrite <- Z.pow_add_r by lia. f_equal. lia. }
  pose proof (Z.div_mod n d ltac:(lia)) as Edm.
  pose proof (Z.mod_pos_bound n d Hd) as Bm.
  assert (Hlow : 2 ^ 52 * (d * 2 ^ e) <= n).
  { rewrite E1 in Hlo. nia. }
  assert (Hup : n <= 2 ^ 53 * (d * 2 ^ e)).
  { rewrite E2 in Hhi. nia. }
  split.
  - pose proof (nearest_even_mono _ _ _ HD Hlow) as H.
    rewrite nearest_even_exact in H by exact HD. exact H.
  - pose proof (nearest_even_mono _ _ _ HD Hup) as H.
    rewrite nearest_even_exact in H by exact HD. exact H.
Qed.

Lemma round53_mono n1 n2 d :
  0 < d -> 2 ^ 53 * d <= n1 -> n1 <= n2 -> round53 n1 d <= round53 n2 d.
Proof.
  intros Hd H1 H12. unfold round53.
  destruct (round53_mantissa n1 d Hd H1) as (He1 & Hm1).
  destruct (round53_mantissa n2 d Hd ltac:(lia)) as (He2 & Hm2).
  set (e1 := Z.log2 (n1 / d) - 52) in *. set (e2 := Z.log2 (n2 / d) - 52) in *.
  assert (Hle : e1 <= e2).
  { unfold e1, e2. pose proof (Z.log2_le_mono (n1 / d) (n2 / d)
      (Z.div_le_mono n1 n2 d Hd H12)). lia. }
  assert (Hp1 : 0 < 2 ^ e1) by (apply Z.pow_pos_nonneg; lia).
  assert (Hp2 : 0 < 2 ^ e2) by (apply Z.pow_pos_nonneg; lia).
  destruct (Z.eq_dec e1 e2) as [Heq|Hne].
  - rewrite <- Heq.
    apply Z.mul_le_mono_nonneg_r; [lia|].
    apply nearest_even_mono; [lia | exact H12].
  - assert (Hstep : 2 ^ 53 * 2 ^ e1 <= 2 ^ 52 * 2 ^ e2).
    { rewrite <- !Z.pow_add_r by lia. apply Z.pow_le_mono_r; lia. }
    nia.
Qed.

Lemma round53_lower n : 2 ^ 53 <= n -> 2 ^ 53 <= round53 n 1.
Proof.
  intros Hn. unfold round53.
  destruct (round53_mantissa n 1 ltac:(lia) ltac:(lia)) as (He & Hm).
  set (e := Z.log2 (n / 1) - 52) in *.
  assert (2 ^ 1 <= 2 ^ e) by (apply Z.pow_le_mono_r; lia).
  change (2 ^ 1) with 2 in *. change (2 ^ 53) with (2 ^ 52 * 2). nia.
Qed.

Lemma toNumber_exact z : Z.abs z <= 2 ^ 53 -> toNumber z = Num z.
Proof.
  intros Hz. unfold toNumber.
  assert (Hr : (if Z.abs z <? 2 ^ 53 then Z.abs z else round53 (Z.abs z) 1) = Z.abs z).
  { destruct (Z.abs z <? 2 ^ 53) eqn:E; [reflexivity|].
    assert (Ha : Z.abs z = 2 ^ 53) by lia. rewrite Ha. vm_compute. reflexivity. }
  rewrite Hr.
  assert (Hbig : 2 ^ 53 < 2 ^ 1024) by (apply Z.pow_lt_mono_r; lia).
  replace (2 ^ 1024 <=? Z.abs z) with false by lia.
  f_equal. lia.
Qed.

(** Up to 2^53 a number is printed with all its digits. *)
Lemma num_toString_exact z : 0 <= z <= 2 ^ 53 -> num_toString (Num z) = Z_toString z.
Proof.
  intros Hz. unfold num_toString, positive_toString.
  replace (z <? 0) with false by lia.
  replace (z <=? 2 ^ 53) with true by lia. reflexivity.
Qed.

Lemma num_sub_exact x y :
  Z.abs (x - y) <= 2 ^ 53 -> num_sub (Num x) (Num y) = Num (x - y).
Proof.
  intros H. unfold num_sub, num_neg, num_add.
  replace (x + - y) with (x - y) by lia. apply toNumber_exact. exact H.
Qed.

Lemma num_add_exact x y :
  Z.abs (x + y) <= 2 ^ 53 -> num_add (Num x) (Num y) = Num (x + y).
Proof. intros H. unfold num_add. apply toNumber_exact. exact H. Qed.

(** A double that stands for an integer above 180 is above 180. *)
Lemma toNumber_above z : 180 < z -> 180 < num_or (toNumber z) 0.
Proof.
  intros Hz. unfold toNumber.
  replace (Z.abs z) with z by lia. replace (Z.sgn z) with 1 by lia.
  replace (z <? 0) with false by lia.
  assert (Hbig : 0 < 2 ^ 1024) by (apply Z.pow_pos_nonneg; lia).
  assert (Hr : 180 < (if z <? 2 ^ 53 then z else round53 z 1)).
  { destruct (z <? 2 ^ 53) eqn:E; [lia|].
    pose proof (round53_lower z ltac:(lia)) as H.
    assert (180 < 2 ^ 53) by (vm_compute; reflexivity). lia. }
  destruct (2 ^ 1024 <=? _) eqn:E; cbn [num_or].
  - assert (180 < 2 ^ 1024) by (apply Z.lt_trans with (2 ^ 53);
      [vm_compute; reflexivity | apply Z.pow_lt_mono_r; lia]). lia.
  - destruct (1 * _ =? 0) eqn:E0; lia.
Qed.

End NumberSpec.

(** ** Properties of the capture component *)

Module RecorderSpec.
Import Recorder.

Lemma run_app c evs1 evs2 : run c (evs1 ++ evs2) = run (run c evs1) evs2.
Proof. unfold run. apply fold_left_app. Qed.

(** The closure the timer holds does nothing: it reads the first render's
    [isRecording], which is [false]. *)
Lemma stale_stop_noop c : stopRecording mountState c = c.
Proof. unfold stopRecording. destruct (mediaRecorderRef c); reflexivity. Qed.

Lemma stopTimer_chunks c : chunksRef (stopTimer c) = chunksRef c.
Proof. unfold stopTimer. destruct (timerRef c); reflexivity. Qed.

Lemma close_audioContext_chunks c : chunksRef (close_audioContext c) = chunksRef c.
Proof. unfold close_audioContext. destruct (audioContextRef c); reflexivity. Qed.

Lemma stopRecording_chunks seen c : chunksRef (stopRecording seen c) = chunksRef c.
Proof.
  unfold stopRecording.
  destruct (mediaRecorderRef c); [|reflexivity].
  destruct (isRecording seen); [|reflexivity].
  rewrite close_audioContext_chunks, stopTimer_chunks.
  destruct (stream seen); reflexivity.
Qed.

Lemma onstop_chunks m c : chunksRef (onstop m c) = chunksRef c.
Proof.
  unfold onstop. rewrite close_audioContext_chunks, stopTimer_chunks.
  destruct (0 <? blob_size _); reflexivity.
Qed.

Lemma handle_chunks c e :
  chunksRef (handle c e) =
  (chunksRef c ++ List.filter positive_length (fragments_of [e]))%list.
Proof.
  destruct e; simpl.
  - rewrite app_nil_r. destruct (timerRef c); [|reflexivity].
    unfold intervalCallback, timerCallback. rewrite stale_stop_noop.
    destruct (180 <=? _); reflexivity.
  - unfold ondataavailable, positive_length.
    destruct (0 <? blob_size b); [reflexivity|].
    rewrite app_nil_r. reflexivity.
  - rewrite app_nil_r. apply onstop_chunks.
  - rewrite app_nil_r. apply stopRecording_chunks.
Qed.

Lemma fragments_of_app evs1 evs2 :
  fragments_of (evs1 ++ evs2) = (fragments_of evs1 ++ fragments_of evs2)%list.
Proof.
  induction evs1 as [|e evs1 IH]; [reflexivity|].
  destruct e; simpl; rewrite IH; reflexivity.
Qed.

(** Whatever else happens in between, the stored chunks grow by exactly
    the delivered fragments of positive size, in order of delivery. *)
Lemma run_chunks evs : forall c,
  chunksRef (run c evs) =
  (chunksRef c ++ List.filter positive_length (fragments_of evs))%list.
Proof.
  induction evs as [|e evs IH]; intros c.
  - simpl. rewrite app_nil_r. reflexivity.
  - change (run c (e :: evs)) with (run (handle c e) evs).
    rewrite IH, handle_chunks.
    change (e :: evs) with ([e] ++ evs)%list.
    rewrite fragments_of_app, List.filter_app, app_assoc. reflexivity.
Qed.

Lemma onstop_recordedBlob m c :
  recordedBlob (state (onstop m c)) = Some (new_Blob (chunksRef c) m).
Proof.
  unfold onstop, close_audioContext, stopTimer.
  destruct (0 <? blob_size _); simpl;
    destruct (timerRef c); simpl; destruct (audioContextRef c); reflexivity.
Qed.

Lemma filter_positive_Forall l :
  Forall (fun b => 0 < blob_size b) (List.filter positive_length l).
Proof.
  apply List.Forall_forall. intros b Hb. apply List.filter_In in Hb as [_ Hb].
  unfold positive_length in Hb. lia.
Qed.

(** C2. Fragments reach [ondataavailable] in arrival order; those of size
    zero are not stored, and the blob [onstop] builds is the byte-for-byte
    concatenation of the fragments of positive size in that order. The
    events of the run may be any mix of fragments, ticks and clicks. *)
Theorem assembled_is_concatenation (c : Component) (evs : list Event) :
  chunksRef c = [] ->
  let kept := List.filter positive_length (fragments_of evs) in
  let c' := run c evs in
  chunksRef c' = kept
  /\ Forall (fun b => 0 < blob_size b) (chunksRef c')
  /\ recordedBlob (state (run c' [RecorderStop]))
     = Some (new_Blob kept (recorder_mimeType c'))
  /\ blob_bytes (new_Blob kept (recorder_mimeType c'))
     = concat (map blob_bytes kept).
Proof.
  intros H0 kept c'.
  assert (Hk : chunksRef c' = kept).
  { unfold c', kept. rewrite run_chunks, H0. reflexivity. }
  split; [exact Hk|]. split.
  - rewrite Hk. apply filter_positive_Forall.
  - split; [|reflexivity].
    simpl. rewrite onstop_recordedBlob, Hk. reflexivity.
Qed.

Lemma assembled_is_concatenation_witness :
  chunksRef Samples.started = []
  /\ (let kept := List.filter positive_length (fragments_of Samples.delivery) in
      let c' := run Samples.started Samples.delivery in
      chunksRef c' = kept
      /\ Forall (fun b => 0 < blob_size b) (chunksRef c')
      /\ recordedBlob (state (run c' [RecorderStop]))
         = Some (new_Blob kept (recorder_mimeType c'))
      /\ blob_bytes (new_Blob kept (recorder_mimeType c'))
         = concat (map blob_bytes kept)).
Proof.
  split; [reflexivity|].
  exact (assembled_is_concatenation Samples.started Samples.delivery eq_refl).
Defined.

(** The sample delivery, computed: the empty fragment is not in the
    result. *)
Example delivery_assembled :
  recordedBlob (state (run Samples.started (Samples.delivery ++ [RecorderStop])))
  = Some (mkBlob [Byte.x01; Byte.x02; Byte.x03] "video/webm;codecs=vp9,opus").
Proof. lazy. reflexivity. Qed.

(** *** Empty captures *)

Lemma onstop_empty m c :
  chunksRef c = [] ->
  recordedBlob (state (onstop m c)) = Some (mkBlob [] m)
  /\ error (onstop m c) = Some emptyCaptureMessage
  /\ isRecording (state (onstop m c)) = false
  /\ previewPending (onstop m c) = previewPending c.
Proof.
  intros H. unfold onstop, close_audioContext, stopTimer. rewrite H. simpl.
  destruct (timerRef c); simpl; destruct (audioContextRef c); simpl; auto.
Qed.

Lemma filter_all_empty l :
  Forall (fun b => blob_size b = 0) l -> List.filter positive_length l = [].
Proof.
  induction 1 as [|b l Hb _ IH]; [reflexivity|].
  simpl. unfold positive_length at 1. rewrite Hb. simpl. exact IH.
Qed.

(** C5, as the code has it. A session whose fragments were all of size
    zero still ends with a recording: [onstop] stores the zero-byte blob in
    [recordedBlob] and, beside it, puts the empty-capture message in
    [error]; no preview is scheduled for it: the preview that is pending,
    if any, is the one that was pending before the encoder stopped. *)
Theorem empty_capture_keeps_blob_and_reports (c : Component) (evs : list Event) :
  chunksRef c = [] ->
  Forall (fun b => blob_size b = 0) (fragments_of evs) ->
  let c' := run c (evs ++ [RecorderStop]) in
  recordedBlob (state c') = Some (mkBlob [] (recorder_mimeType (run c evs)))
  /\ (forall b, recordedBlob (state c') = Some b -> blob_size b = 0)
  /\ error c' = Some emptyCaptureMessage
  /\ isRecording (state c') = false
  /\ previewPending c' = previewPending (run c evs).
Proof.
  intros H0 Hz c'. unfold c'. rewrite run_app. simpl.
  assert (Hc : chunksRef (run c evs) = []).
  { rewrite run_chunks, H0, filter_all_empty by exact Hz. reflexivity. }
  destruct (onstop_empty (recorder_mimeType (run c evs)) _ Hc) as (Hb & He & Hr & Hp).
  repeat split; try assumption.
  intros b Hb'. rewrite Hb in Hb'. injection Hb' as <-. reflexivity.
Qed.

Lemma empty_capture_keeps_blob_and_reports_witness :
  chunksRef Samples.started = []
  /\ Forall (fun b => blob_size b = 0) (fragments_of Samples.emptyDelivery)
  /\ (let c' := run Samples.started (Samples.emptyDelivery ++ [RecorderStop]) in
      recordedBlob (state c')
      = Some (mkBlob [] (recorder_mimeType (run Samples.started Samples.emptyDelivery)))
      /\ (forall b, recordedBlob (state c') = Some b -> blob_size b = 0)
      /\ error c' = Some emptyCaptureMessage
      /\ isRecording (state c') = false
      /\ previewPending c' = previewPending (run Samples.started Samples.emptyDelivery)).
Proof.
  assert (Hz : Forall (fun b => blob_size b = 0) (fragments_of Samples.emptyDelivery)).
  { constructor; [reflexivity | constructor]. }
  split; [reflexivity|]. split; [exact Hz|].
  exact (empty_capture_keeps_blob_and_reports Samples.started Samples.emptyDelivery
           eq_refl Hz).
Defined.

(** The claim of the specification, "no recording is produced", fails on
    a session that receives one empty fragment and then stops. *)
Lemma empty_capture_yields_a_recording :
  let c' := run Samples.started (Samples.emptyDelivery ++ [RecorderStop]) in
  recordedBlob (state c') <> None
  /\ exists b, recordedBlob (state c') = Some b /\ blob_size b = 0.
Proof.
  lazy. split; [discriminate|]. eexists. split; reflexivity.
Qed.

(** *** The duration limit *)

Lemma tick_below_limit c t :
  timerRef c = Some t -> recordingTime (state c) < 180 ->
  recordingTime (state (handle c Tick)) = recordingTime (state c) + 1
  /\ isRecording (state (handle c Tick)) = isRecording (state c)
  /\ mediaRecorderRef (handle c Tick) = mediaRecorderRef c
  /\ timerRef (handle c Tick) = timerRef c
  /\ stoppedTracks (handle c Tick) = stoppedTracks c.
Proof.
  intros Ht Hlt. simpl. rewrite Ht. unfold intervalCallback, timerCallback.
  destruct (180 <=? recordingTime (state c)) eqn:E; [lia|].
  simpl. auto.
Qed.

Lemma tick_at_limit c :
  180 <= recordingTime (state c) -> handle c Tick = c.
Proof.
  intros Hge. simpl. destruct (timerRef c); [|reflexivity].
  unfold intervalCallback, timerCallback.
  destruct (180 <=? recordingTime (state c)) eqn:E; [|lia].
  apply stale_stop_noop.
Qed.

Lemma ticks_count n : forall c t,
  timerRef c = Some t -> 0 <= recordingTime (state c) <= 180 ->
  let c' := run c (repeat Tick n) in
  recordingTime (state c') = Z.min 180 (recordingTime (state c) + Z.of_nat n)
  /\ isRecording (state c') = isRecording (state c)
  /\ mediaRecorderRef c' = mediaRecorderRef c
  /\ timerRef c' = timerRef c
  /\ stoppedTracks c' = stoppedTracks c.
Proof.
  induction n as [|n IH]; intros c t Ht Hr.
  - simpl. repeat split; lia.
  - change (run c (repeat Tick (S n))) with (run (handle c Tick) (repeat Tick n)).
    destruct (Z.eq_dec (recordingTime (state c)) 180) as [E|E].
    + rewrite tick_at_limit by lia.
      destruct (IH c t Ht Hr) as (H1 & H2); cbv zeta in *.
      split; [rewrite H1; lia | exact H2].
    + destruct (tick_below_limit c t Ht) as (T1 & T2 & T3 & T4 & T5); [lia|].
      destruct (IH (handle c Tick) t) as (H1 & H2 & H3 & H4 & H5);
        [congruence | lia |]; cbv zeta in *.
      repeat split; try congruence.
      rewrite H1, T1. lia.
Qed.

(** C1, on the code. While the session records, every tick adds one
    second until 180 is reached and the time then stays at 180; but the
    tick that finds the limit reached calls the [stopRecording] of the
    first render, which returns at once: after any number of ticks the
    session is still recording, its encoder active, its timer running and
    no track stopped. *)
Theorem limit_reached_session_not_stopped (c : Component) (n : nat) :
  recording_session c ->
  recordingTime (state c) = 0 ->
  let c' := run c (repeat Tick n) in
  recordingTime (state c') = Z.min 180 (Z.of_nat n)
  /\ recording_session c'
  /\ ~ stopped_session c'
  /\ stoppedTracks c' = stoppedTracks c.
Proof.
  intros (Hrec & Ht & r & Hr & Hs) H0 c'.
  destruct (timerRef c) as [t|] eqn:Et; [|congruence].
  destruct (ticks_count n c t Et) as (H1 & H2 & H3 & H4 & H5); [lia|].
  fold c' in H1, H2, H3, H4, H5.
  split; [rewrite H1, H0; reflexivity|].
  split; [|split; [|exact H5]].
  - repeat split; [congruence | congruence | exists r; split; [congruence | exact Hs]].
  - intros (Hn & _). congruence.
Qed.

Lemma limit_reached_session_not_stopped_witness :
  recording_session Samples.started
  /\ recordingTime (state Samples.started) = 0
  /\ (let c' := run Samples.started (repeat Tick 181) in
      recordingTime (state c') = Z.min 180 (Z.of_nat 181)
      /\ recording_session c'
      /\ ~ stopped_session c'
      /\ stoppedTracks c' = stoppedTracks Samples.started).
Proof.
  assert (Hs : recording_session Samples.started).
  { split; [reflexivity|]. split; [discriminate|].
    eexists. split; reflexivity. }
  split; [exact Hs|]. split; [reflexivity|].
  exact (limit_reached_session_not_stopped Samples.started 181 Hs eq_refl).
Defined.

(** The scenario of the specification, computed: after 181 ticks the
    time shows 180 and the session is as it was at 180. *)
Example after_181_ticks :
  let c' := run Samples.started (repeat Tick 181) in
  recordingTime (state c') = 180
  /\ isRecording (state c') = true
  /\ option_map mr_state (mediaRecorderRef c') = Some RecordingNow
  /\ timerRef c' = Some 1%nat
  /\ stoppedTracks c' = [].
Proof. lazy. repeat split. Qed.

(** Every other path stops the session: the Stop button calls the
    [stopRecording] of the render on screen, which sees
    [isRecording = true]. *)
Lemma click_stops c :
  recording_session c -> stopped_session (handle c ClickStop).
Proof.
  intros (Hrec & Ht & r & Hr & Hs). simpl. unfold stopRecording.
  rewrite Hr, Hrec. unfold close_audioContext, stopTimer.
  destruct (stream (state c)); simpl;
    (destruct (timerRef c); [|congruence]); simpl;
    destruct (audioContextRef c); simpl;
    (split; [reflexivity | eexists; split; reflexivity]).
Qed.

(** The same callback, had it closed over the current render's
    [stopRecording], would stop the session at the limit. *)
Lemma current_closure_would_stop c :
  recording_session c -> 180 <= recordingTime (state c) ->
  stopped_session (timerCallback (stopRecording (state c)) c).
Proof.
  intros Hs Hge. unfold timerCallback.
  destruct (180 <=? recordingTime (state c)) eqn:E; [|lia].
  apply (click_stops c Hs).
Qed.

(** *** Permissions *)

Lemma display_denied b c t :
  getDisplayMedia b = Rejected t ->
  error (startRecording b c) = Some (startErrorMessage t)
  /\ state (startRecording b c) = state c
  /\ mediaRecorderRef (startRecording b c) = mediaRecorderRef c
  /\ timerRef (startRecording b c) = timerRef c
  /\ chunksRef (startRecording b c) = chunksRef c.
Proof.
  intros H. unfold startRecording. rewrite H. simpl. auto.
Qed.

Lemma mic_denied b c ds t :
  micEnabled c = true ->
  getDisplayMedia b = Resolved ds ->
  getUserMedia b = Rejected t ->
  getVideoTracks ds <> [] ->
  isTypeSupported b (selectMimeType b) = true ->
  let c' := startRecording b c in
  recording_session c'
  /\ stream (state c') = Some ds
  /\ (exists r, mediaRecorderRef c' = Some r /\ mr_stream r = ds)
  /\ error c' = Some micDeniedMessage
  /\ audioContextRef c' = audioContextRef c.
Proof.
  intros Hm Hd Hu Hv Hsup. unfold startRecording. rewrite Hd.
  unfold addMicrophone. cbn [micEnabled set_error]. rewrite Hm, Hu.
  unfold new_MediaRecorder. rewrite Hsup.
  destruct (getVideoTracks ds) as [|v vs] eqn:Ev; [congruence|].
  cbv zeta. cbn. repeat split; try discriminate; eauto.
Qed.

(** C6. A refused display capture ends [startRecording] with nothing
    started and with a message that tells apart a refused permission, a
    missing source and an unsupported browser. A refused microphone does
    not end it: the session records the display stream as it is, and the
    microphone message is shown. *)
Theorem display_denial_fatal_microphone_denial_not :
  (forall b c t,
      getDisplayMedia b = Rejected t ->
      let c' := startRecording b c in
      error c' = Some (startErrorMessage t)
      /\ state c' = state c
      /\ mediaRecorderRef c' = mediaRecorderRef c
      /\ timerRef c' = timerRef c)
  /\ (forall m,
         startErrorMessage (ErrorObject "NotAllowedError" m)
         = "Failed to start recording. Please grant screen sharing permissions."
         /\ startErrorMessage (ErrorObject "NotFoundError" m)
            = "Failed to start recording. No screen sharing source available."
         /\ startErrorMessage (ErrorObject "NotSupportedError" m)
            = "Failed to start recording. Screen recording is not supported in this browser.")
  /\ (forall b c ds t,
         micEnabled c = true ->
         getDisplayMedia b = Resolved ds ->
         getUserMedia b = Rejected t ->
         getVideoTracks ds <> [] ->
         isTypeSupported b (selectMimeType b) = true ->
         let c' := startRecording b c in
         recording_session c'
         /\ stream (state c') = Some ds
         /\ (exists r, mediaRecorderRef c' = Some r /\ mr_stream r = ds)
         /\ error c' = Some micDeniedMessage).
Proof.
  split; [|split].
  - intros b c t H c'. destruct (display_denied b c t H) as (H1 & H2 & H3 & H4 & _).
    auto.
  - intros m. repeat split.
  - intros b c ds t Hm Hd Hu Hv Hs c'.
    destruct (mic_denied b c ds t Hm Hd Hu Hv Hs) as (H1 & H2 & H3 & H4 & _).
    auto.
Qed.

Lemma display_denial_fatal_microphone_denial_not_witness :
  getDisplayMedia Samples.deniesDisplay
  = Rejected (ErrorObject "NotAllowedError" "Permission denied")
  /\ (let c' := startRecording Samples.deniesDisplay mount in
      error c' = Some (startErrorMessage (ErrorObject "NotAllowedError" "Permission denied"))
      /\ state c' = state mount
      /\ mediaRecorderRef c' = mediaRecorderRef mount
      /\ timerRef c' = timerRef mount)
  /\ micEnabled mount = true
  /\ getDisplayMedia Samples.deniesMicrophone = Resolved Samples.displayWithAudio
  /\ getUserMedia Samples.deniesMicrophone
     = Rejected (ErrorObject "NotAllowedError" "Permission denied")
  /\ getVideoTracks Samples.displayWithAudio <> []
  /\ isTypeSupported Samples.deniesMicrophone (selectMimeType Samples.deniesMicrophone) = true
  /\ (let c' := startRecording Samples.deniesMicrophone mount in
      recording_session c'
      /\ stream (state c') = Some Samples.displayWithAudio
      /\ (exists r, mediaRecorderRef c' = Some r /\ mr_stream r = Samples.displayWithAudio)
      /\ error c' = Some micDeniedMessage).
Proof.
  destruct display_denial_fatal_microphone_denial_not as (Hd & _ & Hm).
  assert (Hv : getVideoTracks Samples.displayWithAudio <> []) by discriminate.
  split; [reflexivity|].
  split; [exact (Hd Samples.deniesDisplay mount _ eq_refl)|].
  split; [reflexivity|]. split; [reflexivity|]. split; [reflexivity|].
  split; [exact Hv|]. split; [reflexivity|].
  exact (Hm Samples.deniesMicrophone mount Samples.displayWithAudio
            (ErrorObject "NotAllowedError" "Permission denied")
            eq_refl eq_refl eq_refl Hv eq_refl).
Defined.

(** The three messages are different texts. *)
Lemma start_messages_differ m1 m2 m3 :
  startErrorMessage (ErrorObject "NotAllowedError" m1)
  <> startErrorMessage (ErrorObject "NotFoundError" m2)
  /\ startErrorMessage (ErrorObject "NotAllowedError" m1)
     <> startErrorMessage (ErrorObject "NotSupportedError" m3)
  /\ startErrorMessage (ErrorObject "NotFoundError" m2)
     <> startErrorMessage (ErrorObject "NotSupportedError" m3).
Proof. repeat split; discriminate. Qed.

(** *** Audio mixing *)

Lemma video_track_kind ds v vs :
  getVideoTracks ds = v :: vs -> is_video v = true /\ is_audio v = false.
Proof.
  intros H.
  assert (Hin : In v (getVideoTracks ds)) by (rewrite H; left; reflexivity).
  apply List.filter_In in Hin as [_ Hv].
  unfold is_video, is_audio in *. destruct (track_kind v); split; congruence.
Qed.

(** C9. With the microphone on and granted and an audio track in the
    display stream, [startRecording] builds one graph in which the display
    source passes a gain of 7/10 and the microphone source a gain of 1,
    both into the same destination; the encoder is given the display's
    video track and the destination's track, and no other audio track. *)
Theorem mixed_track_replaces_display_audio
  (b : Browser) (c : Component) (ds ms : MediaStream) (v : Track) (vs : list Track) :
  micEnabled c = true ->
  getDisplayMedia b = Resolved ds ->
  getUserMedia b = Resolved ms ->
  getAudioTracks ds <> [] ->
  getVideoTracks ds = v :: vs ->
  isTypeSupported b (selectMimeType b) = true ->
  let c' := startRecording b c in
  exists ctx r,
    audioContextRef c' = Some ctx
    /\ ctx_nodes ctx
       = [StreamDestination; StreamSource ds; Gain (7 # 10); StreamSource ms; Gain 1]
    /\ ctx_edges ctx = [(1, 2); (2, 0); (3, 4); (4, 0)]%nat
    /\ branches ctx = [(ds, 7 # 10); (ms, 1 # 1)]
    /\ mediaRecorderRef c' = Some r
    /\ mr_stream r = [v; mixedTrack]
    /\ getAudioTracks (mr_stream r) = [mixedTrack]
    /\ stream (state c') = Some [v; mixedTrack].
Proof.
  intros Hm Hd Hu Ha Hv Hsup c'. unfold c', startRecording. rewrite Hd.
  unfold addMicrophone. cbn [micEnabled set_error]. rewrite Hm, Hu.
  unfold mixAudio.
  destruct (getAudioTracks ds) as [|a0 as_] eqn:Ea; [congruence|].
  rewrite Hv. cbn -[selectMimeType].
  unfold new_MediaRecorder. rewrite Hsup. cbn -[selectMimeType].
  destruct (video_track_kind ds v vs Hv) as [Hvid Haud].
  rewrite Hvid. cbn -[selectMimeType].
  do 2 eexists. repeat split.
  unfold getAudioTracks. simpl. rewrite Haud. reflexivity.
Qed.

Lemma mixed_track_replaces_display_audio_witness :
  micEnabled mount = true
  /\ getDisplayMedia Samples.grantsAll = Resolved Samples.displayWithAudio
  /\ getUserMedia Samples.grantsAll = Resolved Samples.micStream
  /\ getAudioTracks Samples.displayWithAudio <> []
  /\ getVideoTracks Samples.displayWithAudio = [mkTrack VideoTrack FromDisplay]
  /\ isTypeSupported Samples.grantsAll (selectMimeType Samples.grantsAll) = true
  /\ (let c' := startRecording Samples.grantsAll mount in
      exists ctx r,
        audioContextRef c' = Some ctx
        /\ ctx_nodes ctx
           = [StreamDestination; StreamSource Samples.displayWithAudio; Gain (7 # 10);
              StreamSource Samples.micStream; Gain 1]
        /\ ctx_edges ctx = [(1, 2); (2, 0); (3, 4); (4, 0)]%nat
        /\ branches ctx = [(Samples.displayWithAudio, 7 # 10); (Samples.micStream, 1 # 1)]
        /\ mediaRecorderRef c' = Some r
        /\ mr_stream r = [mkTrack VideoTrack FromDisplay; mixedTrack]
        /\ getAudioTracks (mr_stream r) = [mixedTrack]
        /\ stream (state c') = Some [mkTrack VideoTrack FromDisplay; mixedTrack]).
Proof.
  assert (Ha : getAudioTracks Samples.displayWithAudio <> []) by discriminate.
  split; [reflexivity|]. split; [reflexivity|]. split; [reflexivity|].
  split; [exact Ha|]. split; [reflexivity|]. split; [reflexivity|].
  exact (mixed_track_replaces_display_audio
           Samples.grantsAll mount Samples.displayWithAudio Samples.micStream
           (mkTrack VideoTrack FromDisplay) []
           eq_refl eq_refl eq_refl Ha eq_refl eq_refl).
Defined.

End RecorderSpec.

(** ** Properties of the upload queue *)

Module UploadSpec.
Import Upload.

Lemma find_update i g l :
  (forall f, id (g f) = id f) ->
  find (fun f => String.eqb (id f) i) (update i g l)
  = option_map g (find (fun f => String.eqb (id f) i) l).
Proof.
  intros Hg. induction l as [|f l IH]; [reflexivity|].
  simpl. destruct (String.eqb (id f) i) eqn:E.
  - rewrite Hg, E. reflexivity.
  - rewrite E. exact IH.
Qed.

Lemma lookup_setUploadFiles i g q :
  (forall f, id (g f) = id f) ->
  lookup_item i (setUploadFiles (update i g) q) = option_map g (lookup_item i q).
Proof. intros Hg. unfold lookup_item. simpl. apply find_update, Hg. Qed.

(** A failure inside a listener leaves the list as it was. *)
Lemma failure_leaves_list i e q :
  failure_event e = true ->
  uploadFiles (listener i e q) = uploadFiles q
  /\ sent (listener i e q) = sent q.
Proof.
  destruct e as [lc l t|st f| |]; simpl; intros H; try discriminate; auto.
  destruct (st =? 200); [discriminate|]. auto.
Qed.

Lemma uploading_blocks_uploadAll i x q :
  lookup_item i q = Some x -> status x = uploading -> uploadAllUsable q = false.
Proof.
  intros Hl Hs. unfold uploadAllUsable, uploadingCount.
  apply andb_false_iff. right.
  unfold lookup_item in Hl. apply find_some in Hl as [Hin _].
  assert (Hf : In x (List.filter is_uploading (uploadFiles q))).
  { apply List.filter_In. split; [exact Hin|]. unfold is_uploading. rewrite Hs. reflexivity. }
  destruct (List.filter is_uploading (uploadFiles q)); [destruct Hf | reflexivity].
Qed.

(** C8, on the code. When a request that was sent fails (network error,
    timeout, or an answer other than 200), the listener's [throw] is caught
    by nothing: the item keeps the status "uploading" and its
    [retryCount]; neither the Retry nor the Upload button is shown for it
    and "Upload All" is disabled, so no second attempt can be started. *)
Theorem failed_request_is_not_recorded (q : Queue) (u : UploadFile) (e : XhrEvent) :
  lookup_item (id u) q = Some u ->
  failure_event e = true ->
  let q' := listener (id u) e (uploadFile None u q) in
  lookup_item (id u) q' = Some (mark_uploading u)
  /\ status (mark_uploading u) = uploading
  /\ retryCount (mark_uploading u) = retryCount u
  /\ retryButtonShown (mark_uploading u) = false
  /\ uploadButtonShown (mark_uploading u) = false
  /\ uploadAllUsable q' = false.
Proof.
  intros Hl He q'.
  assert (Hq : lookup_item (id u) q' = Some (mark_uploading u)).
  { unfold q', lookup_item.
    rewrite (proj1 (failure_leaves_list (id u) e _ He)).
    unfold uploadFile. cbn [xhr_send uploadFiles].
    fold (lookup_item (id u) (setUploadFiles (update (id u) mark_uploading) q)).
    rewrite lookup_setUploadFiles by reflexivity. rewrite Hl. reflexivity. }
  repeat split; try exact Hq.
  apply (uploading_blocks_uploadAll (id u) (mark_uploading u)); [exact Hq | reflexivity].
Qed.

Lemma failed_request_is_not_recorded_witness :
  lookup_item (id Samples.clip) Samples.oneClip = Some Samples.clip
  /\ failure_event ErrorEvent = true
  /\ (let q' := listener (id Samples.clip) ErrorEvent
                  (uploadFile None Samples.clip Samples.oneClip) in
      lookup_item (id Samples.clip) q' = Some (mark_uploading Samples.clip)
      /\ status (mark_uploading Samples.clip) = uploading
      /\ retryCount (mark_uploading Samples.clip) = retryCount Samples.clip
      /\ retryButtonShown (mark_uploading Samples.clip) = false
      /\ uploadButtonShown (mark_uploading Samples.clip) = false
      /\ uploadAllUsable q' = false).
Proof.
  split; [reflexivity|]. split; [reflexivity|].
  exact (failed_request_is_not_recorded Samples.oneClip Samples.clip ErrorEvent
           eq_refl eq_refl).
Defined.

(** The scenario of the specification, with the second attempt started
    by calling [retryUpload] on the item as it is shown: two requests are
    sent, the item ends in "success", and the count of failures is 0. *)
Lemma retry_after_network_error :
  let q1 := listener "k3x9q0a1z" ErrorEvent (uploadFile None Samples.clip Samples.oneClip) in
  let q2 := listener "k3x9q0a1z" (LoadEvent 200 None)
              (retryUpload None (mark_uploading Samples.clip) q1) in
  sent q2 = ["k3x9q0a1z"; "k3x9q0a1z"]
  /\ option_map status (lookup_item "k3x9q0a1z" q2) = Some success
  /\ option_map retryCount (lookup_item "k3x9q0a1z" q2) = Some 0
  /\ uncaught q2 = ["Network error during upload"].
Proof. lazy. repeat split. Qed.

(** Failures the [try] block itself throws are counted, and the third
    one ends the retries. *)
Lemma caught_failure_counts q u t :
  lookup_item (id u) q = Some u ->
  lookup_item (id u) (uploadFile (Some t) u q)
  = Some (mark_error (catchMessage t) (mark_uploading u)).
Proof.
  intros Hl. unfold uploadFile.
  rewrite !lookup_setUploadFiles by reflexivity. rewrite Hl. reflexivity.
Qed.

Lemma retries_end_at_three th f q :
  3 <= retryCount f ->
  retryUpload th f q = q /\ retryButtonShown f = false.
Proof.
  intros H. unfold retryUpload, retryButtonShown.
  destruct (retryCount f <? 3) eqn:E; [lia|].
  split; [reflexivity | destruct (status f); reflexivity].
Qed.

Lemma caught_failures_allow_three_attempts t :
  let a1 := uploadFile (Some t) Samples.clip Samples.oneClip in
  let u1 := mark_error (catchMessage t) (mark_uploading Samples.clip) in
  let a2 := retryUpload (Some t) u1 a1 in
  let u2 := mark_error (catchMessage t) (mark_uploading u1) in
  let a3 := retryUpload (Some t) u2 a2 in
  let u3 := mark_error (catchMessage t) (mark_uploading u2) in
  lookup_item "k3x9q0a1z" a3 = Some u3
  /\ retryCount u3 = 3
  /\ retryButtonShown u3 = false
  /\ retryUpload (Some t) u3 a3 = a3.
Proof. repeat split. Qed.

End UploadSpec.

(** ** Printing and parsing numbers *)

Module ParseSpec.

Lemma read_digits_stop acc rest :
  no_digit_ahead rest -> read_digits 10 acc rest = acc.
Proof.
  destruct rest as [|a r]; [reflexivity|].
  simpl. intros ->. reflexivity.
Qed.

Lemma read_uint d : forall acc rest,
  read_digits 10 (Some acc) (NilEmpty.string_of_uint d ++ rest)
  = read_digits 10 (Some (uint_value d acc)) rest.
Proof.
  induction d; intros acc rest; [reflexivity| ..];
    cbn [NilEmpty.string_of_uint String.append uint_value];
    cbn [read_digits]; rewrite <- IHd; reflexivity.
Qed.

Lemma uint_value_acc d : forall p,
  uint_value d (Zpos p) = Zpos (Pos.of_uint_acc d p).
Proof.
  induction d; intros p; [reflexivity| ..];
    cbn [uint_value Pos.of_uint_acc];
    rewrite <- IHd; f_equal;
    rewrite ?Pos2Z.inj_add, ?Pos2Z.inj_mul; lia.
Qed.

Lemma uint_value_0 d : uint_value d 0 = Z.of_N (Pos.of_uint d).
Proof.
  induction d; [reflexivity| ..];
    cbn [uint_value Pos.of_uint Z.of_N]; try exact IHd;
    rewrite <- uint_value_acc; reflexivity.
Qed.

Ltac eval_digit :=
  match goal with
  | |- context [digit_value 10 ?c] =>
      let v := eval vm_compute in (digit_value 10 c) in
      change (digit_value 10 c) with v
  end.

Lemma parseInt_uint d rest :
  d <> Decimal.Nil -> no_digit_ahead rest ->
  parseInt (NilEmpty.string_of_uint d ++ rest) (Some 10) = Num (uint_value d 0).
Proof.
  intros Hd Hrest.
  destruct d; [congruence| ..];
    unfold parseInt; simpl skip_space; cbv iota beta;
    cbn [read_digits]; eval_digit; cbv iota beta;
    rewrite read_uint, (read_digits_stop _ rest Hrest);
    cbn [uint_value]; rewrite Z.mul_1_l; reflexivity.
Qed.

Lemma append_empty (s : string) : s ++ "" = s.
Proof.
  induction s as [|a s IH]; [reflexivity|].
  change (String a s ++ "") with (String a (s ++ "")). rewrite IH. reflexivity.
Qed.

Lemma Z_toString_nonneg n :
  0 <= n ->
  exists d, d <> Decimal.Nil
            /\ Z_toString n = NilEmpty.string_of_uint d
            /\ uint_value d 0 = n.
Proof.
  intros Hn. destruct n as [|p|p]; [| |lia].
  - exists (Decimal.D0 Decimal.Nil). repeat split. discriminate.
  - exists (Pos.to_uint p). split; [apply DecimalPos.Unsigned.to_uint_nonnil|].
    split.
    + unfold Z_toString. cbn [Z.to_int NilZero.string_of_int].
      unfold NilZero.string_of_uint.
      pose proof (DecimalPos.Unsigned.to_uint_nonnil p) as Hp.
      destruct (Pos.to_uint p); [congruence | reflexivity ..].
    + rewrite uint_value_0, DecimalPos.Unsigned.of_to. reflexivity.
Qed.

(** Reading back a printed number that is not negative gives the number,
    whatever follows it, as long as no digit follows. *)
Lemma parseInt_Z_toString n rest :
  0 <= n -> no_digit_ahead rest ->
  parseInt (Z_toString n ++ rest) (Some 10) = Num n.
Proof.
  intros Hn Hrest. destruct (Z_toString_nonneg n Hn) as (d & Hd & -> & <-).
  apply parseInt_uint; assumption.
Qed.

(** The same for the number the route gets, up to 2^53. *)
Lemma Number_parseInt_Z_toString n :
  0 <= n <= 2 ^ 53 -> Number_parseInt (Z_toString n) (Some 10) = Num n.
Proof.
  intros Hn. unfold Number_parseInt.
  rewrite <- (append_empty (Z_toString n)), parseInt_Z_toString by (try lia; exact I).
  apply NumberSpec.toNumber_exact. lia.
Qed.

Lemma uint_string_dashless d : dashless (NilEmpty.string_of_uint d) = true.
Proof. induction d; [reflexivity| ..]; exact IHd. Qed.

Lemma uint_string_nonempty d : d <> Decimal.Nil -> NilEmpty.string_of_uint d <> "".
Proof. destruct d; [congruence| ..]; discriminate. Qed.

Lemma split_dashless a : forall rest,
  dashless a = true ->
  split "-" (a ++ String "-" rest) = a :: split "-" rest.
Proof.
  induction a as [|c a IH]; intros rest Ha; [reflexivity|].
  simpl in Ha. apply andb_true_iff in Ha as [Hc Ha].
  change (String c a ++ String "-" rest) with (String c (a ++ String "-" rest)).
  cbn [split].
  destruct (Ascii.eqb c "-"); [discriminate|].
  rewrite (IH rest Ha). reflexivity.
Qed.

Lemma split_dashless_whole a : dashless a = true -> split "-" a = [a].
Proof.
  induction a as [|c a IH]; intros Ha; [reflexivity|].
  simpl in Ha. apply andb_true_iff in Ha as [Hc Ha].
  cbn [split]. destruct (Ascii.eqb c "-"); [discriminate|].
  rewrite (IH Ha). reflexivity.
Qed.

Lemma remove_bytes_prefix (x : string) : remove_first "bytes=" ("bytes=" ++ x) = x.
Proof. destruct x; reflexivity. Qed.

(** The header [bytes=s-e] parses to [s] and [e], and [bytes=s-] to [s]
    and the last position of the file. *)
Lemma closed_range_parses s e L :
  0 <= s <= 2 ^ 53 -> 0 <= e <= 2 ^ 53 ->
  Server.RecordingById.rangeStart ("bytes=" ++ Z_toString s ++ "-" ++ Z_toString e) = Num s
  /\ Server.RecordingById.rangeEnd ("bytes=" ++ Z_toString s ++ "-" ++ Z_toString e) L
     = Num e.
Proof.
  intros Hs He.
  unfold Server.RecordingById.rangeStart, Server.RecordingById.rangeEnd.
  rewrite remove_bytes_prefix.
  pose proof (Number_parseInt_Z_toString s Hs) as Ps.
  pose proof (Number_parseInt_Z_toString e He) as Pe.
  destruct (Z_toString_nonneg s (proj1 Hs)) as (ds & Hds & Es & Vs).
  destruct (Z_toString_nonneg e (proj1 He)) as (de & Hde & Ee & Ve).
  change ("-" ++ Z_toString e) with (String "-" (Z_toString e)).
  rewrite Es, Ee in *. rewrite split_dashless by apply uint_string_dashless.
  rewrite split_dashless_whole by apply uint_string_dashless.
  cbn [nth lookup list_lookup].
  split; [exact Ps|].
  rewrite (proj2 (String.eqb_neq _ _) (uint_string_nonempty de Hde)). exact Pe.
Qed.

Lemma open_range_parses s L :
  0 <= s <= 2 ^ 53 -> 0 <= L <= 2 ^ 53 ->
  Server.RecordingById.rangeStart ("bytes=" ++ Z_toString s ++ "-") = Num s
  /\ Server.RecordingById.rangeEnd ("bytes=" ++ Z_toString s ++ "-") L = Num (L - 1).
Proof.
  intros Hs HL.
  unfold Server.RecordingById.rangeStart, Server.RecordingById.rangeEnd.
  rewrite remove_bytes_prefix.
  pose proof (Number_parseInt_Z_toString s Hs) as Ps.
  destruct (Z_toString_nonneg s (proj1 Hs)) as (ds & Hds & Es & Vs).
  change "-" with (String "-" "").
  rewrite Es in *. rewrite split_dashless by apply uint_string_dashless.
  cbn [split nth lookup list_lookup String.eqb].
  split; [exact Ps|].
  apply NumberSpec.num_sub_exact. lia.
Qed.

End ParseSpec.

(** ** Properties of the recordings API *)

Module ServerSpec.
Import Server Server.RecordingById Server.Recordings.

Lemma eqb_empty_false (r : string) : r <> "" -> String.eqb r "" = false.
Proof. intros H. apply String.eqb_neq. exact H. Qed.

(** A database that answers fails neither at the connection nor at the
    lookup. *)
Lemma answers_connect env :
  connectToDatabase_fails env = false -> connect_fails env = false.
Proof.
  unfold connectToDatabase_fails, connect_fails.
  destruct (database_fault env); [discriminate | reflexivity].
Qed.

Lemma answers_lookup env :
  connectToDatabase_fails env = false -> lookup_fails env = false.
Proof.
  unfold connectToDatabase_fails, lookup_fails.
  destruct (database_fault env); [discriminate | reflexivity].
Qed.

Lemma contentTypeOf_stored r :
  rec_contentType r <> "" -> contentTypeOf r = rec_contentType r.
Proof. intros H. unfold contentTypeOf. rewrite eqb_empty_false by exact H. reflexivity. Qed.

(** Every request with a non-empty [Range] header on a stored recording
    takes the 206 branch, whatever the header holds. *)
Lemma GET_ranged env db id r recording file :
  ObjectId_isValid env id = true ->
  connectToDatabase_fails env = false ->
  recordings db !! id = Some recording ->
  fs_files db !! rec_fileId recording = Some file ->
  r <> "" ->
  GET env db id (Some r)
  = {| status := 206;
       headers :=
         [("Content-Range",
           "bytes " ++ num_toString (rangeStart r) ++ "-"
             ++ num_toString (rangeEnd r (gf_length file))
             ++ "/" ++ Z_toString (gf_length file));
          ("Accept-Ranges", "bytes");
          ("Content-Length",
           num_toString (num_add (num_sub (rangeEnd r (gf_length file)) (rangeStart r))
                           (Num 1)));
          ("Content-Type", contentTypeOf recording)];
       body := StreamBody
                 {| ds_fileId := rec_fileId recording;
                    ds_range := Some (rangeStart r,
                                      num_add (rangeEnd r (gf_length file)) (Num 1)) |} |}.
Proof.
  intros Hv Hc Hr Hf Hne. unfold GET.
  rewrite Hv, Hc, Hr, Hf, (eqb_empty_false r Hne). reflexivity.
Qed.

Lemma slice_length (l : list Byte.byte) a b :
  0 <= a <= b -> b <= Z.of_nat (length l) ->
  Z.of_nat (length (slice a b l)) = b - a.
Proof.
  intros Hab Hb. unfold slice. rewrite length_take, length_drop. lia.
Qed.

Lemma slice_lookup (l : list Byte.byte) a b k :
  0 <= a -> 0 <= k < b - a ->
  slice a b l !! Z.to_nat k = l !! Z.to_nat (a + k).
Proof.
  intros Ha Hk. unfold slice.
  rewrite lookup_take_lt by lia. rewrite lookup_drop.
  f_equal. lia.
Qed.

Lemma bytes_header_nonempty (x : string) : "bytes=" ++ x <> "".
Proof. discriminate. Qed.

(** C3, for the ranges that lie inside the file. A request [bytes=s-e],
    or [bytes=s-] where the end is the last position [L - 1], with
    [0 <= s <= e < L], is answered with 206,
    [Content-Range: bytes s-e/L], [Accept-Ranges: bytes], [Content-Length]
    [e - s + 1] and the stored content type, and the body's stream fails
    nowhere and delivers [e - s + 1] bytes, the bytes of the file at the
    positions [s] to [e]. *)
Theorem range_request_served
  (env : Env) (db : Db) (id : string) (recording : RecordingDoc) (file : GridFile)
  (s : Z) (e : option Z) :
  ObjectId_isValid env id = true ->
  connectToDatabase_fails env = false ->
  recordings db !! id = Some recording ->
  fs_files db !! rec_fileId recording = Some file ->
  rec_contentType recording <> "" ->
  gf_length file <= 2 ^ 53 ->
  0 <= s <= default (gf_length file - 1) e ->
  default (gf_length file - 1) e < gf_length file ->
  let L := gf_length file in
  let last := default (L - 1) e in
  let r := "bytes=" ++ Z_toString s ++ "-"
             ++ match e with Some x => Z_toString x | None => "" end in
  let resp := GET env db id (Some r) in
  status resp = 206
  /\ headers resp
     = [("Content-Range",
         "bytes " ++ Z_toString s ++ "-" ++ Z_toString last ++ "/" ++ Z_toString L);
        ("Accept-Ranges", "bytes");
        ("Content-Length", Z_toString (last - s + 1));
        ("Content-Type", rec_contentType recording)]
  /\ exists st bytes,
       body resp = StreamBody st
       /\ stream_error db st = None
       /\ stream_bytes db st = Some bytes
       /\ Z.of_nat (length bytes) = last - s + 1
       /\ forall k, 0 <= k <= last - s ->
            bytes !! Z.to_nat k = gf_content file !! Z.to_nat (s + k).
Proof.
  intros Hv Hc Hr Hf Hct HL Hs Hlast L last r resp.
  fold L in HL, Hs, Hlast. fold last in Hs, Hlast.
  assert (Hparse : rangeStart r = Num s /\ rangeEnd r L = Num last).
  { unfold r, last. destruct e as [x|]; cbn [default] in *.
    - apply ParseSpec.closed_range_parses; lia.
    - apply ParseSpec.open_range_parses; lia. }
  destruct Hparse as [Ps Pe].
  unfold resp.
  rewrite (GET_ranged env db id r recording file Hv Hc Hr Hf
             (bytes_header_nonempty _)).
  fold L. rewrite Ps, Pe, (contentTypeOf_stored recording Hct).
  rewrite (NumberSpec.num_sub_exact last s) by lia.
  rewrite (NumberSpec.num_add_exact (last - s) 1) by lia.
  rewrite (NumberSpec.num_add_exact last 1) by lia.
  rewrite !NumberSpec.num_toString_exact by lia.
  cbn [status headers body].
  split; [reflexivity|]. split; [reflexivity|].
  eexists. exists (slice s (last + 1) (gf_content file)).
  split; [reflexivity|].
  unfold stream_error, stream_bytes. cbn [ds_fileId ds_range num_ltb]. rewrite Hf. fold L.
  replace (L <=? 0) with false by lia.
  replace (L <? s) with false by lia.
  replace (s <? 0) with false by lia.
  replace (last + 1 <? s) with false by lia.
  replace (L <? last + 1) with false by lia.
  replace ((0 <=? s) && (s <=? last + 1) && (last + 1 <=? L)) with true
    by (symmetry; apply andb_true_iff; split; [apply andb_true_iff; split|]; lia).
  split; [reflexivity|]. split; [reflexivity|]. split.
  - rewrite slice_length; unfold L, gf_length in *; lia.
  - intros k Hk. apply slice_lookup; lia.
Qed.

Lemma range_request_served_witness :
  ObjectId_isValid Samples.env0 Samples.storedId = true
  /\ connectToDatabase_fails Samples.env0 = false
  /\ recordings Samples.db0 !! Samples.storedId = Some Samples.storedDoc
  /\ fs_files Samples.db0 !! rec_fileId Samples.storedDoc = Some Samples.storedFile
  /\ rec_contentType Samples.storedDoc <> ""
  /\ gf_length Samples.storedFile <= 2 ^ 53
  /\ 0 <= 100 <= default (gf_length Samples.storedFile - 1) (Some 199)
  /\ default (gf_length Samples.storedFile - 1) (Some 199) < gf_length Samples.storedFile
  /\ (let L := gf_length Samples.storedFile in
      let last := default (L - 1) (Some 199) in
      let r := "bytes=" ++ Z_toString 100 ++ "-"
                 ++ match Some 199 with Some x => Z_toString x | None => "" end in
      let resp := GET Samples.env0 Samples.db0 Samples.storedId (Some r) in
      status resp = 206
      /\ headers resp
         = [("Content-Range",
             "bytes " ++ Z_toString 100 ++ "-" ++ Z_toString last ++ "/" ++ Z_toString L);
            ("Accept-Ranges", "bytes");
            ("Content-Length", Z_toString (last - 100 + 1));
            ("Content-Type", rec_contentType Samples.storedDoc)]
      /\ exists st bytes,
           body resp = StreamBody st
           /\ stream_error Samples.db0 st = None
           /\ stream_bytes Samples.db0 st = Some bytes
           /\ Z.of_nat (length bytes) = last - 100 + 1
           /\ forall k, 0 <= k <= last - 100 ->
                bytes !! Z.to_nat k
                = gf_content Samples.storedFile !! Z.to_nat (100 + k)).
Proof.
  assert (H1 : rec_contentType Samples.storedDoc <> "") by discriminate.
  assert (H2 : gf_length Samples.storedFile <= 2 ^ 53) by (vm_compute; discriminate).
  assert (H3 : 0 <= 100 <= default (gf_length Samples.storedFile - 1) (Some 199))
    by (split; vm_compute; discriminate).
  assert (H4 : default (gf_length Samples.storedFile - 1) (Some 199)
               < gf_length Samples.storedFile) by (vm_compute; reflexivity).
  split; [reflexivity|]. split; [reflexivity|]. split; [reflexivity|].
  split; [reflexivity|]. split; [exact H1|]. split; [exact H2|].
  split; [exact H3|]. split; [exact H4|].
  exact (range_request_served Samples.env0 Samples.db0 Samples.storedId
           Samples.storedDoc Samples.storedFile 100 (Some 199)
           eq_refl eq_refl eq_refl eq_refl H1 H2 H3 H4).
Defined.

(** The scenario of the specification and a request that names its end,
    computed. *)
Example last_ten_bytes :
  let resp := GET Samples.env0 Samples.db0 Samples.storedId (Some "bytes=9990-") in
  status resp = 206
  /\ headers resp
     = [("Content-Range", "bytes 9990-9999/10000"); ("Accept-Ranges", "bytes");
        ("Content-Length", "10"); ("Content-Type", "video/webm")]
  /\ match body resp with
     | StreamBody st => option_map (@length Byte.byte) (stream_bytes Samples.db0 st)
     | _ => None
     end = Some 10%nat.
Proof. vm_compute. repeat split. Qed.

Example hundred_bytes :
  let resp := GET Samples.env0 Samples.db0 Samples.storedId (Some "bytes=100-199") in
  status resp = 206
  /\ headers resp
     = [("Content-Range", "bytes 100-199/10000"); ("Accept-Ranges", "bytes");
        ("Content-Length", "100"); ("Content-Type", "video/webm")]
  /\ match body resp with
     | StreamBody st => option_map (@length Byte.byte) (stream_bytes Samples.db0 st)
     | _ => None
     end = Some 100%nat.
Proof. vm_compute. repeat split. Qed.

(** The claim of the specification, read for every range request, fails
    on a recording of 10,000 bytes: the request [bytes=0-99999] is answered
    206 with a [Content-Length] of 100000, and [bytes=500-2] with a
    [Content-Length] of -497; in both the stream of the body ends in an
    error when it is read and delivers no interval of the file. *)
Lemma range_outside_file_delivers_no_interval :
  let long := GET Samples.env0 Samples.db0 Samples.storedId (Some "bytes=0-99999") in
  let back := GET Samples.env0 Samples.db0 Samples.storedId (Some "bytes=500-2") in
  status long = 206
  /\ headers long !! 2%nat = Some ("Content-Length", "100000")
  /\ (exists st, body long = StreamBody st
                 /\ stream_error Samples.db0 st = Some EndBeyondLength
                 /\ stream_bytes Samples.db0 st = None)
  /\ status back = 206
  /\ headers back !! 2%nat = Some ("Content-Length", "-497")
  /\ (exists st, body back = StreamBody st
                 /\ stream_error Samples.db0 st = Some EndBeforeStart
                 /\ stream_bytes Samples.db0 st = None).
Proof.
  assert (Hl : GET Samples.env0 Samples.db0 Samples.storedId (Some "bytes=0-99999")
               = {| status := 206;
                    headers := [("Content-Range", "bytes 0-99999/10000");
                                ("Accept-Ranges", "bytes"); ("Content-Length", "100000");
                                ("Content-Type", "video/webm")];
                    body := StreamBody {| ds_fileId := "65f0000000000000000000f1";
                                          ds_range := Some (Num 0, Num 100000) |} |})
    by (vm_compute; reflexivity).
  assert (Hb : GET Samples.env0 Samples.db0 Samples.storedId (Some "bytes=500-2")
               = {| status := 206;
                    headers := [("Content-Range", "bytes 500-2/10000");
                                ("Accept-Ranges", "bytes"); ("Content-Length", "-497");
                                ("Content-Type", "video/webm")];
                    body := StreamBody {| ds_fileId := "65f0000000000000000000f1";
                                          ds_range := Some (Num 500, Num 3) |} |})
    by (vm_compute; reflexivity).
  cbv zeta. rewrite Hl, Hb. cbn [status headers body].
  split; [reflexivity|]. split; [reflexivity|].
  split; [eexists; split; [reflexivity|]; split; vm_compute; reflexivity|].
  split; [reflexivity|]. split; [reflexivity|].
  eexists. split; [reflexivity|]. split; vm_compute; reflexivity.
Qed.




(** Beyond 2^53 the numbers of the header are doubles: an end of twenty
    nines is printed as 10^20, and an end of 2^53 + 1 is read as 2^53, to
    which adding one changes nothing. *)
Example range_numbers_are_doubles :
  let huge := GET Samples.env0 Samples.db0 Samples.storedId
                (Some "bytes=0-99999999999999999999") in
  let odd := GET Samples.env0 Samples.db0 Samples.storedId
               (Some "bytes=0-9007199254740993") in
  headers huge !! 0%nat
  = Some ("Content-Range", "bytes 0-100000000000000000000/10000")
  /\ headers odd !! 0%nat = Some ("Content-Range", "bytes 0-9007199254740992/10000")
  /\ body odd = StreamBody {| ds_fileId := "65f0000000000000000000f1";
                              ds_range := Some (Num 0, Num 9007199254740992) |}.
Proof. vm_compute. repeat split. Qed.

(** *** Deleting *)

Lemma bucket_delete_recordings env fileId db :
  recordings (snd (bucket_delete env fileId db)) = recordings db.
Proof.
  unfold bucket_delete.
  destruct (bucket_delete_fault env) as [[|]|]; destruct (fs_files db !! fileId);
    reflexivity.
Qed.

Lemma bucket_delete_keeps_recordings env fileId db u db1 :
  bucket_delete env fileId db = (Resolved u, db1) ->
  bucket_delete_fails env = false
  /\ recordings db1 = recordings db
  /\ fs_files db1 = delete fileId (fs_files db)
  /\ oplog db1 = (oplog db ++ [ChunksDeleted fileId])%list.
Proof.
  unfold bucket_delete, bucket_delete_fails.
  destruct (bucket_delete_fault env) as [[|]|]; [discriminate | discriminate |].
  destruct (fs_files db !! fileId); [|discriminate].
  intros H. injection H as _ <-. auto.
Qed.

(** [bucket.delete] of a file that is not there fails and changes
    nothing. *)
Lemma bucket_delete_missing env fileId db :
  fs_files db !! fileId = None ->
  exists t, bucket_delete env fileId db = (Rejected t, db).
Proof.
  intros Hf. unfold bucket_delete. rewrite Hf.
  destruct (bucket_delete_fault env) as [[|]|]; eexists; reflexivity.
Qed.

(** Once the file is gone, the schema's hook finds nothing to delete and
    changes nothing. *)
Lemma hook_after_delete env id recording db1 :
  recordings db1 !! id = Some recording ->
  fs_files db1 !! rec_fileId recording = None ->
  pre_findOneAndDelete env id db1 = db1.
Proof.
  intros Hr Hf. unfold pre_findOneAndDelete. rewrite Hr.
  destruct (connect_fails env); [reflexivity|].
  destruct (bucket_delete_missing env _ _ Hf) as (t & ->). reflexivity.
Qed.

(** [bucket.delete] when neither of its calls fails and the file is
    there. *)
Lemma bucket_delete_done env fileId db file :
  bucket_delete_fails env = false ->
  fs_files db !! fileId = Some file ->
  bucket_delete env fileId db
  = (Resolved tt,
     {| recordings := recordings db;
        fs_files := delete fileId (fs_files db);
        oplog := (oplog db ++ [ChunksDeleted fileId])%list |}).
Proof.
  unfold bucket_delete, bucket_delete_fails. intros Hb Hf. rewrite Hf.
  destruct (bucket_delete_fault env) as [[|]|]; [discriminate | discriminate |].
  reflexivity.
Qed.

(** C4. [DELETE] removes the chunk-set first and the document second.
    When nothing fails, the answer is 200 with a message and both are
    gone, the chunk-set before the document. When [bucket.delete] fails,
    the answer is 500 with an error and the document is not deleted: it is
    still found afterwards and nothing was done to the collection. What is
    left of the file depends on which call of [bucket.delete] failed: all
    of it after the first, nothing a reader can find after the second. *)
Theorem delete_chunks_then_record
  (env env' : Env) (db : Db) (id : string) (recording : RecordingDoc) (file : GridFile) :
  ObjectId_isValid env id = true ->
  connectToDatabase_fails env = false ->
  bucket_delete_fails env = false ->
  findByIdAndDelete_fails env = false ->
  ObjectId_isValid env' id = true ->
  connectToDatabase_fails env' = false ->
  bucket_delete_fails env' = true ->
  recordings db !! id = Some recording ->
  fs_files db !! rec_fileId recording = Some file ->
  let done := DELETE env db id in
  let failed := DELETE env' db id in
  (status (fst done) = 200
   /\ body (fst done) = MessageJson "Recording deleted successfully"
   /\ fs_files (snd done) !! rec_fileId recording = None
   /\ recordings (snd done) !! id = None
   /\ oplog (snd done)
      = (oplog db ++ [ChunksDeleted (rec_fileId recording); RecordDeleted id])%list)
  /\ (status (fst failed) = 500
      /\ body (fst failed) = ErrorJson "Failed to delete recording"
      /\ recordings (snd failed) = recordings db
      /\ recordings (snd failed) !! id = Some recording
      /\ (bucket_delete_fault env' = Some FilesDeleteFails -> snd failed = db)
      /\ (bucket_delete_fault env' = Some ChunksDeleteFails ->
          fs_files (snd failed) !! rec_fileId recording = None
          /\ oplog (snd failed)
             = (oplog db ++ [FilesDocDeleted (rec_fileId recording)])%list)).
Proof.
  intros Hv Hc Hb Hd Hv' Hc' Hb' Hr Hf done failed. split.
  - unfold done, DELETE. rewrite Hv, (answers_lookup _ Hc), Hr. cbn [negb].
    rewrite (bucket_delete_done env _ db file Hb Hf).
    set (db1 := {| recordings := recordings db;
                   fs_files := delete (rec_fileId recording) (fs_files db);
                   oplog := (oplog db ++ [ChunksDeleted (rec_fileId recording)])%list |}).
    assert (Hf1 : fs_files db1 !! rec_fileId recording = None) by apply lookup_delete_eq.
    unfold findByIdAndDelete.
    rewrite (hook_after_delete env id recording db1 Hr Hf1), Hd.
    change (recordings db1) with (recordings db). rewrite Hr.
    cbn [fst snd json status body fs_files recordings oplog].
    split; [reflexivity|]. split; [reflexivity|]. split; [exact Hf1|].
    split; [apply lookup_delete_eq|]. unfold db1. cbn [oplog].
    rewrite <- app_assoc. reflexivity.
  - unfold failed, DELETE. rewrite Hv', (answers_lookup _ Hc'), Hr. cbn [negb].
    unfold bucket_delete, bucket_delete_fails in *. rewrite Hf.
    destruct (bucket_delete_fault env') as [[|]|]; [| |discriminate Hb'];
      cbn [fst snd json status body recordings fs_files oplog].
    + split; [reflexivity|]. split; [reflexivity|]. split; [reflexivity|].
      split; [exact Hr|]. split; [reflexivity|]. intros H. discriminate H.
    + split; [reflexivity|]. split; [reflexivity|]. split; [reflexivity|].
      split; [exact Hr|]. split; [intros H; discriminate H|].
      intros _. split; [apply lookup_delete_eq | reflexivity].
Qed.

Lemma delete_chunks_then_record_witness :
  ObjectId_isValid Samples.env0 Samples.storedId = true
  /\ connectToDatabase_fails Samples.env0 = false
  /\ bucket_delete_fails Samples.env0 = false
  /\ findByIdAndDelete_fails Samples.env0 = false
  /\ ObjectId_isValid Samples.envChunksDeleteFails Samples.storedId = true
  /\ connectToDatabase_fails Samples.envChunksDeleteFails = false
  /\ bucket_delete_fails Samples.envChunksDeleteFails = true
  /\ recordings Samples.db0 !! Samples.storedId = Some Samples.storedDoc
  /\ fs_files Samples.db0 !! rec_fileId Samples.storedDoc = Some Samples.storedFile
  /\ (let done := DELETE Samples.env0 Samples.db0 Samples.storedId in
      let failed := DELETE Samples.envChunksDeleteFails Samples.db0 Samples.storedId in
      (status (fst done) = 200
       /\ body (fst done) = MessageJson "Recording deleted successfully"
       /\ fs_files (snd done) !! rec_fileId Samples.storedDoc = None
       /\ recordings (snd done) !! Samples.storedId = None
       /\ oplog (snd done)
          = (oplog Samples.db0
             ++ [ChunksDeleted (rec_fileId Samples.storedDoc);
                 RecordDeleted Samples.storedId])%list)
      /\ (status (fst failed) = 500
          /\ body (fst failed) = ErrorJson "Failed to delete recording"
          /\ recordings (snd failed) = recordings Samples.db0
          /\ recordings (snd failed) !! Samples.storedId = Some Samples.storedDoc
          /\ (bucket_delete_fault Samples.envChunksDeleteFails = Some FilesDeleteFails ->
              snd failed = Samples.db0)
          /\ (bucket_delete_fault Samples.envChunksDeleteFails = Some ChunksDeleteFails ->
              fs_files (snd failed) !! rec_fileId Samples.storedDoc = None
              /\ oplog (snd failed)
                 = (oplog Samples.db0
                    ++ [FilesDocDeleted (rec_fileId Samples.storedDoc)])%list))).
Proof.
  split; [reflexivity|]. split; [reflexivity|]. split; [reflexivity|].
  split; [reflexivity|]. split; [reflexivity|]. split; [reflexivity|].
  split; [reflexivity|]. split; [reflexivity|]. split; [reflexivity|].
  exact (delete_chunks_then_record Samples.env0 Samples.envChunksDeleteFails Samples.db0
           Samples.storedId Samples.storedDoc Samples.storedFile
           eq_refl eq_refl eq_refl eq_refl eq_refl eq_refl eq_refl eq_refl eq_refl).
Defined.

(** The three outcomes, computed on the sample store: a first call that
    fails, a second call that fails, and no failure. *)
Example delete_outcomes :
  status (fst (DELETE Samples.envDeleteFails Samples.db0 Samples.storedId)) = 500
  /\ option_map gf_length
       (fs_files (snd (DELETE Samples.envDeleteFails Samples.db0 Samples.storedId))
          !! "65f0000000000000000000f1") = Some 10000
  /\ status (fst (DELETE Samples.envChunksDeleteFails Samples.db0 Samples.storedId)) = 500
  /\ recordings (snd (DELETE Samples.envChunksDeleteFails Samples.db0 Samples.storedId))
       !! Samples.storedId = Some Samples.storedDoc
  /\ fs_files (snd (DELETE Samples.envChunksDeleteFails Samples.db0 Samples.storedId))
       !! "65f0000000000000000000f1" = None
  /\ status (fst (DELETE Samples.env0 Samples.db0 Samples.storedId)) = 200
  /\ recordings (snd (DELETE Samples.env0 Samples.db0 Samples.storedId))
       !! Samples.storedId = None
  /\ oplog (snd (DELETE Samples.env0 Samples.db0 Samples.storedId))
     = [ChunksDeleted "65f0000000000000000000f1"; RecordDeleted "65f0000000000000000000a1"].
Proof. vm_compute. repeat split. Qed.

(** *** Uploading *)

(** A document whose duration is above 180 does not pass the schema. *)
Lemma duration_over_max_rejected env id d db :
  180 < rec_duration d ->
  save env id d db = Rejected (ErrorObject "ValidationError" "Recording validation failed").
Proof.
  intros H. unfold save, validate.
  replace (rec_duration d <=? 180) with false by lia.
  rewrite andb_false_r. reflexivity.
Qed.

Lemma form_recording_file form file :
  form_recording form = Some file -> form_entry form = Some (FileEntry file).
Proof.
  unfold form_recording. destruct (form_entry form) as [[f|t]|]; [|discriminate ..].
  intros H. injection H as ->. reflexivity.
Qed.

Lemma POST_reaches_save env db form file :
  form_recording form = Some file ->
  startsWith "video/" (ff_type file) = true ->
  ff_size file <= maxSize ->
  connect_fails env = false ->
  upload_fails env = false ->
  exists db1,
    gridfs_upload env (upload_name env) file db = Resolved db1
    /\ recordings db1 = recordings db
    /\ fs_files db1
       = <[new_fileId env :=
             {| gf_filename := upload_name env; gf_content := ff_content file;
                gf_originalName := ff_name file; gf_contentType := ff_type file |}]>
           (fs_files db)
    /\ oplog db1 = (oplog db ++ [ChunksWritten (new_fileId env)])%list
    /\ POST env db form
       = match save env (new_recordId env)
                 (new_Recording env form file (upload_name env)) db1 with
         | Rejected _ => (json 500 (ErrorJson "Failed to upload recording"), db1)
         | Resolved db2 =>
             (json 200 (UploadedJson "Recording uploaded successfully"
                          (new_recordId env)
                          ("/api/recordings/" ++ new_recordId env)), db2)
         end.
Proof.
  intros Hf Ht Hs Hc Hu. unfold POST, gridfs_upload, upload_name.
  rewrite (form_recording_file form file Hf), Ht, Hc, Hu. cbn [negb].
  replace (maxSize <? ff_size file) with false by lia.
  eexists. repeat split.
Qed.

(** C10. [POST] writes the file to the bucket before it saves the
    document. When the save is refused after that, the answer is 500 and
    the file stays in the bucket with no document pointing at it; a
    declared duration above 180 is one way to get there. *)
Theorem failed_save_leaves_orphan_file
  (env : Env) (db : Db) (form : FormData) (file : FormFile) :
  form_recording form = Some file ->
  startsWith "video/" (ff_type file) = true ->
  ff_size file <= maxSize ->
  connectToDatabase_fails env = false ->
  upload_fails env = false ->
  unreferenced (new_fileId env) db ->
  let resp := fst (POST env db form) in
  let db' := snd (POST env db form) in
  let orphaned :=
    status resp = 500
    /\ body resp = ErrorJson "Failed to upload recording"
    /\ (exists f, fs_files db' !! new_fileId env = Some f
                  /\ gf_content f = ff_content file)
    /\ recordings db' = recordings db
    /\ unreferenced (new_fileId env) db'
    /\ oplog db' = (oplog db ++ [ChunksWritten (new_fileId env)])%list in
  (forall db1 t,
      gridfs_upload env (upload_name env) file db = Resolved db1 ->
      save env (new_recordId env) (new_Recording env form file (upload_name env)) db1
      = Rejected t ->
      orphaned)
  /\ (forall d,
         parseInt (field_text (form_duration form)) None = Num d -> 180 < d ->
         orphaned).
Proof.
  intros Hf Ht Hs Hc Hu Hun resp db' orphaned.
  destruct (POST_reaches_save env db form file Hf Ht Hs (answers_connect _ Hc) Hu)
    as (db1 & Hup & R1 & F1 & O1 & HP).
  assert (Hfail : forall t,
             save env (new_recordId env)
                  (new_Recording env form file (upload_name env)) db1 = Rejected t ->
             orphaned).
  { intros t Hsave. unfold orphaned, resp, db'. rewrite HP, Hsave.
    cbn [fst snd json status body].
    split; [reflexivity|]. split; [reflexivity|]. split.
    { rewrite F1, lookup_insert_eq. eexists. split; reflexivity. }
    split; [exact R1|]. split; [|exact O1].
    unfold unreferenced. rewrite R1. exact Hun. }
  split.
  - intros db1' t Hup' Hsave. rewrite Hup in Hup'. injection Hup' as <-.
    exact (Hfail t Hsave).
  - intros d Hd Hgt. eapply Hfail. apply duration_over_max_rejected.
    unfold new_Recording. cbn [rec_duration]. unfold Number_parseInt. rewrite Hd.
    apply NumberSpec.toNumber_above. exact Hgt.
Qed.

Lemma empty_collection_unreferenced fileId (files : gmap string GridFile) ops :
  unreferenced fileId {| recordings := ∅; fs_files := files; oplog := ops |}.
Proof. intros id r H. cbn in H. rewrite lookup_empty in H. discriminate. Qed.

Lemma failed_save_leaves_orphan_file_witness :
  form_recording Samples.longForm = Some Samples.lateFile
  /\ startsWith "video/" (ff_type Samples.lateFile) = true
  /\ ff_size Samples.lateFile <= maxSize
  /\ connectToDatabase_fails Samples.env0 = false
  /\ upload_fails Samples.env0 = false
  /\ unreferenced (new_fileId Samples.env0) Samples.emptyDb
  /\ (let resp := fst (POST Samples.env0 Samples.emptyDb Samples.longForm) in
      let db' := snd (POST Samples.env0 Samples.emptyDb Samples.longForm) in
      let orphaned :=
        status resp = 500
        /\ body resp = ErrorJson "Failed to upload recording"
        /\ (exists f, fs_files db' !! new_fileId Samples.env0 = Some f
                      /\ gf_content f = ff_content Samples.lateFile)
        /\ recordings db' = recordings Samples.emptyDb
        /\ unreferenced (new_fileId Samples.env0) db'
        /\ oplog db'
           = (oplog Samples.emptyDb ++ [ChunksWritten (new_fileId Samples.env0)])%list in
      (forall db1 t,
          gridfs_upload Samples.env0 (upload_name Samples.env0) Samples.lateFile
            Samples.emptyDb = Resolved db1 ->
          save Samples.env0 (new_recordId Samples.env0)
            (new_Recording Samples.env0 Samples.longForm Samples.lateFile
               (upload_name Samples.env0)) db1
          = Rejected t ->
          orphaned)
      /\ (forall d,
             parseInt (field_text (form_duration Samples.longForm)) None = Num d ->
             180 < d ->
             orphaned)).
Proof.
  assert (Hs : ff_size Samples.lateFile <= maxSize) by (vm_compute; discriminate).
  assert (Hu : unreferenced (new_fileId Samples.env0) Samples.emptyDb)
    by apply empty_collection_unreferenced.
  split; [reflexivity|]. split; [reflexivity|]. split; [exact Hs|].
  split; [reflexivity|]. split; [reflexivity|]. split; [exact Hu|].
  exact (failed_save_leaves_orphan_file Samples.env0 Samples.emptyDb Samples.longForm
           Samples.lateFile eq_refl eq_refl Hs eq_refl eq_refl Hu).
Defined.

(** A declared duration of 200 seconds, computed: 500, and the three
    bytes stay in the bucket. *)
Example duration_200_orphans_the_file :
  let r := POST Samples.env0 Samples.emptyDb Samples.longForm in
  status (fst r) = 500
  /\ option_map gf_content (fs_files (snd r) !! "65f0000000000000000000f2")
     = Some [Byte.x1a; Byte.x45; Byte.xdf]
  /\ oplog (snd r) = [ChunksWritten "65f0000000000000000000f2"].
Proof. vm_compute. repeat split. Qed.

End ServerSpec.

(** ** More properties of the recordings API *)

Module ServerMore.
Import Server Server.RecordingById Server.Recordings.

(** X1. A request without a [Range] header (or with an empty one) for a
    stored recording is answered 200 with the total length, the stored
    content type and the file name, and its stream delivers the whole
    file. *)
Theorem full_download
  (env : Env) (db : Db) (id : string) (range : option string)
  (recording : RecordingDoc) (file : GridFile) :
  ObjectId_isValid env id = true ->
  connectToDatabase_fails env = false ->
  recordings db !! id = Some recording ->
  fs_files db !! rec_fileId recording = Some file ->
  range = None \/ range = Some "" ->
  let resp := GET env db id range in
  status resp = 200
  /\ headers resp
     = [("Content-Length", Z_toString (gf_length file));
        ("Content-Type", contentTypeOf recording);
        ("Content-Disposition",
         "inline; filename=" ++ String dquote (rec_filename recording)
           ++ String dquote EmptyString)]
  /\ exists st, body resp = StreamBody st
                /\ stream_bytes db st = Some (gf_content file).
Proof.
  intros Hv Hc Hr Hf Hrange resp. unfold resp, GET.
  rewrite Hv, Hc, Hr, Hf. cbn [negb].
  assert (E : match range with
              | Some r => String.eqb r "" = true
              | None => True
              end) by (destruct Hrange as [-> | ->]; [exact I | reflexivity]).
  destruct range as [r|]; [rewrite E|]; cbn [status headers body];
    (split; [reflexivity|]; split; [reflexivity|];
     eexists; split; [reflexivity|];
     unfold stream_bytes; cbn [ds_fileId ds_range]; rewrite Hf; reflexivity).
Qed.

Lemma full_download_witness :
  ObjectId_isValid Samples.env0 Samples.storedId = true
  /\ connectToDatabase_fails Samples.env0 = false
  /\ recordings Samples.db0 !! Samples.storedId = Some Samples.storedDoc
  /\ fs_files Samples.db0 !! rec_fileId Samples.storedDoc = Some Samples.storedFile
  /\ (@None string = None \/ @None string = Some "")
  /\ (let resp := GET Samples.env0 Samples.db0 Samples.storedId None in
      status resp = 200
      /\ headers resp
         = [("Content-Length", Z_toString (gf_length Samples.storedFile));
            ("Content-Type", contentTypeOf Samples.storedDoc);
            ("Content-Disposition",
             "inline; filename=" ++ String dquote (rec_filename Samples.storedDoc)
               ++ String dquote EmptyString)]
      /\ exists st, body resp = StreamBody st
                    /\ stream_bytes Samples.db0 st = Some (gf_content Samples.storedFile)).
Proof.
  split; [reflexivity|]. split; [reflexivity|]. split; [reflexivity|].
  split; [reflexivity|]. split; [left; reflexivity|].
  exact (full_download Samples.env0 Samples.db0 Samples.storedId None
           Samples.storedDoc Samples.storedFile
           eq_refl eq_refl eq_refl eq_refl (or_introl eq_refl)).
Defined.


(** The refusals on the sample store, for ids in the stored form and one
    that is not an id. A query that is not answered is a 500 of the
    route that makes it: [bucket.find] is made by [GET] alone. *)
Example GET_refusals :
  stored_form Samples.storedId = true
  /\ status (GET Samples.env0 Samples.db0 "not-an-id" None) = 400
  /\ status (GET Samples.env0 Samples.db0 "65f0000000000000000000a9" None) = 404
  /\ status (GET Samples.env0 Samples.danglingDb Samples.storedId None) = 404
  /\ status (GET Samples.env0 Samples.db0 Samples.storedId None) = 200
  /\ status (GET (Samples.envQueryFails FindByIdFails) Samples.db0 Samples.storedId None) = 500
  /\ status (GET (Samples.envQueryFails BucketFindFails) Samples.db0 Samples.storedId None)
     = 500
  /\ status (fst (DELETE (Samples.envQueryFails FindByIdFails) Samples.db0 Samples.storedId))
     = 500
  /\ status (fst (DELETE (Samples.envQueryFails BucketFindFails) Samples.db0 Samples.storedId))
     = 200
  /\ status (fst (POST (Samples.envQueryFails FindByIdFails) Samples.db0 Samples.goodForm))
     = 200.
Proof. vm_compute. repeat split. Qed.

Lemma filename_taken_same name a b :
  recordings a = recordings b -> filename_taken name a = filename_taken name b.
Proof. intros H. unfold filename_taken. rewrite H. reflexivity. Qed.

(** How [POST] ends, by the guards: the rejections, the part that is no
    file, the failures of the database, and the run through
    [gridfs_upload] and [save]. *)
Lemma POST_cases env db form :
  (exists msg, POST env db form = (json 400 (ErrorJson msg), db)
               /\ (form_entry form = None
                   \/ form_entry form = Some (TextEntry "")
                   \/ exists file, form_recording form = Some file
                                   /\ (startsWith "video/" (ff_type file) = false
                                       \/ maxSize < ff_size file)))
  \/ (POST env db form = (json 500 (ErrorJson "Failed to upload recording"), db)
      /\ ((exists text, form_entry form = Some (TextEntry text) /\ text <> "")
          \/ exists file, form_recording form = Some file
                          /\ startsWith "video/" (ff_type file) = true
                          /\ ff_size file <= maxSize
                          /\ (connect_fails env = true
                              \/ upload_fails env = true)))
  \/ (exists file,
        form_recording form = Some file
        /\ startsWith "video/" (ff_type file) = true
        /\ ff_size file <= maxSize
        /\ connect_fails env = false
        /\ upload_fails env = false).
Proof.
  unfold POST, form_recording.
  destruct (form_entry form) as [[file|text]|] eqn:Hf;
    [| |left; eexists; split; [reflexivity | left; reflexivity]].
  2:{ destruct (String.eqb text "") eqn:Et.
      - apply String.eqb_eq in Et. subst text.
        left. eexists. split; [reflexivity | right; left; reflexivity].
      - apply String.eqb_neq in Et.
        right. left. split; [reflexivity|]. left. exists text. split; [reflexivity|exact Et]. }
  destruct (startsWith "video/" (ff_type file)) eqn:Ht; cbn [negb];
    [|left; eexists; split; [reflexivity | right; right; exists file; auto]].
  destruct (maxSize <? ff_size file) eqn:Hs;
    [left; eexists; split;
       [reflexivity | right; right; exists file; split; [reflexivity|right; lia]]|].
  destruct (connect_fails env) eqn:Hc.
  { right. left. split; [reflexivity|]. right. exists file. repeat split; auto. lia. }
  unfold gridfs_upload. destruct (upload_fails env) eqn:Hu.
  { right. left. split; [reflexivity|]. right. exists file. repeat split; auto. lia. }
  right. right. exists file. repeat split; auto. lia.
Qed.

(** What [POST] can do to the collection: nothing, or add one document
    that passes the schema under a file name nobody has. *)
Lemma POST_recordings env db form :
  recordings (snd (POST env db form)) = recordings db
  \/ exists doc,
       validate doc = true
       /\ filename_taken (rec_filename doc) db = false
       /\ status (fst (POST env db form)) = 200
       /\ recordings (snd (POST env db form)) = <[new_recordId env := doc]> (recordings db).
Proof.
  destruct (POST_cases env db form)
    as [(msg & -> & _) | [(-> & _) | (file & Hf & Ht & Hs & Hc & Hu)]];
    [left; reflexivity | left; reflexivity |].
  destruct (ServerSpec.POST_reaches_save env db form file Hf Ht Hs Hc Hu)
    as (db1 & _ & R1 & _ & _ & ->).
  unfold save.
  destruct (validate _) eqn:Hval; cbn [negb]; [|left; exact R1].
  rewrite (filename_taken_same _ db1 db R1).
  destruct (filename_taken _ db) eqn:Htaken; [left; exact R1|].
  destruct (insert_fails env); [left; exact R1|].
  right. eexists. split; [exact Hval|]. split; [exact Htaken|].
  split; [reflexivity|]. cbn [snd recordings]. rewrite R1. reflexivity.
Qed.

(** What [DELETE] can do to the collection: nothing, or remove the
    document with the given id. *)
Lemma DELETE_recordings env db id :
  recordings (snd (DELETE env db id)) = recordings db
  \/ recordings (snd (DELETE env db id)) = delete id (recordings db).
Proof.
  unfold DELETE.
  destruct (negb (ObjectId_isValid env id)); [left; reflexivity|].
  destruct (lookup_fails env) eqn:Hc; [left; reflexivity|].
  destruct (recordings db !! id) as [recording|] eqn:Hr; [|left; reflexivity].
  pose proof (ServerSpec.bucket_delete_recordings env (rec_fileId recording) db) as Hbr.
  destruct (bucket_delete env (rec_fileId recording) db) as [[u|t] db1] eqn:Hd;
    cbn [snd] in Hbr; [|left; exact Hbr].
  destruct (ServerSpec.bucket_delete_keeps_recordings _ _ _ _ _ Hd) as (_ & R1 & F1 & _).
  assert (Hr1 : recordings db1 !! id = Some recording) by (rewrite R1; exact Hr).
  assert (Hf1 : fs_files db1 !! rec_fileId recording = None)
    by (rewrite F1; apply lookup_delete_eq).
  unfold findByIdAndDelete.
  rewrite (ServerSpec.hook_after_delete env id recording db1 Hr1 Hf1), Hr1.
  destruct (findByIdAndDelete_fails env); cbn [snd recordings].
  - left. exact R1.
  - right. rewrite R1. reflexivity.
Qed.

Lemma filename_not_taken name db :
  filename_taken name db = false ->
  forall i r, recordings db !! i = Some r -> rec_filename r <> name.
Proof.
  intros Hn i r Hr Heq. unfold filename_taken in Hn.
  assert (Ht : existsb (fun kv => String.eqb (rec_filename (snd kv)) name)
                 (map_to_list (recordings db)) = true).
  { apply existsb_exists. exists (i, r). split.
    - apply list_elem_of_In, elem_of_map_to_list. exact Hr.
    - cbn. apply String.eqb_eq. exact Heq. }
  congruence.
Qed.

(** X3. Whatever requests arrive and however they end, the collection
    stays within the schema and file names stay unique: if every stored
    document passes the schema and no two share a file name, the same
    holds after any sequence of [POST] and [DELETE] requests. In
    particular a stored duration is always between 0 and 180 and a stored
    content type always begins with "video/". *)
Theorem serve_keeps_schema (db : Db) (rs : list Request) :
  all_valid db -> unique_filenames db ->
  all_valid (serve db rs)
  /\ unique_filenames (serve db rs)
  /\ forall id r, recordings (serve db rs) !! id = Some r ->
       0 <= rec_duration r <= 180
       /\ startsWith "video/" (rec_contentType r) = true
       /\ contentTypeOf r = rec_contentType r.
Proof.
  intros Hv Hu.
  assert (Inv : all_valid (serve db rs) /\ unique_filenames (serve db rs)).
  { revert db Hv Hu. induction rs as [|rq rs IH]; intros db Hv Hu; [split; assumption|].
    change (serve db (rq :: rs)) with (serve (handle_request db rq) rs).
    apply IH.
    - destruct rq as [env form | env id]; cbn [handle_request]; intros i r.
      + destruct (POST_recordings env db form) as [-> | (doc & Hd & _ & _ & ->)];
          [apply Hv|].
        rewrite lookup_insert. case_decide; [intros [= <-]; exact Hd | apply Hv].
      + destruct (DELETE_recordings env db id) as [-> | ->]; [apply Hv|].
        rewrite lookup_delete. case_decide; [discriminate | apply Hv].
    - destruct rq as [env form | env id]; cbn [handle_request]; intros i j r1 r2.
      + destruct (POST_recordings env db form) as [-> | (doc & _ & Hn & _ & ->)];
          [apply Hu|].
        pose proof (filename_not_taken _ _ Hn) as Hfresh.
        rewrite !lookup_insert.
        repeat case_decide; subst; try congruence.
        * intros [= <-] H2 E. exfalso. exact (Hfresh _ _ H2 (eq_sym E)).
        * intros H1 [= <-] E. exfalso. exact (Hfresh _ _ H1 E).
        * apply Hu.
      + destruct (DELETE_recordings env db id) as [-> | ->]; [apply Hu|].
        rewrite !lookup_delete.
        repeat case_decide; try discriminate. apply Hu. }
  destruct Inv as [Hv' Hu']. split; [exact Hv'|]. split; [exact Hu'|].
  intros id r Hr. pose proof (Hv' id r Hr) as Hval. unfold validate in Hval.
  repeat (apply andb_true_iff in Hval as [Hval ?]).
  assert (Hct : startsWith "video/" (rec_contentType r) = true) by assumption.
  split; [lia|]. split; [exact Hct|].
  unfold contentTypeOf. destruct (rec_contentType r); [discriminate Hct | reflexivity].
Qed.

Lemma empty_all_valid : all_valid Samples.emptyDb.
Proof. intros id r H. cbn in H. rewrite lookup_empty in H. discriminate. Qed.

Lemma empty_unique_filenames : unique_filenames Samples.emptyDb.
Proof. intros i j r1 r2 H. cbn in H. rewrite lookup_empty in H. discriminate. Qed.

Lemma db0_all_valid : all_valid Samples.db0.
Proof.
  intros id r H. cbn [Samples.db0 recordings] in H.
  apply lookup_singleton_Some in H as [_ <-]. reflexivity.
Qed.

Lemma db0_unique_filenames : unique_filenames Samples.db0.
Proof.
  intros i j r1 r2 H1 H2 _. cbn [Samples.db0 recordings] in H1, H2.
  apply lookup_singleton_Some in H1 as [<- _].
  apply lookup_singleton_Some in H2 as [<- _]. reflexivity.
Qed.

Lemma serve_keeps_schema_witness :
  all_valid Samples.db0
  /\ unique_filenames Samples.db0
  /\ (let rs := [PostRequest Samples.env0 Samples.goodForm;
                 PostRequest Samples.env0 Samples.longForm;
                 DeleteRequest Samples.envChunksDeleteFails Samples.storedId;
                 DeleteRequest Samples.env0 "65f0000000000000000000a2"] in
      all_valid (serve Samples.db0 rs)
      /\ unique_filenames (serve Samples.db0 rs)
      /\ forall id r, recordings (serve Samples.db0 rs) !! id = Some r ->
           0 <= rec_duration r <= 180
           /\ startsWith "video/" (rec_contentType r) = true
           /\ contentTypeOf r = rec_contentType r).
Proof.
  split; [exact db0_all_valid|]. split; [exact db0_unique_filenames|].
  exact (serve_keeps_schema Samples.db0
           [PostRequest Samples.env0 Samples.goodForm;
            PostRequest Samples.env0 Samples.longForm;
            DeleteRequest Samples.envChunksDeleteFails Samples.storedId;
            DeleteRequest Samples.env0 "65f0000000000000000000a2"]
           db0_all_valid db0_unique_filenames).
Defined.

(** The requests of the witness, computed: the first upload is stored, the
    second is refused by the schema, the first delete fails and keeps its
    document, the second removes the upload again. *)
Example served_requests :
  let after n := serve Samples.db0
                   (take n [PostRequest Samples.env0 Samples.goodForm;
                            PostRequest Samples.env0 Samples.longForm;
                            DeleteRequest Samples.envChunksDeleteFails Samples.storedId;
                            DeleteRequest Samples.env0 "65f0000000000000000000a2"]) in
  option_map rec_duration (recordings (after 1%nat) !! "65f0000000000000000000a2") = Some 12
  /\ option_map rec_duration (recordings (after 2%nat) !! "65f0000000000000000000a2")
     = Some 12
  /\ recordings (after 3%nat) !! Samples.storedId = Some Samples.storedDoc
  /\ recordings (after 4%nat) !! "65f0000000000000000000a2" = None
  /\ recordings (after 4%nat) !! Samples.storedId = Some Samples.storedDoc.
Proof. vm_compute. repeat split. Qed.

(** X4. [POST] answers 400 exactly when the form has no part
    [recording] or an empty text for it, when the file's type does not
    begin with "video/", or when the file is larger than 100MB, and a
    request answered 400 writes nothing. A part [recording] that is a text
    and not empty is answered 500, with nothing written either. The only
    statuses are 200, 400 and 500, and only a request answered 200 adds a
    document. *)
Theorem POST_rejections (env : Env) (db : Db) (form : FormData) :
  let resp := fst (POST env db form) in
  let db' := snd (POST env db form) in
  (status resp = 400
   <-> form_entry form = None
       \/ form_entry form = Some (TextEntry "")
       \/ exists file, form_entry form = Some (FileEntry file)
                       /\ (startsWith "video/" (ff_type file) = false
                           \/ maxSize < ff_size file))
  /\ (status resp = 400 -> db' = db)
  /\ (forall text, form_entry form = Some (TextEntry text) -> text <> "" ->
        status resp = 500 /\ db' = db)
  /\ (status resp <> 200 -> recordings db' = recordings db)
  /\ (status resp = 200 \/ status resp = 400 \/ status resp = 500).
Proof.
  intros resp db'. unfold resp, db'.
  destruct (POST_cases env db form)
    as [(msg & E & Hg)
       | [(E & Hg) | (file & Hf & Ht & Hs & Hc & Hu)]].
  - rewrite E. cbn [fst snd json status].
    split.
    { split; [intros _|reflexivity].
      destruct Hg as [Hg | [Hg | (file & Hf & Hg)]]; [auto | auto |].
      right. right. exists file. split; [apply ServerSpec.form_recording_file; exact Hf|exact Hg]. }
    split; [reflexivity|]. split.
    { intros text Ht Hne. exfalso.
      destruct Hg as [Hg | [Hg | (file & Hf & Hg)]]; [congruence | congruence |].
      apply ServerSpec.form_recording_file in Hf. congruence. }
    split; [reflexivity | auto].
  - rewrite E. cbn [fst snd json status].
    split.
    { split; [discriminate|].
      intros [Hn | [Hn | (f & Hf' & Hbad)]];
        destruct Hg as [(text & Ht & Hne) | (file & Hf & Hty & Hsz & _)];
        try congruence.
      - apply ServerSpec.form_recording_file in Hf. congruence.
      - apply ServerSpec.form_recording_file in Hf. congruence.
      - apply ServerSpec.form_recording_file in Hf.
        rewrite Hf in Hf'. injection Hf' as <-.
        destruct Hbad; [congruence | lia]. }
    split; [discriminate|]. split; [intros; split; reflexivity|].
    split; [reflexivity | auto].
  - pose proof (ServerSpec.form_recording_file form file Hf) as He.
    assert (Hnot : ~ (form_entry form = None
                      \/ form_entry form = Some (TextEntry "")
                      \/ exists f, form_entry form = Some (FileEntry f)
                                   /\ (startsWith "video/" (ff_type f) = false
                                       \/ maxSize < ff_size f))).
    { intros [Hn | [Hn | (f & Hf' & [H | H])]]; [congruence | congruence | |];
        rewrite He in Hf'; injection Hf' as <-; [congruence | lia]. }
    destruct (ServerSpec.POST_reaches_save env db form file Hf Ht Hs Hc Hu)
      as (db1 & _ & R1 & _ & _ & ->).
    destruct (save _ _ _ db1) as [db2|t]; cbn [fst snd json status].
    + split; [split; [discriminate | intros H; destruct (Hnot H)]|].
      split; [discriminate|]. split; [intros text Ht'; congruence|].
      split; [congruence | auto].
    + split; [split; [discriminate | intros H; destruct (Hnot H)]|].
      split; [discriminate|]. split; [intros text Ht'; congruence|].
      split; [intros _; exact R1 | auto].
Qed.

(** A form whose part [recording] is the text "abc", computed. *)
Example text_part_is_a_server_error :
  fst (POST Samples.env0 Samples.db0
         {| form_entry := Some (TextEntry "abc"); form_title := None;
            form_duration := None; form_size := None |})
  = json 500 (ErrorJson "Failed to upload recording").
Proof. reflexivity. Qed.

Lemma POST_accepted env db form file :
  form_recording form = Some file ->
  startsWith "video/" (ff_type file) = true ->
  ff_size file <= maxSize ->
  connectToDatabase_fails env = false ->
  upload_fails env = false ->
  insert_fails env = false ->
  validate (new_Recording env form file (upload_name env)) = true ->
  filename_taken (upload_name env) db = false ->
  POST env db form
  = (json 200 (UploadedJson "Recording uploaded successfully" (new_recordId env)
                 ("/api/recordings/" ++ new_recordId env)),
     {| recordings := <[new_recordId env := new_Recording env form file (upload_name env)]>
                        (recordings db);
        fs_files := <[new_fileId env :=
                        {| gf_filename := upload_name env; gf_content := ff_content file;
                           gf_originalName := ff_name file; gf_contentType := ff_type file |}]>
                      (fs_files db);
        oplog := (oplog db ++ [ChunksWritten (new_fileId env);
                               RecordSaved (new_recordId env)])%list |}).
Proof.
  intros Hf Ht Hs Hc Hu Hi Hval Hn.
  destruct (ServerSpec.POST_reaches_save env db form file Hf Ht Hs
              (ServerSpec.answers_connect _ Hc) Hu)
    as (db1 & _ & R1 & F1 & O1 & ->).
  unfold save. rewrite Hval. cbn [negb].
  change (rec_filename (new_Recording env form file (upload_name env)))
    with (upload_name env).
  rewrite (filename_taken_same _ db1 db R1), Hn, Hi, R1, F1, O1, <- app_assoc.
  reflexivity.
Qed.

(** X5. Upload, then download: when [POST] passes its guards, the
    database works, the document passes the schema and the file name is
    free, the answer is 200 with the new id, and a later [GET] of that id
    without a range is answered 200 with the uploaded file's type and
    length and delivers exactly the uploaded bytes. *)
Theorem upload_then_download
  (env env' : Env) (db : Db) (form : FormData) (file : FormFile) :
  form_recording form = Some file ->
  startsWith "video/" (ff_type file) = true ->
  ff_size file <= maxSize ->
  connectToDatabase_fails env = false ->
  upload_fails env = false ->
  insert_fails env = false ->
  validate (new_Recording env form file (upload_name env)) = true ->
  filename_taken (upload_name env) db = false ->
  ObjectId_isValid env' (new_recordId env) = true ->
  connectToDatabase_fails env' = false ->
  let db' := snd (POST env db form) in
  let resp := GET env' db' (new_recordId env) None in
  fst (POST env db form)
  = json 200 (UploadedJson "Recording uploaded successfully" (new_recordId env)
                ("/api/recordings/" ++ new_recordId env))
  /\ status resp = 200
  /\ headers resp !! 0%nat = Some ("Content-Length", Z_toString (ff_size file))
  /\ headers resp !! 1%nat = Some ("Content-Type", ff_type file)
  /\ exists st, body resp = StreamBody st
                /\ stream_bytes db' st = Some (ff_content file).
Proof.
  intros Hf Ht Hs Hc Hu Hi Hval Hn Hv' Hc' db' resp. unfold resp, db'.
  rewrite (POST_accepted env db form file Hf Ht Hs Hc Hu Hi Hval Hn).
  cbn [fst snd]. split; [reflexivity|].
  unfold GET. rewrite Hv', Hc'. cbn [negb recordings fs_files].
  rewrite lookup_insert_eq. cbn [rec_fileId new_Recording].
  rewrite lookup_insert_eq. cbn [status headers body].
  split; [reflexivity|]. split; [reflexivity|]. split.
  - unfold contentTypeOf. cbn [rec_contentType new_Recording lookup list_lookup].
    destruct (ff_type file); [discriminate Ht | reflexivity].
  - eexists. split; [reflexivity|].
    unfold stream_bytes. cbn [ds_fileId ds_range fs_files].
    rewrite lookup_insert_eq. reflexivity.
Qed.

Lemma upload_then_download_witness :
  form_recording Samples.goodForm = Some Samples.lateFile
  /\ startsWith "video/" (ff_type Samples.lateFile) = true
  /\ ff_size Samples.lateFile <= maxSize
  /\ connectToDatabase_fails Samples.env0 = false
  /\ upload_fails Samples.env0 = false
  /\ insert_fails Samples.env0 = false
  /\ validate (new_Recording Samples.env0 Samples.goodForm Samples.lateFile
                 (upload_name Samples.env0)) = true
  /\ filename_taken (upload_name Samples.env0) Samples.db0 = false
  /\ ObjectId_isValid Samples.env0 (new_recordId Samples.env0) = true
  /\ (let db' := snd (POST Samples.env0 Samples.db0 Samples.goodForm) in
      let resp := GET Samples.env0 db' (new_recordId Samples.env0) None in
      fst (POST Samples.env0 Samples.db0 Samples.goodForm)
      = json 200 (UploadedJson "Recording uploaded successfully"
                    (new_recordId Samples.env0)
                    ("/api/recordings/" ++ new_recordId Samples.env0))
      /\ status resp = 200
      /\ headers resp !! 0%nat
         = Some ("Content-Length", Z_toString (ff_size Samples.lateFile))
      /\ headers resp !! 1%nat = Some ("Content-Type", ff_type Samples.lateFile)
      /\ exists st, body resp = StreamBody st
                    /\ stream_bytes db' st = Some (ff_content Samples.lateFile)).
Proof.
  assert (Hs : ff_size Samples.lateFile <= maxSize) by (vm_compute; discriminate).
  split; [reflexivity|]. split; [reflexivity|]. split; [exact Hs|].
  split; [reflexivity|]. split; [reflexivity|]. split; [reflexivity|].
  split; [reflexivity|]. split; [reflexivity|]. split; [reflexivity|].
  exact (upload_then_download Samples.env0 Samples.env0 Samples.db0 Samples.goodForm
           Samples.lateFile eq_refl eq_refl Hs eq_refl eq_refl eq_refl eq_refl eq_refl
           eq_refl eq_refl).
Defined.

(** A [DELETE] that meets no failure, in full. *)
Lemma DELETE_succeeds env db id recording file :
  ObjectId_isValid env id = true ->
  connectToDatabase_fails env = false ->
  bucket_delete_fails env = false ->
  findByIdAndDelete_fails env = false ->
  recordings db !! id = Some recording ->
  fs_files db !! rec_fileId recording = Some file ->
  DELETE env db id
  = (json 200 (MessageJson "Recording deleted successfully"),
     {| recordings := delete id (recordings db);
        fs_files := delete (rec_fileId recording) (fs_files db);
        oplog := (oplog db ++ [ChunksDeleted (rec_fileId recording);
                               RecordDeleted id])%list |}).
Proof.
  intros Hv Hc Hb Hd Hr Hf. unfold DELETE.
  rewrite Hv, (ServerSpec.answers_lookup _ Hc), Hr. cbn [negb].
  rewrite (ServerSpec.bucket_delete_done env _ db file Hb Hf).
  set (db1 := {| recordings := recordings db;
                 fs_files := delete (rec_fileId recording) (fs_files db);
                 oplog := (oplog db ++ [ChunksDeleted (rec_fileId recording)])%list |}).
  assert (Hh : pre_findOneAndDelete env id db1 = db1).
  { apply (ServerSpec.hook_after_delete env id recording db1); [exact Hr|].
    apply lookup_delete_eq. }
  unfold findByIdAndDelete. rewrite Hh, Hd.
  change (recordings db1) with (recordings db). rewrite Hr.
  unfold db1. cbn [fs_files oplog]. rewrite <- app_assoc. reflexivity.
Qed.

(** X6. Upload, then delete: an accepted [POST] under fresh identifiers
    followed by a [DELETE] of the new id that meets no failure is answered
    200 and leaves the collection and the bucket exactly as they were
    before the upload. *)
Theorem upload_then_delete
  (env env' : Env) (db : Db) (form : FormData) (file : FormFile) :
  form_recording form = Some file ->
  startsWith "video/" (ff_type file) = true ->
  ff_size file <= maxSize ->
  connectToDatabase_fails env = false ->
  upload_fails env = false ->
  insert_fails env = false ->
  validate (new_Recording env form file (upload_name env)) = true ->
  filename_taken (upload_name env) db = false ->
  recordings db !! new_recordId env = None ->
  fs_files db !! new_fileId env = None ->
  ObjectId_isValid env' (new_recordId env) = true ->
  connectToDatabase_fails env' = false ->
  bucket_delete_fails env' = false ->
  findByIdAndDelete_fails env' = false ->
  let db1 := snd (POST env db form) in
  let resp := fst (DELETE env' db1 (new_recordId env)) in
  let db2 := snd (DELETE env' db1 (new_recordId env)) in
  status resp = 200
  /\ recordings db2 = recordings db
  /\ fs_files db2 = fs_files db
  /\ oplog db2
     = (oplog db ++ [ChunksWritten (new_fileId env); RecordSaved (new_recordId env);
                     ChunksDeleted (new_fileId env); RecordDeleted (new_recordId env)])%list.
Proof.
  intros Hf Ht Hs Hc Hu Hi Hval Hn Hfr Hff Hv' Hc' Hb' Hd' db1 resp db2.
  unfold resp, db2, db1.
  rewrite (POST_accepted env db form file Hf Ht Hs Hc Hu Hi Hval Hn). cbn [snd].
  erewrite (DELETE_succeeds env' _ (new_recordId env)
              (new_Recording env form file (upload_name env)));
    [| exact Hv' | exact Hc' | exact Hb' | exact Hd'
     | apply lookup_insert_eq | apply lookup_insert_eq].
  cbn [fst snd json status recordings fs_files oplog rec_fileId new_Recording].
  split; [reflexivity|].
  split; [apply delete_insert_id; exact Hfr|].
  split; [apply delete_insert_id; exact Hff|].
  rewrite <- !app_assoc. reflexivity.
Qed.

Lemma upload_then_delete_witness :
  form_recording Samples.goodForm = Some Samples.lateFile
  /\ startsWith "video/" (ff_type Samples.lateFile) = true
  /\ ff_size Samples.lateFile <= maxSize
  /\ connectToDatabase_fails Samples.env0 = false
  /\ upload_fails Samples.env0 = false
  /\ insert_fails Samples.env0 = false
  /\ validate (new_Recording Samples.env0 Samples.goodForm Samples.lateFile
                 (upload_name Samples.env0)) = true
  /\ filename_taken (upload_name Samples.env0) Samples.db0 = false
  /\ recordings Samples.db0 !! new_recordId Samples.env0 = None
  /\ fs_files Samples.db0 !! new_fileId Samples.env0 = None
  /\ ObjectId_isValid Samples.env0 (new_recordId Samples.env0) = true
  /\ bucket_delete_fails Samples.env0 = false
  /\ findByIdAndDelete_fails Samples.env0 = false
  /\ (let db1 := snd (POST Samples.env0 Samples.db0 Samples.goodForm) in
      let resp := fst (DELETE Samples.env0 db1 (new_recordId Samples.env0)) in
      let db2 := snd (DELETE Samples.env0 db1 (new_recordId Samples.env0)) in
      status resp = 200
      /\ recordings db2 = recordings Samples.db0
      /\ fs_files db2 = fs_files Samples.db0
      /\ oplog db2
         = (oplog Samples.db0
            ++ [ChunksWritten (new_fileId Samples.env0);
                RecordSaved (new_recordId Samples.env0);
                ChunksDeleted (new_fileId Samples.env0);
                RecordDeleted (new_recordId Samples.env0)])%list).
Proof.
  assert (Hs : ff_size Samples.lateFile <= maxSize) by (vm_compute; discriminate).
  split; [reflexivity|]. split; [reflexivity|]. split; [exact Hs|].
  split; [reflexivity|]. split; [reflexivity|]. split; [reflexivity|].
  split; [reflexivity|]. split; [reflexivity|]. split; [reflexivity|].
  split; [reflexivity|]. split; [reflexivity|]. split; [reflexivity|].
  split; [reflexivity|].
  exact (upload_then_delete Samples.env0 Samples.env0 Samples.db0 Samples.goodForm
           Samples.lateFile eq_refl eq_refl Hs eq_refl eq_refl eq_refl eq_refl eq_refl
           eq_refl eq_refl eq_refl eq_refl eq_refl eq_refl).
Defined.

(** X7. After a [DELETE] that succeeded the recording is gone for every
    later request: a [GET] of the id, with or without a range, and a
    second [DELETE] are answered 404, and the second [DELETE] changes
    nothing. *)
Theorem delete_then_not_found
  (env env' : Env) (db : Db) (id : string) (range : option string)
  (recording : RecordingDoc) (file : GridFile) :
  ObjectId_isValid env id = true ->
  connectToDatabase_fails env = false ->
  bucket_delete_fails env = false ->
  findByIdAndDelete_fails env = false ->
  recordings db !! id = Some recording ->
  fs_files db !! rec_fileId recording = Some file ->
  ObjectId_isValid env' id = true ->
  connectToDatabase_fails env' = false ->
  let db' := snd (DELETE env db id) in
  GET env' db' id range = json 404 (ErrorJson "Recording not found")
  /\ DELETE env' db' id = (json 404 (ErrorJson "Recording not found"), db').
Proof.
  intros Hv Hc Hb Hd Hr Hf Hv' Hc' db'. unfold db'.
  rewrite (DELETE_succeeds env db id recording file Hv Hc Hb Hd Hr Hf). cbn [snd].
  unfold GET, DELETE. rewrite Hv', Hc', (ServerSpec.answers_lookup _ Hc'). cbn [negb recordings].
  rewrite lookup_delete_eq. split; reflexivity.
Qed.

Lemma delete_then_not_found_witness :
  ObjectId_isValid Samples.env0 Samples.storedId = true
  /\ connectToDatabase_fails Samples.env0 = false
  /\ bucket_delete_fails Samples.env0 = false
  /\ findByIdAndDelete_fails Samples.env0 = false
  /\ recordings Samples.db0 !! Samples.storedId = Some Samples.storedDoc
  /\ fs_files Samples.db0 !! rec_fileId Samples.storedDoc = Some Samples.storedFile
  /\ (let db' := snd (DELETE Samples.env0 Samples.db0 Samples.storedId) in
      GET Samples.env0 db' Samples.storedId (Some "bytes=0-")
      = json 404 (ErrorJson "Recording not found")
      /\ DELETE Samples.env0 db' Samples.storedId
         = (json 404 (ErrorJson "Recording not found"), db')).
Proof.
  split; [reflexivity|]. split; [reflexivity|]. split; [reflexivity|].
  split; [reflexivity|]. split; [reflexivity|]. split; [reflexivity|].
  exact (delete_then_not_found Samples.env0 Samples.env0 Samples.db0 Samples.storedId
           (Some "bytes=0-") Samples.storedDoc Samples.storedFile
           eq_refl eq_refl eq_refl eq_refl eq_refl eq_refl eq_refl eq_refl).
Defined.

(** X8. A document whose file is missing from the bucket cannot be
    removed through the route: [DELETE] is answered 500 and leaves the
    store as it is, because [bucket.delete] fails before the document is
    touched; [GET] of it is answered 404 "Recording file not found". *)
Theorem dangling_record_cannot_be_deleted
  (env : Env) (db : Db) (id : string) (range : option string) (recording : RecordingDoc) :
  ObjectId_isValid env id = true ->
  connectToDatabase_fails env = false ->
  recordings db !! id = Some recording ->
  fs_files db !! rec_fileId recording = None ->
  DELETE env db id = (json 500 (ErrorJson "Failed to delete recording"), db)
  /\ GET env db id range = json 404 (ErrorJson "Recording file not found").
Proof.
  intros Hv Hc Hr Hf. unfold DELETE, GET.
  rewrite Hv, Hc, (ServerSpec.answers_lookup _ Hc), Hr, Hf. cbn [negb].
  destruct (ServerSpec.bucket_delete_missing env _ db Hf) as (t & ->).
  split; reflexivity.
Qed.

Lemma dangling_record_cannot_be_deleted_witness :
  ObjectId_isValid Samples.env0 Samples.storedId = true
  /\ connectToDatabase_fails Samples.env0 = false
  /\ recordings Samples.danglingDb !! Samples.storedId = Some Samples.storedDoc
  /\ fs_files Samples.danglingDb !! rec_fileId Samples.storedDoc = None
  /\ DELETE Samples.env0 Samples.danglingDb Samples.storedId
     = (json 500 (ErrorJson "Failed to delete recording"), Samples.danglingDb)
  /\ GET Samples.env0 Samples.danglingDb Samples.storedId None
     = json 404 (ErrorJson "Recording file not found").
Proof.
  split; [reflexivity|]. split; [reflexivity|]. split; [reflexivity|].
  split; [reflexivity|].
  exact (dangling_record_cannot_be_deleted Samples.env0 Samples.danglingDb
           Samples.storedId None Samples.storedDoc eq_refl eq_refl eq_refl eq_refl).
Defined.

(** X9. When the chunk-set is removed and removing the document then
    fails, [DELETE] is answered 500 with the file gone and the document
    still stored: the document now points at nothing, and every later
    [DELETE] of it, whatever the state of the database, is answered 500
    and leaves it there. *)
Theorem failed_record_delete_leaves_dangling_record
  (env env' : Env) (db : Db) (id : string) (recording : RecordingDoc) (file : GridFile) :
  ObjectId_isValid env id = true ->
  connectToDatabase_fails env = false ->
  bucket_delete_fails env = false ->
  findByIdAndDelete_fails env = true ->
  recordings db !! id = Some recording ->
  fs_files db !! rec_fileId recording = Some file ->
  ObjectId_isValid env' id = true ->
  let resp := fst (DELETE env db id) in
  let db' := snd (DELETE env db id) in
  status resp = 500
  /\ recordings db' !! id = Some recording
  /\ fs_files db' !! rec_fileId recording = None
  /\ status (fst (DELETE env' db' id)) = 500
  /\ snd (DELETE env' db' id) = db'.
Proof.
  intros Hv Hc Hb Hd Hr Hf Hv' resp db'.
  assert (E : DELETE env db id
              = (json 500 (ErrorJson "Failed to delete recording"),
                 {| recordings := recordings db;
                    fs_files := delete (rec_fileId recording) (fs_files db);
                    oplog := (oplog db ++ [ChunksDeleted (rec_fileId recording)])%list |})).
  { unfold DELETE. rewrite Hv, (ServerSpec.answers_lookup _ Hc), Hr. cbn [negb].
    rewrite (ServerSpec.bucket_delete_done env _ db file Hb Hf).
    set (db1 := {| recordings := recordings db;
                   fs_files := delete (rec_fileId recording) (fs_files db);
                   oplog := (oplog db ++ [ChunksDeleted (rec_fileId recording)])%list |}).
    assert (Hh : pre_findOneAndDelete env id db1 = db1).
    { apply (ServerSpec.hook_after_delete env id recording db1); [exact Hr|].
      apply lookup_delete_eq. }
    unfold findByIdAndDelete. rewrite Hh, Hd. reflexivity. }
  unfold resp, db'. rewrite E. cbn [fst snd json status recordings fs_files].
  split; [reflexivity|]. split; [exact Hr|]. split; [apply lookup_delete_eq|].
  unfold DELETE. rewrite Hv'. cbn [negb].
  destruct (lookup_fails env'); [split; reflexivity|].
  cbn [recordings]. rewrite Hr.
  match goal with
  | |- context [bucket_delete env' ?f ?d] =>
      destruct (ServerSpec.bucket_delete_missing env' f d) as (t & ->);
        [cbn [fs_files]; apply lookup_delete_eq|]
  end.
  split; reflexivity.
Qed.

Lemma failed_record_delete_leaves_dangling_record_witness :
  ObjectId_isValid Samples.envRecordDeleteFails Samples.storedId = true
  /\ connectToDatabase_fails Samples.envRecordDeleteFails = false
  /\ bucket_delete_fails Samples.envRecordDeleteFails = false
  /\ findByIdAndDelete_fails Samples.envRecordDeleteFails = true
  /\ recordings Samples.db0 !! Samples.storedId = Some Samples.storedDoc
  /\ fs_files Samples.db0 !! rec_fileId Samples.storedDoc = Some Samples.storedFile
  /\ ObjectId_isValid Samples.env0 Samples.storedId = true
  /\ (let resp := fst (DELETE Samples.envRecordDeleteFails Samples.db0 Samples.storedId) in
      let db' := snd (DELETE Samples.envRecordDeleteFails Samples.db0 Samples.storedId) in
      status resp = 500
      /\ recordings db' !! Samples.storedId = Some Samples.storedDoc
      /\ fs_files db' !! rec_fileId Samples.storedDoc = None
      /\ status (fst (DELETE Samples.env0 db' Samples.storedId)) = 500
      /\ snd (DELETE Samples.env0 db' Samples.storedId) = db').
Proof.
  split; [reflexivity|]. split; [reflexivity|]. split; [reflexivity|].
  split; [reflexivity|]. split; [reflexivity|]. split; [reflexivity|].
  split; [reflexivity|].
  exact (failed_record_delete_leaves_dangling_record
           Samples.envRecordDeleteFails Samples.env0 Samples.db0 Samples.storedId
           Samples.storedDoc Samples.storedFile
           eq_refl eq_refl eq_refl eq_refl eq_refl eq_refl eq_refl).
Defined.

Lemma skip_space_all_space t : all_space t = true -> skip_space t = "".
Proof.
  induction t as [|a t IH]; [reflexivity|].
  cbn [all_space skip_space]. intros H. apply andb_true_iff in H as [Ha Ht].
  rewrite Ha. exact (IH Ht).
Qed.

Lemma trim_all_space t : all_space t = true -> trim t = "".
Proof. intros H. unfold trim. rewrite (skip_space_all_space t H). reflexivity. Qed.

(** X10. A title made only of white space passes [title || default]
    because it is not empty, is then trimmed to nothing and fails the
    schema's [required]: such an upload, otherwise acceptable, is answered
    500 after its file has been written, and the file stays in the bucket
    with no document. *)
Theorem blank_title_upload_fails
  (env : Env) (db : Db) (form : FormData) (file : FormFile) (t : string) :
  form_recording form = Some file ->
  startsWith "video/" (ff_type file) = true ->
  ff_size file <= maxSize ->
  connectToDatabase_fails env = false ->
  upload_fails env = false ->
  form_title form = Some t ->
  t <> "" ->
  all_space t = true ->
  let resp := fst (POST env db form) in
  let db' := snd (POST env db form) in
  resp = json 500 (ErrorJson "Failed to upload recording")
  /\ recordings db' = recordings db
  /\ exists f, fs_files db' !! new_fileId env = Some f
               /\ gf_content f = ff_content file.
Proof.
  intros Hf Ht Hs Hc Hu Htitle Hne Hsp resp db'. unfold resp, db'.
  destruct (ServerSpec.POST_reaches_save env db form file Hf Ht Hs
              (ServerSpec.answers_connect _ Hc) Hu)
    as (db1 & _ & R1 & F1 & _ & ->).
  assert (Hval : validate (new_Recording env form file (upload_name env)) = false).
  { unfold validate, new_Recording. cbn [rec_title]. rewrite Htitle.
    change (default "" (Some t)) with t.
    rewrite (ServerSpec.eqb_empty_false t Hne), (trim_all_space t Hsp). reflexivity. }
  unfold save. rewrite Hval. cbn [negb fst snd].
  split; [reflexivity|]. split; [exact R1|].
  rewrite F1, lookup_insert_eq. eexists. split; reflexivity.
Qed.

Lemma blank_title_upload_fails_witness :
  form_recording Samples.blankTitleForm = Some Samples.lateFile
  /\ startsWith "video/" (ff_type Samples.lateFile) = true
  /\ ff_size Samples.lateFile <= maxSize
  /\ connectToDatabase_fails Samples.env0 = false
  /\ upload_fails Samples.env0 = false
  /\ form_title Samples.blankTitleForm = Some "   "
  /\ "   " <> ""
  /\ all_space "   " = true
  /\ (let resp := fst (POST Samples.env0 Samples.emptyDb Samples.blankTitleForm) in
      let db' := snd (POST Samples.env0 Samples.emptyDb Samples.blankTitleForm) in
      resp = json 500 (ErrorJson "Failed to upload recording")
      /\ recordings db' = recordings Samples.emptyDb
      /\ exists f, fs_files db' !! new_fileId Samples.env0 = Some f
                   /\ gf_content f = ff_content Samples.lateFile).
Proof.
  assert (Hs : ff_size Samples.lateFile <= maxSize) by (vm_compute; discriminate).
  assert (Hne : "   " <> "") by discriminate.
  split; [reflexivity|]. split; [reflexivity|]. split; [exact Hs|].
  split; [reflexivity|]. split; [reflexivity|]. split; [reflexivity|].
  split; [exact Hne|]. split; [reflexivity|].
  exact (blank_title_upload_fails Samples.env0 Samples.emptyDb Samples.blankTitleForm
           Samples.lateFile "   " eq_refl eq_refl Hs eq_refl eq_refl eq_refl Hne eq_refl).
Defined.

End ServerMore.

(** ** More properties of the upload queue *)

Module UploadMore.
Import Upload UploadQueue.

Lemma validateFile_accepts maxFileSize f :
  validateFile maxFileSize f = None ->
  startsWith "video/" (file_type f) = true /\ file_size f <= maxFileSize.
Proof.
  unfold validateFile.
  destruct (startsWith "video/" (file_type f)); cbn [negb]; [|discriminate].
  destruct (maxFileSize <? file_size f) eqn:E; [discriminate|].
  intros _. split; [reflexivity | lia].
Qed.

(** X11. A file the queue's [validateFile] accepts, with a size limit no
    larger than the server's 100MB, is never turned down by the guards of
    [POST]: the answer to a form that carries it is not 400. *)
Theorem accepted_file_passes_server_guards
  (maxFileSize : Z) (env : Server.Env) (db : Server.Db)
  (form : Server.Recordings.FormData) (f : Server.Recordings.FormFile) :
  maxFileSize <= Server.Recordings.maxSize ->
  validateFile maxFileSize (as_File f) = None ->
  Server.Recordings.form_recording form = Some f ->
  Server.status (fst (Server.Recordings.POST env db form)) <> 400.
Proof.
  intros Hmax Hok Hf.
  destruct (validateFile_accepts _ _ Hok) as [Ht Hs]. cbn [as_File file_type file_size] in Ht, Hs.
  pose proof (ServerSpec.form_recording_file form f Hf) as He.
  destruct (ServerMore.POST_cases env db form)
    as [(msg & _ & [Hn | [Hn | (f' & Hf' & [H | H])]])
       | [(-> & _) | (f' & Hf' & Ht' & Hs' & Hc & Hu)]].
  - congruence.
  - congruence.
  - rewrite Hf in Hf'. injection Hf' as <-. congruence.
  - rewrite Hf in Hf'. injection Hf' as <-. lia.
  - discriminate.
  - destruct (ServerSpec.POST_reaches_save env db form f' Hf' Ht' Hs' Hc Hu)
      as (db1 & _ & _ & _ & _ & ->).
    destruct (Server.Recordings.save _ _ _ db1); discriminate.
Qed.

Lemma accepted_file_passes_server_guards_witness :
  Samples.defaultMaxFileSize <= Server.Recordings.maxSize
  /\ validateFile Samples.defaultMaxFileSize (as_File Samples.lateFile) = None
  /\ Server.Recordings.form_recording (uploadForm Samples.lateFile) = Some Samples.lateFile
  /\ Server.status
       (fst (Server.Recordings.POST Samples.env0 Samples.db0 (uploadForm Samples.lateFile)))
     <> 400.
Proof.
  assert (Hm : Samples.defaultMaxFileSize <= Server.Recordings.maxSize)
    by (vm_compute; discriminate).
  split; [exact Hm|]. split; [reflexivity|]. split; [reflexivity|].
  exact (accepted_file_passes_server_guards Samples.defaultMaxFileSize Samples.env0
           Samples.db0 (uploadForm Samples.lateFile) Samples.lateFile Hm eq_refl eq_refl).
Defined.

(** *** The size of the queue *)

Lemma length_update i g l : length (update i g l) = length l.
Proof. unfold update. apply length_map. Qed.

Lemma length_uploadFile th u q :
  length (uploadFiles (uploadFile th u q)) = length (uploadFiles q).
Proof.
  unfold uploadFile. destruct th; cbn [setUploadFiles xhr_send uploadFiles];
    rewrite ?length_update; reflexivity.
Qed.

Lemma length_fold_uploadFile (skip : UploadFile -> bool) th l : forall q,
  length (uploadFiles
            (fold_left (fun acc f => if skip f then acc else uploadFile (th f) f acc) l q))
  = length (uploadFiles q).
Proof.
  induction l as [|f l IH]; intros q; [reflexivity|].
  cbn [fold_left]. rewrite IH. destruct (skip f); [reflexivity|].
  apply length_uploadFile.
Qed.

Lemma length_listener i e q :
  length (uploadFiles (listener i e q)) = length (uploadFiles q).
Proof.
  destruct e as [lc l t|st f| |]; cbn [listener];
    [destruct lc | destruct (st =? 200) | |];
    cbn [setUploadFiles onUploadComplete throw_in_listener uploadFiles];
    rewrite ?length_update; reflexivity.
Qed.

Lemma length_act maxFileSize maxFiles q a :
  (length (uploadFiles q) <= maxFiles)%nat ->
  (length (uploadFiles (act maxFileSize maxFiles q a)) <= maxFiles)%nat.
Proof.
  intros H. destruct a; cbn [act].
  - unfold addFiles.
    destruct (maxFiles <? length (uploadFiles q) + length files)%nat eqn:E; [exact H|].
    apply Nat.ltb_ge in E. cbn [setUploadFiles uploadFiles].
    rewrite length_app, length_map, length_combine. lia.
  - unfold removeFile. cbn [setUploadFiles uploadFiles].
    pose proof (List.filter_length_le (fun f => negb (String.eqb (id f) i)) (uploadFiles q)).
    lia.
  - destruct (uploadFiles q !! n) as [f|]; [|exact H].
    destruct (uploadButtonShown f); [|exact H]. rewrite length_uploadFile. exact H.
  - destruct (uploadFiles q !! n) as [f|]; [|exact H].
    destruct (retryButtonShown f); [|exact H]. unfold retryUpload.
    destruct (retryCount f <? 3); [|exact H]. rewrite length_uploadFile. exact H.
  - destruct (uploadAllUsable q); [|exact H]. unfold uploadAll.
    rewrite length_fold_uploadFile. exact H.
  - unfold clearCompleted. cbn [setUploadFiles uploadFiles].
    pose proof (List.filter_length_le
                  (fun f => match status f with success => false | _ => true end)
                  (uploadFiles q)).
    lia.
  - cbn. lia.
  - rewrite length_listener. exact H.
Qed.

(** X12. The queue never holds more than [maxFiles] items: starting from
    a queue within the limit, whatever files are added, removed, uploaded,
    retried or cleared and whatever the requests report, the list stays
    within the limit; an [addFiles] that would exceed it adds nothing. *)
Theorem queue_never_exceeds_maxFiles
  (maxFileSize : Z) (maxFiles : nat) (q : Queue) (l : list Action) :
  (length (uploadFiles q) <= maxFiles)%nat ->
  (length (uploadFiles (acts maxFileSize maxFiles q l)) <= maxFiles)%nat
  /\ forall ids files,
       (maxFiles < length (uploadFiles q) + length files)%nat ->
       addFiles maxFileSize maxFiles ids files q = q.
Proof.
  intros H. split.
  - revert q H. induction l as [|a l IH]; intros q H; [exact H|].
    cbn [acts fold_left]. apply IH. apply length_act. exact H.
  - intros ids files Hlt. unfold addFiles.
    destruct (maxFiles <? length (uploadFiles q) + length files)%nat eqn:E; [reflexivity|].
    apply Nat.ltb_ge in E. lia.
Qed.

Lemma queue_never_exceeds_maxFiles_witness :
  (length (uploadFiles emptyQueue) <= 5)%nat
  /\ ((length (uploadFiles
                 (acts Samples.defaultMaxFileSize 5 emptyQueue
                    [AddFiles ["a"; "b"; "c"] [Samples.oggFile; Samples.oggFile; Samples.oggFile];
                     AddFiles ["d"; "e"; "f"] [Samples.oggFile; Samples.oggFile; Samples.oggFile];
                     ClickUploadAll (fun _ => None)])) <= 5)%nat
      /\ forall ids files,
           (5 < length (uploadFiles emptyQueue) + length files)%nat ->
           addFiles Samples.defaultMaxFileSize 5 ids files emptyQueue = emptyQueue).
Proof.
  assert (H : (length (uploadFiles emptyQueue) <= 5)%nat) by (cbn; lia).
  split; [exact H|].
  exact (queue_never_exceeds_maxFiles Samples.defaultMaxFileSize 5 emptyQueue
           [AddFiles ["a"; "b"; "c"] [Samples.oggFile; Samples.oggFile; Samples.oggFile];
            AddFiles ["d"; "e"; "f"] [Samples.oggFile; Samples.oggFile; Samples.oggFile];
            ClickUploadAll (fun _ => None)] H).
Defined.

(** *** Upload All *)

Lemma sent_uploadFile th u q :
  sent (uploadFile th u q)
  = (sent q ++ match th with None => [id u] | Some _ => [] end)%list.
Proof.
  unfold uploadFile. destruct th; cbn [setUploadFiles xhr_send sent];
    rewrite ?app_nil_r; reflexivity.
Qed.

Lemma filter_filter_and {A} (f g : A -> bool) l :
  List.filter f (List.filter g l) = List.filter (fun x => g x && f x) l.
Proof.
  induction l as [|x l IH]; [reflexivity|].
  cbn [List.filter]. destruct (g x); cbn [andb List.filter]; rewrite IH; reflexivity.
Qed.

Lemma sent_fold_uploadFile (skip : UploadFile -> bool) th l : forall q,
  sent (fold_left (fun acc f => if skip f then acc else uploadFile (th f) f acc) l q)
  = (sent q ++ map id (List.filter (fun f => negb (skip f) && is_none (th f)) l))%list.
Proof.
  induction l as [|f l IH]; intros q; [cbn; rewrite app_nil_r; reflexivity|].
  cbn [fold_left List.filter]. rewrite IH.
  destruct (skip f); cbn [negb andb]; [reflexivity|].
  rewrite sent_uploadFile. destruct (th f); cbn [is_none map].
  - rewrite app_nil_r. reflexivity.
  - rewrite <- app_assoc. reflexivity.
Qed.

Lemma uploadAll_sent thrown q :
  sent (uploadAll thrown q)
  = (sent q
     ++ map id (List.filter (fun f => eligible f && is_none (thrown f)) (uploadFiles q)))%list.
Proof.
  unfold uploadAll. rewrite sent_fold_uploadFile, filter_filter_and.
  f_equal. f_equal. apply List.filter_ext. intros f. unfold eligible.
  rewrite andb_assoc. reflexivity.
Qed.

(** X13. "Upload All" sends one request for every item that is pending or
    failed, except those that failed three times with a message, in the
    order of the list and nothing else: the requests sent grow by the ids
    of exactly these items (those whose [try] block throws send none).
    Items that are uploading or done are never sent again. *)
Theorem uploadAll_sends_eligible (thrown : UploadFile -> option Thrown) (q : Queue) :
  sent (uploadAll thrown q)
  = (sent q
     ++ map id (List.filter (fun f => eligible f && is_none (thrown f)) (uploadFiles q)))%list
  /\ forall f, In f (uploadFiles q) ->
       status f = uploading \/ status f = success ->
       eligible f = false.
Proof.
  split; [apply uploadAll_sent|].
  intros f _ [H | H]; unfold eligible, is_pending_or_error; rewrite H; reflexivity.
Qed.

Lemma validateFile_message maxFileSize f msg :
  validateFile maxFileSize f = Some msg -> msg <> "".
Proof.
  unfold validateFile.
  destruct (negb _); [intros [= <-]; discriminate|].
  destruct (_ <? _); [intros [= <-]; discriminate|].
  destruct (negb _); [intros [= <-]; discriminate | discriminate].
Qed.

Lemma filter_app_length {A} (p : A -> bool) l1 l2 :
  length (List.filter p (l1 ++ l2))
  = (length (List.filter p l1) + length (List.filter p l2))%nat.
Proof. rewrite List.filter_app, length_app. reflexivity. Qed.

(** X14. A file that [validateFile] turns down is queued all the same,
    with status "error", the message and a retry count of 0, so it counts
    as a failed upload that may be retried: the Retry button is shown for
    it, and "Upload All" sends a request for it. *)
Theorem rejected_file_is_still_uploaded
  (maxFileSize : Z) (maxFiles : nat) (q : Queue) (i : string) (f : File) (msg : string) :
  validateFile maxFileSize f = Some msg ->
  (length (uploadFiles q) + 1 <= maxFiles)%nat ->
  uploadingCount q = 0%nat ->
  let item := {| id := i; file := f; progress := 0; status := error;
                 error_text := Some msg; retryCount := 0 |} in
  let q' := addFiles maxFileSize maxFiles [i] [f] q in
  uploadFiles q' = (uploadFiles q ++ [item])%list
  /\ retryButtonShown item = true
  /\ In i (sent (act maxFileSize maxFiles q' (ClickUploadAll (fun _ => None)))).
Proof.
  intros Hrej Hroom Hup item q'.
  assert (Hq' : uploadFiles q' = (uploadFiles q ++ [item])%list).
  { unfold q', addFiles. cbn [length].
    replace (maxFiles <? length (uploadFiles q) + 1)%nat with false
      by (symmetry; apply Nat.ltb_ge; lia).
    cbn [setUploadFiles uploadFiles combine map fst snd]. unfold new_item.
    rewrite Hrej. reflexivity. }
  split; [exact Hq'|]. split; [reflexivity|].
  assert (Husable : uploadAllUsable q' = true).
  { unfold uploadAllUsable, pendingCount, uploadingCount. rewrite Hq', !filter_app_length.
    unfold uploadingCount in Hup. rewrite Hup. cbn.
    rewrite Nat.add_1_r. reflexivity. }
  cbn [act]. rewrite Husable, uploadAll_sent, Hq', List.filter_app, map_app.
  apply in_or_app. right. apply in_or_app. right.
  assert (He : eligible item = true).
  { unfold eligible, item. cbn.
    rewrite (ServerSpec.eqb_empty_false msg (validateFile_message _ _ _ Hrej)).
    reflexivity. }
  cbn [List.filter is_none]. rewrite He. cbn. left. reflexivity.
Qed.

Lemma rejected_file_is_still_uploaded_witness :
  validateFile Samples.defaultMaxFileSize Samples.oggFile
  = Some "Unsupported video format. Please use WebM, MP4, AVI, or MOV files"
  /\ (length (uploadFiles emptyQueue) + 1 <= 5)%nat
  /\ uploadingCount emptyQueue = 0%nat
  /\ (let item := {| id := "q1w2e3r4t"; file := Samples.oggFile; progress := 0;
                     status := error;
                     error_text :=
                       Some "Unsupported video format. Please use WebM, MP4, AVI, or MOV files";
                     retryCount := 0 |} in
      let q' := addFiles Samples.defaultMaxFileSize 5 ["q1w2e3r4t"] [Samples.oggFile]
                  emptyQueue in
      uploadFiles q' = (uploadFiles emptyQueue ++ [item])%list
      /\ retryButtonShown item = true
      /\ In "q1w2e3r4t"
           (sent (act Samples.defaultMaxFileSize 5 q' (ClickUploadAll (fun _ => None))))).
Proof.
  assert (H : (length (uploadFiles emptyQueue) + 1 <= 5)%nat) by (cbn; lia).
  split; [reflexivity|]. split; [exact H|]. split; [reflexivity|].
  exact (rejected_file_is_still_uploaded Samples.defaultMaxFileSize 5 emptyQueue
           "q1w2e3r4t" Samples.oggFile _ eq_refl H eq_refl).
Defined.

(** *** Progress and declared duration *)

Lemma percent_full total : 0 < total -> percent total total = 100.
Proof.
  intros Ht. unfold percent.
  replace (total <=? 0) with false by lia.
  set (L := Z.log2 total).
  assert (HL : 0 <= L) by apply Z.log2_nonneg.
  assert (Hs : 0 < 2 ^ (L + 54)) by (apply Z.pow_pos_nonneg; lia).
  assert (Hq : round53 (total * 2 ^ (L + 54)) total = 2 ^ (L + 54)).
  { unfold round53. rewrite (Z.mul_comm total), Z.div_mul by lia.
    rewrite Z.log2_pow2 by lia.
    replace (L + 54 - 52) with (L + 2) by lia.
    replace (2 ^ (L + 54) * total) with (2 ^ 52 * (total * 2 ^ (L + 2))).
    2:{ replace (L + 54) with (52 + (L + 2)) by lia. rewrite (Z.pow_add_r 2 52 (L + 2)) by lia. ring. }
    rewrite NumberSpec.nearest_even_exact.
    - rewrite <- Z.pow_add_r by lia. f_equal. lia.
    - assert (0 < 2 ^ (L + 2)) by (apply Z.pow_pos_nonneg; lia). lia. }
  rewrite Hq.
  assert (Hp : round53 (100 * 2 ^ (L + 54)) 1 = 100 * 2 ^ (L + 54)).
  { unfold round53. rewrite Z.div_1_r.
    rewrite Z.log2_mul_pow2 by lia. change (Z.log2 100) with 6.
    replace (L + 54 + 6 - 52) with (L + 8) by lia.
    replace (100 * 2 ^ (L + 54)) with (100 * 2 ^ 46 * (1 * 2 ^ (L + 8))).
    2:{ replace (L + 54) with (46 + (L + 8)) by lia. rewrite (Z.pow_add_r 2 46 (L + 8)) by lia. ring. }
    rewrite NumberSpec.nearest_even_exact; [ring|].
    assert (0 < 2 ^ (L + 8)) by (apply Z.pow_pos_nonneg; lia). lia. }
  rewrite Hp.
  replace (2 * (100 * 2 ^ (L + 54)) + 2 ^ (L + 54)) with (201 * 2 ^ (L + 54)) by ring.
  rewrite Z.div_mul_cancel_r by lia. reflexivity.
Qed.

Lemma percent_mono loaded loaded' total :
  0 < total -> 0 <= loaded <= loaded' ->
  0 <= percent loaded total <= percent loaded' total.
Proof.
  intros Ht Hl. unfold percent.
  set (scale := 2 ^ (Z.log2 total + 54)).
  assert (HL : 0 <= Z.log2 total) by apply Z.log2_nonneg.
  assert (Hs : 0 < scale) by (apply Z.pow_pos_nonneg; lia).
  assert (Hbig : 2 ^ 53 * total <= scale).
  { unfold scale. destruct (Z.log2_spec total Ht) as [_ Hhi].
    replace (Z.log2 total + 54) with (53 + Z.succ (Z.log2 total)) by lia.
    rewrite Z.pow_add_r by lia.
    assert (0 < 2 ^ 53) by (apply Z.pow_pos_nonneg; lia). nia. }
  assert (Hpre : forall l, 0 < l -> 2 ^ 53 * total <= l * scale) by (intros; nia).
  assert (Hq53 : forall l, 0 < l -> 2 ^ 53 <= round53 (l * scale) total).
  { intros l Hl0. unfold round53.
    destruct (NumberSpec.round53_mantissa (l * scale) total Ht (Hpre l Hl0)) as (He & Hm).
    set (e := Z.log2 (l * scale / total) - 52) in *.
    assert (2 ^ 1 <= 2 ^ e) by (apply Z.pow_le_mono_r; lia).
    change (2 ^ 1) with 2 in *. change (2 ^ 53) with (2 ^ 52 * 2). nia. }
  assert (Hnn : forall l, 0 < l ->
            0 <= (2 * round53 (100 * round53 (l * scale) total) 1 + scale) / (2 * scale)).
  { intros l Hl0. apply Z.div_pos; [|lia].
    pose proof (Hq53 l Hl0).
    pose proof (NumberSpec.round53_lower (100 * round53 (l * scale) total) ltac:(lia)). lia. }
  destruct (loaded <=? 0) eqn:E0; destruct (loaded' <=? 0) eqn:E1.
  - lia.
  - split; [lia|]. apply Hnn. lia.
  - lia.
  - split; [apply Hnn; lia|].
    apply Z.div_le_mono; [lia|].
    assert (Hq : round53 (loaded * scale) total <= round53 (loaded' * scale) total).
    { apply NumberSpec.round53_mono; [exact Ht | apply Hpre; lia | nia]. }
    assert (Hp : round53 (100 * round53 (loaded * scale) total) 1
                 <= round53 (100 * round53 (loaded' * scale) total) 1).
    { apply NumberSpec.round53_mono; [lia | | lia]. pose proof (Hq53 loaded ltac:(lia)). lia. }
    lia.
Qed.

(** X15. The progress shown for a request stays between 0 and 100: for a
    progress event with [0 <= loaded <= total] and [total > 0] the
    percentage, computed in doubles as the code does, is within these
    bounds and never goes down when [loaded] grows; it is 100 when
    everything is loaded, and a successful load sets it to 100. *)
Theorem progress_within_bounds (loaded loaded' total : Z) :
  0 <= loaded <= loaded' -> loaded' <= total -> 0 < total ->
  0 <= percent loaded total <= percent loaded' total
  /\ percent loaded' total <= 100
  /\ percent total total = 100
  /\ forall f, progress (mark_success f) = 100.
Proof.
  intros Hl Hl' Ht.
  pose proof (percent_mono loaded loaded' total Ht Hl) as H1.
  pose proof (percent_mono loaded' total total Ht ltac:(lia)) as H2.
  rewrite (percent_full total Ht) in H2.
  split; [exact H1|]. split; [lia|]. split; [apply percent_full; exact Ht|].
  intros f. reflexivity.
Qed.

Lemma progress_within_bounds_witness :
  0 <= 7602176 <= 7864320 /\ 7864320 <= 52428800 /\ 0 < 52428800
  /\ 0 <= percent 7602176 52428800 <= percent 7864320 52428800
  /\ percent 7864320 52428800 <= 100
  /\ percent 52428800 52428800 = 100
  /\ forall f, progress (mark_success f) = 100.
Proof.
  assert (H1 : 0 <= 7602176 <= 7864320) by lia.
  assert (H2 : 7864320 <= 52428800) by lia.
  assert (H3 : 0 < 52428800) by lia.
  split; [exact H1|]. split; [exact H2|]. split; [exact H3|].
  exact (progress_within_bounds 7602176 7864320 52428800 H1 H2 H3).
Defined.

(** Doubles at work: 7602176 of 52428800 bytes is 14.5 percent on paper;
    the quotient as a double is a little less, and the progress shown is
    14, where 1 of 8 bytes, 12.5 percent in doubles too, shows 13. *)
Example percent_examples :
  percent 7602176 52428800 = 14 /\ percent 7864320 52428800 = 15
  /\ percent 1 8 = 13 /\ percent 1 3 = 33 /\ percent 0 8 = 0.
Proof. vm_compute. repeat split. Qed.

(** A printed number has no [0x] in front: the one-argument [parseInt]
    reads it in base ten. *)
Lemma parseInt_auto_uint d :
  parseInt (NilEmpty.string_of_uint d) None
  = parseInt (NilEmpty.string_of_uint d) (Some 10).
Proof.
  destruct d as [|d|d|d|d|d|d|d|d|d|d]; try reflexivity.
  destruct d; reflexivity.
Qed.

Lemma parseInt_auto_Z_toString n :
  0 <= n -> parseInt (Z_toString n) None = Num n.
Proof.
  intros Hn. destruct (ParseSpec.Z_toString_nonneg n Hn) as (d & Hd & E & V).
  rewrite E, parseInt_auto_uint, <- (ParseSpec.append_empty (NilEmpty.string_of_uint d)), <- V.
  apply ParseSpec.parseInt_uint; [exact Hd | exact I].
Qed.

(** The number the route reads from a printed number up to 2^53. *)
Lemma Number_parseInt_auto_Z_toString n :
  0 <= n <= 2 ^ 53 -> Number_parseInt (Z_toString n) None = Num n.
Proof.
  intros Hn. unfold Number_parseInt. rewrite parseInt_auto_Z_toString by lia.
  apply NumberSpec.toNumber_exact. lia.
Qed.

Lemma estimatedDuration_bounds size : 0 <= size -> 0 <= estimatedDuration size <= 180.
Proof.
  intros H. unfold estimatedDuration.
  assert (0 <= (20 * size + 1048576) / 2097152) by (apply Z.div_pos; lia).
  lia.
Qed.

(** X16. The duration the queue declares for a file is its size in
    megabytes times ten, rounded, and never more than 180; the server
    reads it back unchanged, so the document [POST] builds from the
    queue's form has a duration within the schema's 0..180 whatever the
    size of the file, and grows with the size. *)
Theorem declared_duration_within_schema
  (env : Server.Env) (f g : Server.Recordings.FormFile) (name : string) :
  Server.Recordings.ff_size f <= Server.Recordings.ff_size g ->
  let d := Server.rec_duration (Server.Recordings.new_Recording env (uploadForm f) f name) in
  d = estimatedDuration (Server.Recordings.ff_size f)
  /\ 0 <= d <= 180
  /\ d <= estimatedDuration (Server.Recordings.ff_size g)
  /\ (18874368 <= Server.Recordings.ff_size f -> d = 180).
Proof.
  intros Hle d.
  assert (Hf : 0 <= Server.Recordings.ff_size f) by (unfold Server.Recordings.ff_size; lia).
  pose proof (estimatedDuration_bounds _ Hf) as Hb.
  assert (Hd : d = estimatedDuration (Server.Recordings.ff_size f)).
  { unfold d, Server.Recordings.new_Recording, uploadForm.
    cbn [Server.rec_duration Server.Recordings.form_duration Server.Recordings.field_text].
    change (Server.Recordings.field_text (Some ?x)) with x.
    assert (H53 : 180 <= 2 ^ 53) by (vm_compute; discriminate).
    rewrite Number_parseInt_auto_Z_toString by lia. unfold num_or.
    destruct (estimatedDuration (Server.Recordings.ff_size f) =? 0) eqn:E; lia. }
  split; [exact Hd|]. split; [lia|]. rewrite Hd. split.
  - unfold estimatedDuration. apply Z.min_le_compat_r. apply Z.div_le_mono; lia.
  - intros Hbig. unfold estimatedDuration. apply Z.min_r.
    apply Z.div_le_lower_bound; lia.
Qed.

Lemma declared_duration_within_schema_witness :
  Server.Recordings.ff_size Samples.lateFile <= Server.Recordings.ff_size Samples.lateFile
  /\ (let d := Server.rec_duration
                 (Server.Recordings.new_Recording Samples.env0
                    (uploadForm Samples.lateFile) Samples.lateFile "recording-x.webm") in
      d = estimatedDuration (Server.Recordings.ff_size Samples.lateFile)
      /\ 0 <= d <= 180
      /\ d <= estimatedDuration (Server.Recordings.ff_size Samples.lateFile)
      /\ (18874368 <= Server.Recordings.ff_size Samples.lateFile -> d = 180)).
Proof.
  assert (H : Server.Recordings.ff_size Samples.lateFile
              <= Server.Recordings.ff_size Samples.lateFile) by lia.
  split; [exact H|].
  exact (declared_duration_within_schema Samples.env0 Samples.lateFile Samples.lateFile
           "recording-x.webm" H).
Defined.

End UploadMore.

(** ** More properties of the capture component *)

Module CaptureMore.
Import Recorder Capture.

Lemma same_session_refl c : same_session c c.
Proof. repeat split. Qed.

Lemma same_session_trans a b c :
  same_session a b -> same_session b c -> same_session a c.
Proof.
  unfold same_session. intros (A1 & A2 & A3 & A4 & A5 & A6 & A7 & A8)
                              (B1 & B2 & B3 & B4 & B5 & B6 & B7 & B8).
  repeat split; congruence.
Qed.

Lemma capturing_step c e :
  capturing e = true ->
  0 <= recordingTime (state c) <= 180 ->
  timerRef c <> None ->
  same_session c (handle c e)
  /\ recordingTime (state (handle c e))
     = Z.min 180 (recordingTime (state c) + count_ticks [e]).
Proof.
  intros He Hr Ht. destruct e; try discriminate He; cbn [handle count_ticks].
  - destruct (timerRef c) as [t|]; [|congruence].
    unfold intervalCallback, timerCallback. rewrite RecorderSpec.stale_stop_noop.
    destruct (180 <=? recordingTime (state c)) eqn:E.
    + split; [apply same_session_refl | lia].
    + split; [repeat split | cbn; lia].
  - unfold ondataavailable. destruct (0 <? blob_size b);
      (split; [repeat split | cbn; lia]).
Qed.

Lemma count_ticks_nonneg evs : 0 <= count_ticks evs.
Proof.
  induction evs as [|e evs IH]; [cbn; lia|]. destruct e; cbn [count_ticks]; lia.
Qed.

Lemma capturing_run evs : forall c,
  forallb capturing evs = true ->
  0 <= recordingTime (state c) <= 180 ->
  timerRef c <> None ->
  same_session c (run c evs)
  /\ recordingTime (state (run c evs))
     = Z.min 180 (recordingTime (state c) + count_ticks evs).
Proof.
  induction evs as [|e evs IH]; intros c Hall Hr Ht.
  - split; [apply same_session_refl | cbn; lia].
  - cbn [forallb] in Hall. apply andb_true_iff in Hall as [He Hall].
    change (run c (e :: evs)) with (run (handle c e) evs).
    destruct (capturing_step c e He Hr Ht) as (S1 & T1).
    assert (Hce : 0 <= count_ticks [e]) by apply count_ticks_nonneg.
    destruct (IH (handle c e) Hall) as (S2 & T2).
    + rewrite T1. lia.
    + destruct S1 as (_ & _ & _ & _ & -> & _). exact Ht.
    + split; [exact (same_session_trans _ _ _ S1 S2)|].
      rewrite T2, T1.
      assert (count_ticks (e :: evs) = count_ticks [e] + count_ticks evs)
        by (destruct e; cbn [count_ticks]; lia).
      pose proof (count_ticks_nonneg evs). lia.
Qed.

(** The Stop button on a recording session, field by field. *)
Lemma click_stop_fields c r s :
  mediaRecorderRef c = Some r ->
  isRecording (state c) = true ->
  stream (state c) = Some s ->
  let c' := handle c ClickStop in
  mediaRecorderRef c' = Some (recorder_stop r)
  /\ timerRef c' = None
  /\ audioContextRef c' = None
  /\ stream (state c') = None
  /\ stoppedTracks c' = (stoppedTracks c ++ s)%list
  /\ recordingTime (state c') = recordingTime (state c)
  /\ isRecording (state c') = true
  /\ chunksRef c' = chunksRef c.
Proof.
  intros Hr Hrec Hs. cbn [handle]. unfold stopRecording. rewrite Hr, Hrec, Hs.
  unfold close_audioContext, stopTimer. cbn.
  destruct (timerRef c) eqn:Et; cbn; destruct (audioContextRef c) eqn:Ea; cbn;
    rewrite ?Et, ?Ea; repeat split; try reflexivity; try assumption.
Qed.

Lemma onstop_fields m c :
  let c' := onstop m c in
  timerRef c' = None
  /\ audioContextRef c' = None
  /\ isRecording (state c') = false
  /\ recordingTime (state c') = recordingTime (state c)
  /\ stream (state c') = stream (state c)
  /\ mediaRecorderRef c' = mediaRecorderRef c
  /\ stoppedTracks c' = stoppedTracks c.
Proof.
  unfold onstop, close_audioContext, stopTimer.
  destruct (0 <? blob_size _); cbn;
    destruct (timerRef c) eqn:Et; cbn; destruct (audioContextRef c) eqn:Ea; cbn;
    rewrite ?Et, ?Ea; repeat split; reflexivity.
Qed.

Lemma data_fields b c :
  let c' := ondataavailable b c in
  timerRef c' = timerRef c
  /\ audioContextRef c' = audioContextRef c
  /\ state c' = state c
  /\ mediaRecorderRef c' = mediaRecorderRef c
  /\ stoppedTracks c' = stoppedTracks c.
Proof. unfold ondataavailable. destruct (0 <? blob_size b); cbn; auto. Qed.

(** X17. A whole session: from a session that has just started, any run
    of ticks and fragments, then the Stop button, the encoder's last
    fragment and its stop event. At the end the state is not recording,
    timer and audio graph are gone, the stream is released and every track
    of it was stopped, the encoder is inactive, the time is the number of
    ticks (at most 180), and the recording is the concatenation of the
    fragments of positive size, the last one included. *)
Theorem session_from_start_to_stop
  (c : Component) (r : MediaRecorder) (s : MediaStream) (t : nat)
  (evs : list Event) (last : Blob) :
  isRecording (state c) = true ->
  timerRef c = Some t ->
  mediaRecorderRef c = Some r ->
  stream (state c) = Some s ->
  recordingTime (state c) = 0 ->
  chunksRef c = [] ->
  forallb capturing evs = true ->
  let c' := run c (evs ++ [ClickStop; DataAvailable last; RecorderStop]) in
  isRecording (state c') = false
  /\ timerRef c' = None
  /\ audioContextRef c' = None
  /\ stream (state c') = None
  /\ mediaRecorderRef c' = Some (recorder_stop r)
  /\ stoppedTracks c' = (stoppedTracks c ++ s)%list
  /\ recordingTime (state c') = Z.min 180 (count_ticks evs)
  /\ recordedBlob (state c')
     = Some (new_Blob (List.filter positive_length (fragments_of evs ++ [last]))
               (mr_mimeType r)).
Proof.
  intros Hrec Ht Hr Hs H0 Hch Hall c'.
  destruct (capturing_run evs c Hall) as ((S1 & S2 & _ & S4 & S5 & S6 & S7 & _) & T1);
    [lia | congruence |].
  set (c1 := run c evs) in *.
  assert (Hr1 : mediaRecorderRef c1 = Some r) by congruence.
  assert (Hrec1 : isRecording (state c1) = true) by congruence.
  assert (Hs1 : stream (state c1) = Some s) by congruence.
  destruct (click_stop_fields c1 r s Hr1 Hrec1 Hs1)
    as (K1 & K2 & K3 & K4 & K5 & K6 & K7 & K8).
  set (c2 := handle c1 ClickStop) in *.
  destruct (data_fields last c2) as (D1 & D2 & D3 & D4 & D5).
  set (c3 := ondataavailable last c2) in *.
  assert (Hc' : c' = onstop (recorder_mimeType c3) c3).
  { unfold c'. rewrite RecorderSpec.run_app. reflexivity. }
  destruct (onstop_fields (recorder_mimeType c3) c3) as (O1 & O2 & O3 & O4 & O5 & O6 & O7).
  rewrite <- Hc' in O1, O2, O3, O4, O5, O6, O7.
  assert (Hmime : recorder_mimeType c3 = mr_mimeType r).
  { unfold recorder_mimeType. rewrite D4, K1. reflexivity. }
  assert (Hchunks : chunksRef c3
                    = List.filter positive_length (fragments_of evs ++ [last])).
  { assert (E3 : c3 = run c (evs ++ [ClickStop; DataAvailable last]))
      by (rewrite RecorderSpec.run_app; reflexivity).
    rewrite E3, RecorderSpec.run_chunks, Hch, RecorderSpec.fragments_of_app.
    cbn [fragments_of app]. reflexivity. }
  split; [exact O3|]. split; [exact O1|]. split; [exact O2|].
  split; [rewrite O5, D3; exact K4|].
  split; [rewrite O6, D4; exact K1|].
  split; [rewrite O7, D5, K5, S7; reflexivity|].
  split; [rewrite O4, D3, K6, T1, H0; reflexivity|].
  rewrite Hc', RecorderSpec.onstop_recordedBlob, Hchunks, Hmime. reflexivity.
Qed.

Lemma session_from_start_to_stop_witness :
  isRecording (state Samples.started) = true
  /\ timerRef Samples.started = Some 1%nat
  /\ mediaRecorderRef Samples.started = Some Samples.startedRecorder
  /\ stream (state Samples.started)
     = Some [mkTrack VideoTrack FromDisplay; mixedTrack]
  /\ recordingTime (state Samples.started) = 0
  /\ chunksRef Samples.started = []
  /\ forallb capturing Samples.delivery = true
  /\ (let c' := run Samples.started
                  (Samples.delivery
                   ++ [ClickStop; DataAvailable (Samples.fragment [Byte.x04]); RecorderStop]) in
      isRecording (state c') = false
      /\ timerRef c' = None
      /\ audioContextRef c' = None
      /\ stream (state c') = None
      /\ mediaRecorderRef c' = Some (recorder_stop Samples.startedRecorder)
      /\ stoppedTracks c'
         = (stoppedTracks Samples.started
            ++ [mkTrack VideoTrack FromDisplay; mixedTrack])%list
      /\ recordingTime (state c') = Z.min 180 (count_ticks Samples.delivery)
      /\ recordedBlob (state c')
         = Some (new_Blob
                   (List.filter positive_length
                      (fragments_of Samples.delivery ++ [Samples.fragment [Byte.x04]]))
                   (mr_mimeType Samples.startedRecorder))).
Proof.
  split; [reflexivity|]. split; [reflexivity|]. split; [reflexivity|].
  split; [reflexivity|]. split; [reflexivity|]. split; [reflexivity|].
  split; [reflexivity|].
  exact (session_from_start_to_stop Samples.started Samples.startedRecorder
           [mkTrack VideoTrack FromDisplay; mixedTrack] 1 Samples.delivery
           (Samples.fragment [Byte.x04])
           eq_refl eq_refl eq_refl eq_refl eq_refl eq_refl eq_refl).
Defined.

(** What [startRecording] sets up when it mixes. *)
Lemma start_mixed b c ds ms v vs :
  micEnabled c = true ->
  getDisplayMedia b = Resolved ds ->
  getUserMedia b = Resolved ms ->
  getVideoTracks ds = v :: vs ->
  isTypeSupported b (selectMimeType b) = true ->
  let c' := startRecording b c in
  isRecording (state c') = true
  /\ stream (state c') = Some [v; mixedTrack]
  /\ (exists r, mediaRecorderRef c' = Some r)
  /\ stoppedTracks c' = stoppedTracks c.
Proof.
  intros Hm Hd Hu Hv Hsup c'. unfold c', startRecording. rewrite Hd.
  unfold addMicrophone. cbn [micEnabled set_error]. rewrite Hm, Hu.
  unfold mixAudio. rewrite Hv.
  destruct (0 <? length (getAudioTracks ds))%nat; cbn -[selectMimeType];
    unfold new_MediaRecorder; rewrite Hsup; cbn -[selectMimeType];
    destruct (RecorderSpec.video_track_kind ds v vs Hv) as [Hvid _];
    rewrite Hvid; cbn -[selectMimeType]; repeat split; eexists; reflexivity.
Qed.

(** X18. With the microphone mixed in, the Stop button stops the two
    tracks of the stream given to the encoder, the display's video track
    and the mixed track, and no other: [stop()] is called on nothing that
    belongs to the microphone stream or to the display's own audio. *)
Theorem stop_leaves_microphone_running
  (b : Browser) (c : Component) (ds ms : MediaStream) (v : Track) (vs : list Track) :
  micEnabled c = true ->
  getDisplayMedia b = Resolved ds ->
  getUserMedia b = Resolved ms ->
  getVideoTracks ds = v :: vs ->
  isTypeSupported b (selectMimeType b) = true ->
  stoppedTracks c = [] ->
  let c' := handle (startRecording b c) ClickStop in
  stoppedTracks c' = [v; mixedTrack]
  /\ forall t, In t (stoppedTracks c') -> is_audio t = true -> t = mixedTrack.
Proof.
  intros Hm Hd Hu Hv Hsup H0 c'.
  destruct (start_mixed b c ds ms v vs Hm Hd Hu Hv Hsup) as (S1 & S2 & (r & S3) & S4).
  destruct (click_stop_fields (startRecording b c) r [v; mixedTrack] S3 S1 S2)
    as (_ & _ & _ & _ & K5 & _).
  fold c' in K5. rewrite S4, H0 in K5. cbn [app] in K5.
  split; [exact K5|].
  destruct (RecorderSpec.video_track_kind ds v vs Hv) as [_ Haud].
  intros t Ht Ha. rewrite K5 in Ht. destruct Ht as [<- | [<- | []]].
  - congruence.
  - reflexivity.
Qed.

Lemma stop_leaves_microphone_running_witness :
  micEnabled mount = true
  /\ getDisplayMedia Samples.grantsAll = Resolved Samples.displayWithAudio
  /\ getUserMedia Samples.grantsAll = Resolved Samples.micStream
  /\ getVideoTracks Samples.displayWithAudio = [mkTrack VideoTrack FromDisplay]
  /\ isTypeSupported Samples.grantsAll (selectMimeType Samples.grantsAll) = true
  /\ stoppedTracks mount = []
  /\ (let c' := handle (startRecording Samples.grantsAll mount) ClickStop in
      stoppedTracks c' = [mkTrack VideoTrack FromDisplay; mixedTrack]
      /\ forall t, In t (stoppedTracks c') -> is_audio t = true -> t = mixedTrack).
Proof.
  split; [reflexivity|]. split; [reflexivity|]. split; [reflexivity|].
  split; [reflexivity|]. split; [reflexivity|]. split; [reflexivity|].
  exact (stop_leaves_microphone_running Samples.grantsAll mount Samples.displayWithAudio
           Samples.micStream (mkTrack VideoTrack FromDisplay) []
           eq_refl eq_refl eq_refl eq_refl eq_refl eq_refl).
Defined.

(** X19. Once a session is over (not recording, timer cleared), time
    stands still and Stop does nothing: any run of ticks and clicks on
    Stop leaves the component exactly as it is. *)
Theorem stopped_session_is_frozen (c : Component) (evs : list Event) :
  isRecording (state c) = false ->
  timerRef c = None ->
  forallb tick_or_click evs = true ->
  run c evs = c.
Proof.
  intros Hrec Ht. induction evs as [|e evs IH]; intros Hall; [reflexivity|].
  cbn [forallb] in Hall. apply andb_true_iff in Hall as [He Hall].
  change (run c (e :: evs)) with (run (handle c e) evs).
  assert (Hstep : handle c e = c).
  { destruct e; try discriminate He; cbn [handle].
    - rewrite Ht. reflexivity.
    - unfold stopRecording. rewrite Hrec. destruct (mediaRecorderRef c); reflexivity. }
  rewrite Hstep. exact (IH Hall).
Qed.

Lemma stopped_session_is_frozen_witness :
  isRecording (state Samples.finished) = false
  /\ timerRef Samples.finished = None
  /\ forallb tick_or_click [Tick; ClickStop; Tick] = true
  /\ run Samples.finished [Tick; ClickStop; Tick] = Samples.finished.
Proof.
  split; [reflexivity|]. split; [reflexivity|]. split; [reflexivity|].
  exact (stopped_session_is_frozen Samples.finished [Tick; ClickStop; Tick]
           eq_refl eq_refl eq_refl).
Defined.

(** The session of the witness has been through a recording: its encoder
    is still there, inactive, and its recording is kept; the click on Stop
    gets as far as the test of [isRecording]. *)
Example finished_session :
  mediaRecorderRef Samples.finished = Some (recorder_stop Samples.startedRecorder)
  /\ option_map blob_size (recordedBlob (state Samples.finished)) = Some 4
  /\ recordingTime (state Samples.finished) = 1.
Proof. lazy. repeat split. Qed.

Lemma addMicrophone_state b ds c :
  state (snd (addMicrophone b ds c)) = state c.
Proof.
  unfold addMicrophone. destruct (micEnabled c); [|reflexivity].
  destruct (getUserMedia b) as [ms|t]; [|reflexivity].
  destruct (mixAudio (typeErrorMessage b) ds ms) as [ctx [fs|t]]; reflexivity.
Qed.

Lemma selectMimeType_supported b :
  isTypeSupported b (selectMimeType b) = true
  <-> isTypeSupported b "video/webm;codecs=vp9,opus" = true
      \/ isTypeSupported b "video/webm;codecs=vp8,opus" = true
      \/ isTypeSupported b "video/webm" = true.
Proof.
  unfold selectMimeType.
  destruct (isTypeSupported b "video/webm;codecs=vp9,opus") eqn:E9;
    [rewrite E9; tauto|].
  destruct (isTypeSupported b "video/webm;codecs=vp8,opus") eqn:E8;
    [rewrite E8; tauto|].
  split; [intros H; right; right; exact H | intros [H | [H | H]]; congruence].
Qed.

(** X20. A session starts exactly when the display capture is granted and
    the browser can record at least one of the three WebM types the code
    tries; the type it picks always begins with "video/". When the display
    is granted and none of the three is supported, nothing starts and the
    "not supported in this browser" message is shown. *)
Theorem start_succeeds_iff (b : Browser) (c : Component) :
  isRecording (state c) = false ->
  let c' := startRecording b c in
  (recording_session c'
   <-> (exists ds, getDisplayMedia b = Resolved ds)
       /\ (isTypeSupported b "video/webm;codecs=vp9,opus" = true
           \/ isTypeSupported b "video/webm;codecs=vp8,opus" = true
           \/ isTypeSupported b "video/webm" = true))
  /\ startsWith "video/" (selectMimeType b) = true
  /\ ((exists ds, getDisplayMedia b = Resolved ds) ->
      isTypeSupported b (selectMimeType b) = false ->
      isRecording (state c') = false
      /\ error c'
         = Some "Failed to start recording. Screen recording is not supported in this browser.").
Proof.
  intros Hrec c'.
  assert (Hmime : startsWith "video/" (selectMimeType b) = true).
  { unfold selectMimeType.
    destruct (isTypeSupported b _); [reflexivity|].
    destruct (isTypeSupported b _); reflexivity. }
  assert (Hfail : forall ds, getDisplayMedia b = Resolved ds ->
                    isTypeSupported b (selectMimeType b) = false ->
                    isRecording (state c') = false
                    /\ error c'
                       = Some "Failed to start recording. Screen recording is not supported in this browser.").
  { intros ds Hd Hs. unfold c', startRecording. rewrite Hd.
    pose proof (addMicrophone_state b ds (set_error None c)) as Hst.
    destruct (addMicrophone b ds (set_error None c)) as [fs c1]. cbn [snd] in Hst.
    unfold new_MediaRecorder. rewrite Hs. cbn [set_error state error].
    rewrite Hst. split; [exact Hrec | reflexivity]. }
  split; [|split; [exact Hmime|]].
  - rewrite <- selectMimeType_supported. split.
    + intros (Hr & _).
      destruct (getDisplayMedia b) as [ds|t] eqn:Hd.
      * split; [eexists; reflexivity|].
        destruct (isTypeSupported b (selectMimeType b)) eqn:Hs; [reflexivity|].
        destruct (Hfail ds eq_refl eq_refl) as [Hn _]. congruence.
      * unfold c', startRecording in Hr. rewrite Hd in Hr. cbn in Hr. congruence.
    + intros ((ds & Hd) & Hs). unfold c', startRecording. rewrite Hd.
      destruct (addMicrophone b ds (set_error None c)) as [fs c1].
      unfold new_MediaRecorder. rewrite Hs.
      destruct (getVideoTracks fs); cbn -[selectMimeType];
        (split; [reflexivity|]; split; [discriminate|]; eexists; split; reflexivity).
  - intros (ds & Hd) Hs. exact (Hfail ds Hd Hs).
Qed.

Lemma start_succeeds_iff_witness :
  isRecording (state mount) = false
  /\ (let c' := startRecording Samples.recordsNothing mount in
      (recording_session c'
       <-> (exists ds, getDisplayMedia Samples.recordsNothing = Resolved ds)
           /\ (isTypeSupported Samples.recordsNothing "video/webm;codecs=vp9,opus" = true
               \/ isTypeSupported Samples.recordsNothing "video/webm;codecs=vp8,opus" = true
               \/ isTypeSupported Samples.recordsNothing "video/webm" = true))
      /\ startsWith "video/" (selectMimeType Samples.recordsNothing) = true
      /\ ((exists ds, getDisplayMedia Samples.recordsNothing = Resolved ds) ->
          isTypeSupported Samples.recordsNothing (selectMimeType Samples.recordsNothing)
          = false ->
          isRecording (state c') = false
          /\ error c'
             = Some "Failed to start recording. Screen recording is not supported in this browser.")).
Proof.
  split; [reflexivity|].
  exact (start_succeeds_iff Samples.recordsNothing mount eq_refl).
Defined.

(** *** Uploading a recording *)

Lemma length_append (a b : string) :
  String.length (a ++ b) = (String.length a + String.length b)%nat.
Proof.
  induction a as [|x a IH]; [reflexivity|].
  change (String x a ++ b) with (String x (a ++ b)). cbn [String.length]. rewrite IH.
  reflexivity.
Qed.

Lemma length_skip_space s : (String.length (skip_space s) <= String.length s)%nat.
Proof.
  induction s as [|a s IH]; [reflexivity|].
  cbn [skip_space]. destruct (is_space a); cbn [String.length]; lia.
Qed.

Lemma length_rev_string s : forall acc,
  String.length (rev_string acc s) = (String.length acc + String.length s)%nat.
Proof.
  induction s as [|a s IH]; intros acc; cbn [rev_string String.length]; [lia|].
  rewrite IH. cbn [String.length]. lia.
Qed.

Lemma length_trim s : (String.length (trim s) <= String.length s)%nat.
Proof.
  unfold trim. rewrite length_rev_string. cbn [String.length].
  pose proof (length_skip_space (rev_string "" (skip_space s))) as H1.
  rewrite length_rev_string in H1. cbn [String.length] in H1.
  pose proof (length_skip_space s). lia.
Qed.

Lemma skip_space_empty s : skip_space s = "" -> all_space s = true.
Proof.
  induction s as [|a s IH]; [reflexivity|].
  cbn [skip_space all_space]. destruct (is_space a); [exact IH | discriminate].
Qed.

Lemma all_space_rev s : forall acc,
  all_space (rev_string acc s) = all_space acc && all_space s.
Proof.
  induction s as [|a s IH]; intros acc; cbn [rev_string all_space].
  - rewrite andb_true_r. reflexivity.
  - rewrite IH. cbn [all_space]. destruct (is_space a), (all_space acc); reflexivity.
Qed.

(** A string that begins with something other than white space is not
    trimmed away. *)
Lemma trim_nonempty a s : is_space a = false -> trim (String a s) <> "".
Proof.
  intros Ha Ht. unfold trim in Ht. cbn [skip_space] in Ht. rewrite Ha in Ht.
  assert (Hlen : String.length (rev_string "" (skip_space (rev_string "" (String a s)))) = 0%nat)
    by (rewrite Ht; reflexivity).
  rewrite length_rev_string in Hlen. cbn [String.length] in Hlen.
  assert (Hz : skip_space (rev_string "" (String a s)) = "").
  { destruct (skip_space (rev_string "" (String a s))); [reflexivity | discriminate Hlen]. }
  apply skip_space_empty in Hz. rewrite all_space_rev in Hz.
  cbn [all_space] in Hz. rewrite Ha in Hz. discriminate Hz.
Qed.

Lemma recording_document_valid env clk blob t name :
  startsWith "video/" (blob_type blob) = true ->
  0 <= t <= 180 ->
  (String.length (localeString clk) <= 100)%nat ->
  name <> "" ->
  let file := {| Server.Recordings.ff_name := "recording-" ++ Z_toString (dateNow clk) ++ ".webm";
                 Server.Recordings.ff_type := blob_type blob;
                 Server.Recordings.ff_content := blob_bytes blob |} in
  let doc := Server.Recordings.new_Recording env (recordingForm clk blob t) file name in
  Server.Recordings.validate doc = true
  /\ Server.rec_duration doc = t
  /\ Server.rec_size doc = blob_size blob
  /\ Server.rec_contentType doc = blob_type blob.
Proof.
  intros Hty Ht Hloc Hname file doc.
  assert (Hd : Server.rec_duration doc = t).
  { unfold doc, Server.Recordings.new_Recording, recordingForm.
    cbn [Server.rec_duration Server.Recordings.form_duration].
    change (Server.Recordings.field_text (Some ?x)) with x.
    assert (H53 : 180 <= 2 ^ 53) by (vm_compute; discriminate).
    rewrite UploadMore.Number_parseInt_auto_Z_toString by lia. unfold num_or.
    destruct (t =? 0) eqn:E; lia. }
  split; [|split; [exact Hd|split; reflexivity]].
  unfold Server.Recordings.validate. rewrite Hd.
  set (title := Server.rec_title doc).
  assert (Htitle : title = trim ("Screen Recording " ++ localeString clk)) by reflexivity.
  assert (Hne : title <> "").
  { rewrite Htitle. apply (trim_nonempty "S"). reflexivity. }
  assert (Hlen : (String.length title <= 200)%nat).
  { rewrite Htitle. pose proof (length_trim ("Screen Recording " ++ localeString clk)) as H.
    rewrite length_append in H. cbn [String.length] in H. lia. }
  rewrite (ServerSpec.eqb_empty_false title Hne).
  change (Server.rec_filename doc) with name.
  rewrite (ServerSpec.eqb_empty_false name Hname).
  change (Server.rec_contentType doc) with (blob_type blob). rewrite Hty.
  change (Server.rec_size doc) with (blob_size blob).
  cbn [negb andb].
  rewrite (proj2 (Nat.leb_le _ _) Hlen).
  rewrite (proj2 (Z.leb_le 0 (blob_size blob)) (Nat2Z.is_nonneg _)).
  rewrite (proj2 (Z.leb_le _ _) (proj1 Ht)), (proj2 (Z.leb_le _ _) (proj2 Ht)).
  reflexivity.
Qed.

(** X21. What the recorder uploads is what the server later serves: for
    a finished recording whose type begins with "video/", of at most
    100MB and at most 180 seconds, uploaded when the database works and
    the file name is free, [uploadRecording] ends in "success", clears the
    recording and the time, and dispatches the refresh event once; the
    new document carries the recorded time as duration and the blob's size
    and type, and a [GET] of it delivers the recorded bytes. *)
Theorem recorded_upload_round_trip
  (env env' : Server.Env) (clk : UploadClock) (p : Page) (db : Server.Db) (blob : Blob) :
  recordedBlob (state (component p)) = Some blob ->
  startsWith "video/" (blob_type blob) = true ->
  blob_size blob <= Server.Recordings.maxSize ->
  0 <= recordingTime (state (component p)) <= 180 ->
  (String.length (localeString clk) <= 100)%nat ->
  Server.connectToDatabase_fails env = false ->
  Server.upload_fails env = false ->
  Server.insert_fails env = false ->
  Server.Recordings.filename_taken (Server.Recordings.upload_name env) db = false ->
  Server.ObjectId_isValid env' (Server.new_recordId env) = true ->
  Server.connectToDatabase_fails env' = false ->
  let p' := fst (uploadRecording None env clk p db) in
  let db' := snd (uploadRecording None env clk p db) in
  uploadStatus p' = UploadSuccess
  /\ recordedBlob (state (component p')) = None
  /\ recordingTime (state (component p')) = 0
  /\ error (component p') = None
  /\ uploadedEvents p' = S (uploadedEvents p)
  /\ (exists doc,
        Server.recordings db' !! Server.new_recordId env = Some doc
        /\ Server.rec_duration doc = recordingTime (state (component p))
        /\ Server.rec_size doc = blob_size blob
        /\ Server.rec_contentType doc = blob_type blob)
  /\ Server.status (Server.RecordingById.GET env' db' (Server.new_recordId env) None) = 200
  /\ exists st,
       Server.body (Server.RecordingById.GET env' db' (Server.new_recordId env) None)
       = Server.StreamBody st
       /\ Server.stream_bytes db' st = Some (blob_bytes blob).
Proof.
  intros Hb Hty Hsz Ht Hloc Hc Hu Hi Hn Hv' Hc' p' db'.
  set (file := {| Server.Recordings.ff_name :=
                    "recording-" ++ Z_toString (dateNow clk) ++ ".webm";
                  Server.Recordings.ff_type := blob_type blob;
                  Server.Recordings.ff_content := blob_bytes blob |}).
  set (form := recordingForm clk blob (recordingTime (state (component p)))).
  assert (Hname : Server.Recordings.upload_name env <> "") by discriminate.
  destruct (recording_document_valid env clk blob _ _ Hty Ht Hloc Hname)
    as (Hval & Hd & Hs & Hct).
  assert (HP := ServerMore.POST_accepted env db form file eq_refl Hty Hsz Hc Hu Hi Hval Hn).
  assert (E : uploadRecording None env clk p db
              = ({| component :=
                      set_state (fun prev =>
                        {| isRecording := isRecording prev; isPaused := isPaused prev;
                           recordedBlob := None; recordingTime := 0;
                           stream := stream prev |}) (set_error None (component p));
                    uploadStatus := UploadSuccess;
                    uploadedEvents := S (uploadedEvents p) |},
                 snd (Server.Recordings.POST env db form))).
  { unfold uploadRecording. rewrite Hb. fold form. rewrite HP. reflexivity. }
  unfold p', db'. rewrite E. cbn [fst snd component uploadStatus uploadedEvents].
  split; [reflexivity|]. split; [reflexivity|]. split; [reflexivity|].
  split; [reflexivity|]. split; [reflexivity|].
  rewrite HP. cbn [snd Server.recordings]. split.
  - eexists. split; [apply lookup_insert_eq|]. split; [exact Hd|]. split; [exact Hs | exact Hct].
  - unfold Server.RecordingById.GET. rewrite Hv', Hc'. cbn [negb Server.recordings Server.fs_files].
    rewrite lookup_insert_eq.
    cbn [Server.rec_fileId Server.Recordings.new_Recording].
    rewrite lookup_insert_eq. cbn [Server.status Server.body].
    split; [reflexivity|]. eexists. split; [reflexivity|].
    unfold Server.stream_bytes. cbn [Server.ds_fileId Server.ds_range Server.fs_files].
    rewrite lookup_insert_eq. reflexivity.
Qed.

Lemma recorded_upload_round_trip_witness :
  recordedBlob (state (component Samples.recordedPage)) = Some Samples.recordedBlobSample
  /\ startsWith "video/" (blob_type Samples.recordedBlobSample) = true
  /\ blob_size Samples.recordedBlobSample <= Server.Recordings.maxSize
  /\ 0 <= recordingTime (state (component Samples.recordedPage)) <= 180
  /\ (String.length (localeString Samples.uploadClock) <= 100)%nat
  /\ Server.connectToDatabase_fails Samples.env0 = false
  /\ Server.upload_fails Samples.env0 = false
  /\ Server.insert_fails Samples.env0 = false
  /\ Server.Recordings.filename_taken (Server.Recordings.upload_name Samples.env0)
       Samples.emptyDb = false
  /\ Server.ObjectId_isValid Samples.env0 (Server.new_recordId Samples.env0) = true
  /\ Server.connectToDatabase_fails Samples.env0 = false
  /\ (let p' := fst (uploadRecording None Samples.env0 Samples.uploadClock
                       Samples.recordedPage Samples.emptyDb) in
      let db' := snd (uploadRecording None Samples.env0 Samples.uploadClock
                        Samples.recordedPage Samples.emptyDb) in
      uploadStatus p' = UploadSuccess
      /\ recordedBlob (state (component p')) = None
      /\ recordingTime (state (component p')) = 0
      /\ error (component p') = None
      /\ uploadedEvents p' = S (uploadedEvents Samples.recordedPage)
      /\ (exists doc,
            Server.recordings db' !! Server.new_recordId Samples.env0 = Some doc
            /\ Server.rec_duration doc = recordingTime (state (component Samples.recordedPage))
            /\ Server.rec_size doc = blob_size Samples.recordedBlobSample
            /\ Server.rec_contentType doc = blob_type Samples.recordedBlobSample)
      /\ Server.status (Server.RecordingById.GET Samples.env0 db'
                          (Server.new_recordId Samples.env0) None) = 200
      /\ exists st,
           Server.body (Server.RecordingById.GET Samples.env0 db'
                          (Server.new_recordId Samples.env0) None)
           = Server.StreamBody st
           /\ Server.stream_bytes db' st = Some (blob_bytes Samples.recordedBlobSample)).
Proof.
  assert (Hs : blob_size Samples.recordedBlobSample <= Server.Recordings.maxSize)
    by (vm_compute; discriminate).
  assert (Ht : 0 <= recordingTime (state (component Samples.recordedPage)) <= 180)
    by (split; vm_compute; discriminate).
  assert (Hl : (String.length (localeString Samples.uploadClock) <= 100)%nat)
    by (apply Nat.leb_le; reflexivity).
  split; [reflexivity|]. split; [reflexivity|]. split; [exact Hs|]. split; [exact Ht|].
  split; [exact Hl|]. split; [reflexivity|]. split; [reflexivity|]. split; [reflexivity|].
  split; [reflexivity|]. split; [reflexivity|]. split; [reflexivity|].
  exact (recorded_upload_round_trip Samples.env0 Samples.env0 Samples.uploadClock
           Samples.recordedPage Samples.emptyDb Samples.recordedBlobSample
           eq_refl eq_refl Hs Ht Hl eq_refl eq_refl eq_refl eq_refl eq_refl eq_refl).
Defined.




(** The three ways an upload of the sample recording ends, computed: the
    answer arrives; the request is never sent; the request is served and
    its answer is lost, which leaves the recording on the page and a copy
    of it on the server. *)
Example upload_endings :
  let run net := uploadRecording net Samples.env0 Samples.uploadClock
                   Samples.recordedPage Samples.emptyDb in
  let offline := Some {| fetch_thrown := ErrorObject "TypeError" "Failed to fetch";
                         fetch_served := false |} in
  let lost := Some {| fetch_thrown := ErrorObject "TypeError" "Failed to fetch";
                      fetch_served := true |} in
  uploadStatus (fst (run None)) = UploadSuccess
  /\ recordedBlob (state (component (fst (run None)))) = None
  /\ uploadStatus (fst (run offline)) = UploadError
  /\ snd (run offline) = Samples.emptyDb
  /\ uploadStatus (fst (run lost)) = UploadError
  /\ recordedBlob (state (component (fst (run lost)))) = Some Samples.recordedBlobSample
  /\ error (component (fst (run lost))) = Some "Failed to fetch"
  /\ option_map Server.rec_size
       (Server.recordings (snd (run lost)) !! "65f0000000000000000000a2") = Some 3.
Proof. vm_compute. repeat split. Qed.

(** *** The time on display *)







Example formatTime_examples :
  formatTime 0 = "00:00" /\ formatTime 65 = "01:05" /\ formatTime 180 = "03:00".
Proof. vm_compute. repeat split. Qed.

End CaptureMore.

(** ** The list of recordings against the API *)

Module ListMore.
Import RecordingsList.




(** The outcomes, computed: on a server in order the row goes; when the
    bucket refuses, the row stays and the alert carries the server's
    message; when the request is served and the answer is lost, the row
    stays on the list although its document is gone. *)
Example delete_click_examples :
  let lost := Some {| fetch_thrown := ErrorObject "TypeError" "Failed to fetch";
                      fetch_served := true |} in
  recordings (fst (deleteRecording true None Samples.env0 Samples.storedId
                     Samples.listed Samples.db0)) = []
  /\ playingId (fst (deleteRecording true None Samples.env0 Samples.storedId
                       Samples.listed Samples.db0)) = None
  /\ recordings (fst (deleteRecording true None Samples.envDeleteFails Samples.storedId
                        Samples.listed Samples.db0)) = [Samples.listedRow]
  /\ alerts (fst (deleteRecording true None Samples.envDeleteFails Samples.storedId
                    Samples.listed Samples.db0))
     = ["Failed to delete recording: Failed to delete recording"]
  /\ recordings (fst (deleteRecording true lost Samples.env0 Samples.storedId
                        Samples.listed Samples.db0)) = [Samples.listedRow]
  /\ alerts (fst (deleteRecording true lost Samples.env0 Samples.storedId
                    Samples.listed Samples.db0))
     = ["Failed to delete recording. Please try again."]
  /\ Server.recordings (snd (deleteRecording true lost Samples.env0 Samples.storedId
                               Samples.listed Samples.db0)) !! Samples.storedId = None.
Proof. vm_compute. repeat split. Qed.

End ListMore.
